(** * RGB+W LED generic driver (leds-rgbw-generic.c): a shallow embedding

    The development follows the C source function by function.  Kernel
    services (PWM core, GPIO, hrtimers) appear as events of a trace; the
    declarations of [rgbw.h], which the driver includes, are taken either
    as section variables (bit masks, tick lengths) or from the written
    specification (field widths). *)

From Stdlib Require Import ZArith List Bool Lia.
Import ListNotations.
Local Open Scope Z_scope.

(** ** Machine integers

    C integers are carried as [Z]; every operation that can wrap says so. *)

Definition u32 (x : Z) : Z := x mod 2 ^ 32.
Definition s32 (x : Z) : Z := (x + 2 ^ 31) mod 2 ^ 32 - 2 ^ 31.
Definition u64 (x : Z) : Z := x mod 2 ^ 64.
Definition s64 (x : Z) : Z := (x + 2 ^ 63) mod 2 ^ 64 - 2 ^ 63.

(** ** Outcomes

    A C expression whose behaviour is undefined (division by zero, a read
    outside an array) is a [Fault]; it is never a return value. *)

Inductive c_array : Type :=
| Arr_props
| Arr_levels
| Arr_pulse_val_table.

Inductive fault : Type :=
| DivByZero
| OutOfBounds (a : c_array).

Inductive outcome (A : Type) : Type :=
| Done (a : A)
| Fault (f : fault).
Arguments Done {A} a.
Arguments Fault {A} f.

(** ** Colours and per-colour arrays

    Modelled from the spec: [rgbw.h] is not part of the sources at hand.  The
    spec has four channels indexed Red/Green/Blue/White; the driver's
    [color_names] table and its "[R,G,B,W] format" comments give the order,
    and every loop runs from [COLOR_RED] to [MAX_COLORS]. *)

Inductive rgbw_colors : Type :=
| COLOR_RED
| COLOR_GREEN
| COLOR_BLUE
| COLOR_WHITE.

Definition MAX_COLORS : Z := 4.

Definition color_index (c : rgbw_colors) : Z :=
  match c with
  | COLOR_RED => 0
  | COLOR_GREEN => 1
  | COLOR_BLUE => 2
  | COLOR_WHITE => 3
  end.

Definition color_of_index (i : Z) : option rgbw_colors :=
  match i with
  | 0 => Some COLOR_RED
  | 1 => Some COLOR_GREEN
  | 2 => Some COLOR_BLUE
  | 3 => Some COLOR_WHITE
  | _ => None
  end.

Definition all_colors : list rgbw_colors :=
  [COLOR_RED; COLOR_GREEN; COLOR_BLUE; COLOR_WHITE].

(** A C array of [MAX_COLORS] elements: exactly four cells. *)
Record per_color (A : Type) : Type := mk_per_color {
  at_red : A;
  at_green : A;
  at_blue : A;
  at_white : A
}.
Arguments mk_per_color {A} _ _ _ _.
Arguments at_red {A} _.
Arguments at_green {A} _.
Arguments at_blue {A} _.
Arguments at_white {A} _.

Definition cell {A : Type} (a : per_color A) (c : rgbw_colors) : A :=
  match c with
  | COLOR_RED => at_red a
  | COLOR_GREEN => at_green a
  | COLOR_BLUE => at_blue a
  | COLOR_WHITE => at_white a
  end.

Definition set_cell {A : Type} (a : per_color A) (c : rgbw_colors) (x : A)
  : per_color A :=
  match c with
  | COLOR_RED => mk_per_color x (at_green a) (at_blue a) (at_white a)
  | COLOR_GREEN => mk_per_color (at_red a) x (at_blue a) (at_white a)
  | COLOR_BLUE => mk_per_color (at_red a) (at_green a) x (at_white a)
  | COLOR_WHITE => mk_per_color (at_red a) (at_green a) (at_blue a) x
  end.

Definition map_cells {A B : Type} (f : A -> B) (a : per_color A) : per_color B :=
  mk_per_color (f (at_red a)) (f (at_green a)) (f (at_blue a)) (f (at_white a)).

Definition map2_cells {A B C : Type} (f : A -> B -> C)
  (a : per_color A) (b : per_color B) : per_color C :=
  mk_per_color (f (at_red a) (at_red b)) (f (at_green a) (at_green b))
               (f (at_blue a) (at_blue b)) (f (at_white a) (at_white b)).

(** Read of a C array (a table of known length) at an [int] index. *)
Definition table_read (a : c_array) (t : list Z) (i : Z) : outcome Z :=
  if (0 <=? i) && (i <? Z.of_nat (length t))
  then Done (nth (Z.to_nat i) t 0)
  else Fault (OutOfBounds a).

(** ** The driver's data *)

Inductive rgbw_type : Type :=
| RGBW_TYPE_INVALID
| RGBW_PWM
| RGBW_GPIO.

Definition is_pwm (t : rgbw_type) : bool :=
  match t with RGBW_PWM => true | _ => false end.
Definition is_gpio (t : rgbw_type) : bool :=
  match t with RGBW_GPIO => true | _ => false end.

(** The part of [struct hrtimer] the driver looks at. *)
Record hrtimer : Type := mk_hrtimer {
  enqueued : bool;
  callback_running : bool
}.

Definition hrtimer_active (t : hrtimer) : bool :=
  enqueued t || callback_running t.
Definition hrtimer_callback_running (t : hrtimer) : bool :=
  callback_running t.

Record soft_pwm_device : Type := mk_soft_pwm {
  gpio : Z;
  value : Z;
  pwm_timer : hrtimer
}.

Record pwm_rgbw_data : Type := mk_pb {
  soft_pwm : per_color soft_pwm_device;
  types : per_color rgbw_type;
  period : Z;
  lth_brightness : Z;
  levels : option (list Z);
  notify : option (Z -> Z);
  notify_after : bool
}.

(** Modelled from the spec: [struct rgbw_properties] is declared in [rgbw.h];
    the spec gives [brightness] and [max_brightness] as unsigned 32-bit
    values.  [cntr] is the per-channel tick counter of the pulse effect, kept
    as a C [int]. *)
Record rgbw_properties : Type := mk_props {
  brightness : Z;
  max_brightness : Z;
  cntr : Z;
  type : rgbw_type
}.

(** Modelled from the spec: [struct rgbw_actions] is declared in [rgbw.h];
    [state] is the active-effect mask, [bstate] the effect-local step,
    [pcolor] the channel the pulse effect drives, [rgbw_values] the saved
    colour. *)
Record rgbw_actions : Type := mk_acts {
  state : Z;
  bstate : Z;
  pcolor : Z;
  rgbw_values : per_color Z
}.

Record rgbw_device : Type := mk_dev {
  props : per_color rgbw_properties;
  acts : rgbw_actions;
  data : pwm_rgbw_data
}.

Definition rgbw_get_data (d : rgbw_device) : pwm_rgbw_data := data d.

Definition set_brightness_field (p : rgbw_properties) (b : Z) : rgbw_properties :=
  mk_props b (max_brightness p) (cntr p) (type p).
Definition set_cntr_field (p : rgbw_properties) (n : Z) : rgbw_properties :=
  mk_props (brightness p) (max_brightness p) n (type p).

Definition with_props (d : rgbw_device) (ps : per_color rgbw_properties) : rgbw_device :=
  mk_dev ps (acts d) (data d).
Definition with_data (d : rgbw_device) (pb : pwm_rgbw_data) : rgbw_device :=
  mk_dev (props d) (acts d) pb.
Definition with_bstate (d : rgbw_device) (b : Z) : rgbw_device :=
  mk_dev (props d)
         (mk_acts (state (acts d)) b (pcolor (acts d)) (rgbw_values (acts d)))
         (data d).

Definition set_brightness (d : rgbw_device) (c : rgbw_colors) (b : Z) : rgbw_device :=
  with_props d (set_cell (props d) c (set_brightness_field (cell (props d) c) b)).
Definition set_cntr (d : rgbw_device) (c : rgbw_colors) (n : Z) : rgbw_device :=
  with_props d (set_cell (props d) c (set_cntr_field (cell (props d) c) n)).

Definition brightness_of (d : rgbw_device) (c : rgbw_colors) : Z :=
  brightness (cell (props d) c).
Definition max_brightness_of (d : rgbw_device) (c : rgbw_colors) : Z :=
  max_brightness (cell (props d) c).
Definition brightnesses (d : rgbw_device) : list Z :=
  map (brightness_of d) all_colors.

(** ** Kernel services as events *)

Inductive hw_event : Type :=
| Ev_pwm_config (c : rgbw_colors) (duty_ns period_ns : Z)
| Ev_pwm_enable (c : rgbw_colors)
| Ev_pwm_disable (c : rgbw_colors)
| Ev_hrtimer_start (c : rgbw_colors) (ns : Z)
| Ev_gpio_set_value (pin : Z) (v : Z)
| Ev_notify_after (b : Z)
| Ev_hrtimer_forward (interval_ns : Z).

Inductive hrtimer_restart : Type :=
| HRTIMER_NORESTART
| HRTIMER_RESTART.

(** ** A small monad: state, trace of events, faults *)

Definition M (S A : Type) : Type := S -> outcome (A * S * list hw_event).

Definition ret {S A : Type} (a : A) : M S A := fun s => Done (a, s, []).

Definition bind {S A B : Type} (m : M S A) (k : A -> M S B) : M S B :=
  fun s =>
    match m s with
    | Fault f => Fault f
    | Done (a, s1, t1) =>
        match k a s1 with
        | Fault f => Fault f
        | Done (b, s2, t2) => Done (b, s2, t1 ++ t2)
        end
    end.

Definition emit {S : Type} (e : hw_event) : M S unit := fun s => Done (tt, s, [e]).
Definition get {S : Type} : M S S := fun s => Done (s, s, []).
Definition put {S : Type} (s : S) : M S unit := fun _ => Done (tt, s, []).
Definition lift_outcome {S A : Type} (o : outcome A) : M S A :=
  fun s => match o with Done a => Done (a, s, []) | Fault f => Fault f end.

Notation "x <- m ;; k" := (bind m (fun x => k))
  (at level 61, m at next level, right associativity).
Notation "m ;;; k" := (bind m (fun _ => k))
  (at level 61, right associativity).

Fixpoint for_each {S A : Type} (xs : list A) (body : A -> M S unit) : M S unit :=
  match xs with
  | [] => ret tt
  | x :: rest => body x ;;; for_each rest body
  end.

(** ** Duty-cycle mapping: the body shared by both update paths *)

(** [brightness], [max] and [duty_cycle] are C [int]s; [period] and
    [lth_brightness] are [unsigned int], so the product, the quotient and
    the sum are computed modulo [2^32] and the result is stored back into an
    [int]. *)
Definition duty_cycle_of (pb : pwm_rgbw_data) (brightness max : Z) : outcome Z :=
  match
    (match levels pb with
     | Some l =>
         match table_read Arr_levels l brightness with
         | Done v => Done (s32 v)
         | Fault f => Fault f
         end
     | None => Done brightness
     end)
  with
  | Fault f => Fault f
  | Done duty_cycle =>
      if u32 max =? 0 then Fault DivByZero
      else Done (s32 (u32 (lth_brightness pb +
                   u32 (u32 duty_cycle * u32 (period pb - lth_brightness pb))
                     / u32 max)))
  end.

Definition hrtimer_start_soft (c : rgbw_colors) (ns : Z) : M pwm_rgbw_data unit :=
  pb <- get ;;
  let sp := cell (soft_pwm pb) c in
  put (mk_pb (set_cell (soft_pwm pb) c
                (mk_soft_pwm (gpio sp) (value sp)
                   (mk_hrtimer true (callback_running (pwm_timer sp)))))
             (types pb) (period pb) (lth_brightness pb) (levels pb)
             (notify pb) (notify_after pb)) ;;;
  emit (Ev_hrtimer_start c ns).

(** Lines 121-136 and 164-178: what one channel receives. *)
Definition channel_update (c : rgbw_colors) (brightness max : Z)
  : M pwm_rgbw_data unit :=
  pb <- get ;;
  (if is_pwm (cell (types pb) c) then
     if brightness =? 0 then
       emit (Ev_pwm_config c 0 (s32 (period pb))) ;;;
       emit (Ev_pwm_disable c)
     else
       duty_cycle <- lift_outcome (duty_cycle_of pb brightness max) ;;
       emit (Ev_pwm_config c duty_cycle (s32 (period pb))) ;;;
       emit (Ev_pwm_enable c)
   else ret tt) ;;;
  (if is_gpio (cell (types pb) c)
      && negb (hrtimer_active (pwm_timer (cell (soft_pwm pb) c)))
   then hrtimer_start_soft c 1000
   else ret tt).

Definition apply_notify (pb : pwm_rgbw_data) (brightness : Z) : Z :=
  match notify pb with
  | Some f => f brightness
  | None => brightness
  end.

Definition call_notify_after (pb : pwm_rgbw_data) (brightness : Z)
  : M pwm_rgbw_data unit :=
  if notify_after pb then emit (Ev_notify_after brightness) else ret tt.

(** Runs a computation on the driver data inside the device. *)
Definition on_data {A : Type} (m : M pwm_rgbw_data A) : M rgbw_device A :=
  fun d =>
    match m (rgbw_get_data d) with
    | Fault f => Fault f
    | Done (a, pb, t) => Done (a, with_data d pb, t)
    end.

Definition EINVAL : Z := 22.

Definition pulse_color_update (pcolor : Z) : M rgbw_device Z :=
  d <- get ;;
  match color_of_index pcolor with
  | None =>
      if MAX_COLORS <=? pcolor then ret (- EINVAL)
      else lift_outcome (Fault (OutOfBounds Arr_props))
  | Some c =>
      let pb := rgbw_get_data d in
      let brightness := s32 (brightness_of d c) in
      let max := s32 (max_brightness_of d c) in
      let brightness := apply_notify pb brightness in
      on_data (channel_update c brightness max ;;;
               call_notify_after pb brightness) ;;;
      ret 0
  end.

Definition rgbw_color_update : M rgbw_device Z :=
  d <- get ;;
  let pb := rgbw_get_data d in
  let brightness := map_cells (fun p => apply_notify pb (s32 (brightness p))) (props d) in
  let max := map_cells (fun p => s32 (max_brightness p)) (props d) in
  on_data (for_each all_colors
             (fun c => channel_update c (cell brightness c) (cell max c)) ;;;
           for_each all_colors
             (fun c => call_notify_after pb (cell brightness c))) ;;;
  ret 0.

(** ** Soft-PWM scheduler: [rgbw_gpio_hrtimer_callback] *)

Definition set_soft_value (pb : pwm_rgbw_data) (c : rgbw_colors) (v : Z)
  : pwm_rgbw_data :=
  let sp := cell (soft_pwm pb) c in
  mk_pb (set_cell (soft_pwm pb) c (mk_soft_pwm (gpio sp) v (pwm_timer sp)))
        (types pb) (period pb) (lth_brightness pb) (levels pb)
        (notify pb) (notify_after pb).

(** The new pin value and [hrtimer_next_tick] for the channel being served.
    [next_toggle] is a [u64]; the product is taken in 32 bits before it is
    widened, and [ns_to_ktime] reads the result as a signed 64-bit count. *)
Definition soft_pwm_step (pb : pwm_rgbw_data) (p : rgbw_properties)
  (sp : soft_pwm_device) : Z * Z :=
  if max_brightness p <=? brightness p then (1, 0)
  else if brightness p =? 0 then (0, 0)
  else
    let v := 1 - value sp in
    let next_toggle := u32 (brightness p * lth_brightness pb) in
    let next_toggle :=
      if v =? 0 then u64 (period pb - next_toggle) else next_toggle in
    (v, s64 next_toggle).

(** The [for] loop of the callback, left at the first GPIO channel whose
    timer is running its callback. *)
Fixpoint gpio_scan (cs : list rgbw_colors) : M rgbw_device Z :=
  match cs with
  | [] => ret 0
  | c :: rest =>
      d <- get ;;
      let pb := rgbw_get_data d in
      let sp := cell (soft_pwm pb) c in
      if is_gpio (cell (types pb) c)
         && hrtimer_callback_running (pwm_timer sp)
      then
        let '(v, tick) := soft_pwm_step pb (cell (props d) c) sp in
        put (with_data d (set_soft_value pb c v)) ;;;
        emit (Ev_gpio_set_value (gpio sp) v) ;;;
        ret tick
      else gpio_scan rest
  end.

Definition rgbw_gpio_hrtimer_callback : M rgbw_device hrtimer_restart :=
  hrtimer_next_tick <- gpio_scan all_colors ;;
  if 0 <? hrtimer_next_tick then
    emit (Ev_hrtimer_forward hrtimer_next_tick) ;;;
    ret HRTIMER_RESTART
  else ret HRTIMER_NORESTART.

(** ** The breathing table *)

Definition pulse_val_table : list Z :=
  [0; 1; 2; 3; 4; 6; 8; 10; 13; 16; 20;
   24; 28; 34; 39; 45; 52; 60; 68; 77;
   86; 97; 107; 119; 130; 143; 155; 167;
   180; 192; 203; 214; 224; 233; 240; 246;
   251; 254; 254; 254; 251; 246; 240; 233;
   224; 214; 203; 192; 180; 167; 155; 143;
   130; 119; 107; 97; 86; 77; 68; 60; 52;
   45; 39; 34; 28; 24; 20; 16; 13; 10; 8;
   6; 4; 3; 2; 1; 0; 0; 0; 0].

(** [ARRAY_SIZE(pulse_val_table)] *)
Definition pulse_val_size : Z := Z.of_nat (length pulse_val_table).

(** ** Effect engine: the four hrtimer callbacks *)

Section Effects.

(** Declared in [rgbw.h]: the bits of the active-effect mask and the two
    tick lengths. *)
Variables RGBW_PULSE_ON RGBW_BLINK_ON RGBW_HB_ON RGBW_RB_ON : Z.
Variables PULSE_VALUE_PER_NS BLINK_STATE_PER_NS : Z.

(** [bstate = acts.state; if (bstate & MASK)] *)
Definition effect_on (d : rgbw_device) (mask : Z) : bool :=
  negb (Z.land (s32 (state (acts d))) mask =? 0).

Definition modify (f : rgbw_device -> rgbw_device) : M rgbw_device unit :=
  d <- get ;; put (f d).

(** [props[c].brightness++] followed by the test against
    [max_brightness - 1]. *)
Definition rb_up (c : rgbw_colors) (next : Z) (d : rgbw_device) : rgbw_device :=
  let d := set_brightness d c (u32 (brightness_of d c + 1)) in
  if u32 (max_brightness_of d c - 1) <? brightness_of d c
  then with_bstate d next else d.

(** [props[c].brightness--] followed by the test against 1. *)
Definition rb_down (c : rgbw_colors) (next : Z) (d : rgbw_device) : rgbw_device :=
  let d := set_brightness d c (u32 (brightness_of d c - 1)) in
  if brightness_of d c <? 1 then with_bstate d next else d.

Definition rb_default (d : rgbw_device) : rgbw_device :=
  let d := with_bstate d 0 in
  let d := set_brightness d COLOR_RED (max_brightness_of d COLOR_RED) in
  let d := set_brightness d COLOR_GREEN 0 in
  let d := set_brightness d COLOR_BLUE 0 in
  set_brightness d COLOR_WHITE 0.

Definition rb_switch (d : rgbw_device) : rgbw_device :=
  match s32 (bstate (acts d)) with
  | 0 => rb_up COLOR_GREEN 1 d
  | 1 => rb_down COLOR_RED 2 d
  | 2 => rb_up COLOR_BLUE 3 d
  | 3 => rb_down COLOR_GREEN 4 d
  | 4 => rb_up COLOR_RED 5 d
  | 5 => rb_down COLOR_BLUE 0 d
  | _ => rb_default d
  end.

Definition rgbw_rb_hrtimer_callback : M rgbw_device hrtimer_restart :=
  d <- get ;;
  if effect_on d RGBW_RB_ON then
    modify rb_switch ;;;
    _ <- rgbw_color_update ;;
    emit (Ev_hrtimer_forward PULSE_VALUE_PER_NS) ;;;
    ret HRTIMER_RESTART
  else ret HRTIMER_NORESTART.

(** The [for] loop writing all four brightness fields. *)
Definition write_all (f : rgbw_colors -> Z) (d : rgbw_device) : rgbw_device :=
  fold_left (fun d c => set_brightness d c (f c)) all_colors d.

Definition hb_switch (d : rgbw_device) : rgbw_device :=
  let step := s32 (bstate (acts d)) in
  let d1 := write_all (fun c => if Z.rem step 2 =? 0
                                then cell (rgbw_values (acts d)) c else 0) d in
  with_bstate d1 (if step <? 3 then u32 (bstate (acts d1) + 1) else 0).

Definition rgbw_hb_hrtimer_callback : M rgbw_device hrtimer_restart :=
  d <- get ;;
  if effect_on d RGBW_HB_ON then
    let step := s32 (bstate (acts d)) in
    modify hb_switch ;;;
    _ <- rgbw_color_update ;;
    emit (Ev_hrtimer_forward (if step <? 3 then 100000000 else 700000000)) ;;;
    ret HRTIMER_RESTART
  else ret HRTIMER_NORESTART.

Definition blink_switch (d : rgbw_device) : rgbw_device :=
  let step := s32 (bstate (acts d)) in
  let d1 := write_all (fun c => if step =? 0
                                then 0 else cell (rgbw_values (acts d)) c) d in
  with_bstate d1 (if step =? 0 then 1 else 0).

Definition rgbw_blink_hrtimer_callback : M rgbw_device hrtimer_restart :=
  d <- get ;;
  if effect_on d RGBW_BLINK_ON then
    modify blink_switch ;;;
    _ <- rgbw_color_update ;;
    emit (Ev_hrtimer_forward BLINK_STATE_PER_NS) ;;;
    ret HRTIMER_RESTART
  else ret HRTIMER_NORESTART.

(** The index the pulse callback reads the table at. *)
Definition pulse_index (cntr : Z) : Z :=
  if pulse_val_size <=? cntr then 0 else cntr.

Definition rgbw_pulse_hrtimer_callback : M rgbw_device hrtimer_restart :=
  d <- get ;;
  if effect_on d RGBW_PULSE_ON then
    let pcolor := s32 (pcolor (acts d)) in
    match color_of_index pcolor with
    | None => lift_outcome (Fault (OutOfBounds Arr_props))
    | Some c =>
        let i := pulse_index (cntr (cell (props d) c)) in
        v <- lift_outcome (table_read Arr_pulse_val_table pulse_val_table i) ;;
        put (set_cntr (set_brightness d c v) c (s32 (i + 1))) ;;;
        _ <- pulse_color_update pcolor ;;
        emit (Ev_hrtimer_forward PULSE_VALUE_PER_NS) ;;;
        ret HRTIMER_RESTART
    end
  else ret HRTIMER_NORESTART.

End Effects.

(** Successive firings of one timer: the callback runs again only after it
    asked for a restart.  The result lists, per firing, the device it left
    behind and the events of that firing. *)
Fixpoint fire (cb : M rgbw_device hrtimer_restart) (n : nat) (d : rgbw_device)
  : outcome (list (rgbw_device * list hw_event) * rgbw_device) :=
  match n with
  | O => Done ([], d)
  | S k =>
      match cb d with
      | Fault f => Fault f
      | Done (HRTIMER_NORESTART, d1, t) => Done ([(d1, t)], d1)
      | Done (HRTIMER_RESTART, d1, t) =>
          match fire cb k d1 with
          | Fault f => Fault f
          | Done (rest, d2) => Done ((d1, t) :: rest, d2)
          end
      end
  end.

(** ** Initialisation: [rgbw_parse_dt], [rgbw_dt_validation], [rgbw_dt_probe] *)

Definition ENODEV : Z := 19.
Definition ENOMEM : Z := 12.
Definition ENODATA : Z := 61.

Record platform_rgbw_data : Type := mk_platform_data {
  pd_max_brightness : Z;
  pd_lth_brightness : Z;
  pd_pwm_period_ns : Z;
  pd_levels : option (list Z);
  pd_init : option Z;          (* the value [init(dev)] returns, when the hook is set *)
  pd_notify : option (Z -> Z);
  pd_notify_after : bool;
  pd_exit : bool
}.

(** What the kernel answers about one colour slot while the probe runs. *)
Record color_oracle : Type := mk_color_oracle {
  pwm_name_index : Z;            (* of_property_match_string(.., "pwm-names", ..) *)
  pwm_get : option Z;            (* the period of the PWM obtained, if either getter succeeds *)
  gpio_name_index : Z;           (* of_property_match_string(.., "gpio-names", ..) *)
  gpio_api_num : Z;              (* of_get_named_gpio_flags *)
  gpio_request_ret : Z;
  gpio_direction_output_ret : Z
}.

(** The platform device handed to the probe and the answers of the kernel
    services it calls. *)
Record probe_env : Type := mk_probe_env {
  platform_data : option platform_rgbw_data;
  of_node_present : bool;
  brightness_levels : option (list Z);   (* the cells of the DT property *)
  levels_alloc_ok : bool;
  levels_read_ret : Z;           (* of_property_read_u32_array(.., "brightness-levels", ..) *)
  count_pwms : Z;                (* of_count_phandle_with_args(.., "pwms", ..) *)
  count_gpios : Z;
  count_pwm_names : Z;           (* of_property_count_strings(.., "pwm-names") *)
  count_gpio_names : Z;
  pb_alloc_ok : bool;
  slot : per_color color_oracle;
  register_err : option Z        (* PTR_ERR of rgbw_device_register, if it fails *)
}.

Inductive probe_result : Type :=
| Probe_return (ret : Z) (dev : option (rgbw_device * list hw_event))
| Probe_fault (f : fault).

(** [rgbw_parse_dt]: an error code, or the defaults read from the node.
    What [of_property_read_u32_array] returns is an answer of the kernel
    ([levels_read_ret]); a negative one is handed back as it is. *)
Definition rgbw_parse_dt (e : probe_env) : Z + platform_rgbw_data :=
  if negb (of_node_present e) then inl (- ENODEV)
  else
    match brightness_levels e with
    | None => inl (- EINVAL)
    | Some cells =>
        let length_bytes := 4 * Z.of_nat (length cells) in
        let max_brightness := u32 (length_bytes / 4) in
        if 0 <? max_brightness then
          if levels_alloc_ok e then
            let ret := levels_read_ret e in
            if ret <? 0 then inl ret
            else inr (mk_platform_data (u32 (max_brightness - 1)) 0 0 (Some cells)
                        None None false false)
          else inl (- ENOMEM)
        else inr (mk_platform_data max_brightness 0 0 None None None false false)
    end.

(** [rgbw_dt_validation].  Both tests inside the loop over the names end in
    an empty statement followed by [continue], so the loop checks nothing. *)
Definition rgbw_dt_validation (e : probe_env) : Z :=
  let num_def_colors :=
    u32 (u32 (if 0 <? count_pwms e then count_pwms e else 0)
         + (if 0 <? count_gpios e then count_gpios e else 0)) in
  if num_def_colors <? 3 then - ENODATA
  else if 4 <? num_def_colors then - EINVAL
  else
    let num_def_names :=
      u32 (u32 (if 0 <? count_pwm_names e then count_pwm_names e else 0)
           + (if 0 <? count_gpio_names e then count_gpio_names e else 0)) in
    if 0 <? num_def_names then
      if negb (num_def_names =? num_def_colors) then - ENODATA
      else s32 num_def_colors
    else 0.

(** State of the acquisition loops. *)
Record acquired : Type := mk_acquired {
  acq_types : per_color rgbw_type;
  acq_pins : per_color Z;
  acq_ret : Z
}.

Inductive acquire_step : Type :=
| Acq_ok (a : acquired)
| Acq_goto_err_alloc (ret : Z)
| Acq_fault (f : fault).

Definition acquire_pwm (e : probe_env) (c : rgbw_colors) (a : acquired) : acquire_step :=
  match pwm_get (cell (slot e) c) with
  | None => Acq_goto_err_alloc (acq_ret a)
  | Some _ => Acq_ok (mk_acquired (set_cell (acq_types a) c RGBW_PWM)
                                  (acq_pins a) (acq_ret a))
  end.

Definition acquire_gpio (e : probe_env) (c : rgbw_colors) (a : acquired) : acquire_step :=
  let o := cell (slot e) c in
  if gpio_request_ret o <? 0 then Acq_goto_err_alloc (gpio_request_ret o)
  else if gpio_direction_output_ret o <? 0
       then Acq_goto_err_alloc (gpio_direction_output_ret o)
       else Acq_ok (mk_acquired (set_cell (acq_types a) c RGBW_GPIO)
                                (set_cell (acq_pins a) c (gpio_api_num o))
                                (gpio_direction_output_ret o)).

(** One pass of the loop over names (lines 624-666). *)
Definition acquire_named (e : probe_env) (c : rgbw_colors) (a : acquired) : acquire_step :=
  let a := mk_acquired (set_cell (acq_types a) c RGBW_TYPE_INVALID)
                       (acq_pins a) (acq_ret a) in
  if 0 <=? pwm_name_index (cell (slot e) c) then acquire_pwm e c a
  else if 0 <=? gpio_name_index (cell (slot e) c) then acquire_gpio e c a
  else Acq_ok a.

(** One pass of the two loops of the unnamed branch (lines 680-719). *)
Definition acquire_unnamed (by_pwm : bool) (e : probe_env) (c : rgbw_colors)
  (a : acquired) : acquire_step :=
  let a := mk_acquired (set_cell (acq_types a) c RGBW_TYPE_INVALID)
                       (acq_pins a) (acq_ret a) in
  if by_pwm then acquire_pwm e c a else acquire_gpio e c a.

(** [for (; cntr < bound; cntr++)] over the colour slots, [cntr] starting at
    [from]; the arrays have [MAX_COLORS] cells, and a pass with
    [cntr = MAX_COLORS] would write past them. *)
Fixpoint acquire_loop (body : rgbw_colors -> acquired -> acquire_step)
  (cs : list rgbw_colors) (from bound : Z) (a : acquired) : acquire_step :=
  match cs with
  | [] =>
      if (from <? bound) && (MAX_COLORS <? bound)
      then Acq_fault (OutOfBounds Arr_props)
      else Acq_ok a
  | c :: rest =>
      if (from <=? color_index c) && (color_index c <? bound) then
        match body c a with
        | Acq_ok a1 => acquire_loop body rest from bound a1
        | other => other
        end
      else acquire_loop body rest from bound a
  end.

(** Lines 728-747: the period of the first hardware PWM, else 7.65 ms. *)
Definition probe_period (e : probe_env) (ts : per_color rgbw_type) : Z :=
  match find (fun c => is_pwm (cell ts c)) all_colors with
  | Some c =>
      match pwm_get (cell (slot e) c) with
      | Some p => u32 p
      | None => 0
      end
  | None => 7650000
  end.

Section Probe.

(** Declared in [rgbw.h]: the "no colour" value, and the enumerator of
    [enum rgbw_type] that a zeroed cell holds. *)
Variable INVALID_COLOR : Z.
Variable zeroed_type : rgbw_type.

Definition probe_acquire (e : probe_env) (num_named_colors ret : Z) : acquire_step :=
  let a0 := mk_acquired (mk_per_color zeroed_type zeroed_type zeroed_type zeroed_type)
                        (mk_per_color 0 0 0 0) ret in
  if 0 <? num_named_colors then
    acquire_loop (acquire_named e) all_colors 0 num_named_colors a0
  else
    let num_hpwms := s32 (count_pwms e) in
    let num_spwms := s32 (count_gpios e) in
    let total_pwms := s32 (num_hpwms + num_spwms) in
    match (if 0 <? num_hpwms
           then acquire_loop (acquire_unnamed true e) all_colors 0 num_hpwms a0
           else Acq_ok a0) with
    | Acq_ok a1 =>
        let cntr := if 0 <? num_hpwms then num_hpwms else 0 in
        match (if 0 <? num_spwms
               then acquire_loop (acquire_unnamed false e) all_colors
                      cntr (u32 total_pwms) a1
               else Acq_ok a1) with
        | Acq_ok a2 =>
            let cntr :=
              if 0 <? num_spwms then Z.max cntr (u32 total_pwms) else cntr in
            if negb (cntr =? u32 total_pwms)
            then Acq_goto_err_alloc (acq_ret a2)
            else Acq_ok a2
        | other => other
        end
    | other => other
    end.

(** From line 602 on, once [data] is known and the sanity check passed.
    [rgbw_device_register] and [rgbw_update_status] come from [rgbw.h]; the
    first is an oracle of the environment, the second runs the
    [update_status] operation the driver registers, [rgbw_color_update]. *)
Definition probe_setup (e : probe_env) (pdata : platform_rgbw_data)
  (num_named_colors ret : Z) : probe_result :=
  match
    (match pd_levels pdata with
     | Some l => table_read Arr_levels l (pd_max_brightness pdata)
     | None => Done (pd_max_brightness pdata)
     end)
  with
  | Fault f => Probe_fault f
  | Done max =>
      match probe_acquire e num_named_colors ret with
      | Acq_goto_err_alloc r => Probe_return r None
      | Acq_fault f => Probe_fault f
      | Acq_ok a =>
          let period := probe_period e (acq_types a) in
          if u32 max =? 0 then Probe_fault DivByZero
          else
            let lth := period / u32 max in
            match register_err e with
            | Some err => Probe_return err None
            | None =>
                let sp := map_cells
                            (fun pin => mk_soft_pwm pin 0 (mk_hrtimer false false))
                            (acq_pins a) in
                let pb := mk_pb sp (acq_types a) period lth (pd_levels pdata)
                                (pd_notify pdata) (pd_notify_after pdata) in
                let ps := map_cells
                            (fun t => mk_props 0 (pd_max_brightness pdata) 0 t)
                            (acq_types a) in
                let dev := mk_dev ps
                             (mk_acts 0 INVALID_COLOR INVALID_COLOR
                                      (mk_per_color 0 0 0 0)) pb in
                match rgbw_color_update dev with
                | Fault f => Probe_fault f
                | Done (_, dev1, t) => Probe_return 0 (Some (dev1, t))
                end
            end
      end
  end.

Definition rgbw_dt_probe (e : probe_env) : probe_result :=
  match
    (match platform_data e with
     | Some pdata => inr pdata
     | None => rgbw_parse_dt e
     end)
  with
  | inl err => Probe_return err None
  | inr pdata =>
      let ret := rgbw_dt_validation e in
      if ret <? 0 then Probe_return ret None
      else
        let num_named_colors := u32 ret in
        match pd_init pdata with
        | Some r =>
            if r <? 0 then Probe_return r None
            else if pb_alloc_ok e then probe_setup e pdata num_named_colors r
                 else Probe_return (- ENOMEM) None
        | None =>
            if pb_alloc_ok e then probe_setup e pdata num_named_colors ret
            else Probe_return (- ENOMEM) None
        end
  end.

End Probe.

(** ** When the mapper is defined

    [mapper_ok] says that the duty-cycle expression can be evaluated: the
    divisor is not zero and the index falls inside the levels table. *)

Definition mapper_ok (pb : pwm_rgbw_data) (brightness max : Z) : bool :=
  negb (u32 max =? 0)
  && match levels pb with
     | None => true
     | Some l => (0 <=? brightness) && (brightness <? Z.of_nat (length l))
     end.

Definition chan_ok (pb : pwm_rgbw_data) (c : rgbw_colors) (brightness max : Z) : bool :=
  negb (is_pwm (cell (types pb) c)) || (brightness =? 0) || mapper_ok pb brightness max.

(** Channel [c] of device [d] can be driven at brightness [b]. *)
Definition mapper_ready (d : rgbw_device) (c : rgbw_colors) (b : Z) : bool :=
  chan_ok (data d) c (apply_notify (data d) (s32 b)) (s32 (max_brightness_of d c)).

(** Two states of the driver data that differ at most in the soft-PWM cells. *)
Definition same_config (a b : pwm_rgbw_data) : Prop :=
  types a = types b /\ period a = period b
  /\ lth_brightness a = lth_brightness b /\ levels a = levels b
  /\ notify a = notify b /\ notify_after a = notify_after b.

(** Everything but the brightnesses, the counters, the step and the timers. *)
Definition same_setup (d d1 : rgbw_device) : Prop :=
  (forall c, max_brightness_of d1 c = max_brightness_of d c)
  /\ state (acts d1) = state (acts d)
  /\ pcolor (acts d1) = pcolor (acts d)
  /\ rgbw_values (acts d1) = rgbw_values (acts d)
  /\ same_config (data d) (data d1).

(** The invariant of the data model. *)
Definition brightness_in_range (d : rgbw_device) : Prop :=
  forall c, 0 <= brightness_of d c <= max_brightness_of d c.

(** The first GPIO channel whose timer is running its callback. *)
Definition served_channel (d : rgbw_device) : option rgbw_colors :=
  find (fun c => is_gpio (cell (types (data d)) c)
                 && hrtimer_callback_running (pwm_timer (cell (soft_pwm (data d)) c)))
       all_colors.

(** Events of the PWM core and of the GPIO layer that touch channel [c]'s
    output. *)
Definition drives_output (c : rgbw_colors) (pin : Z) (e : hw_event) : bool :=
  match e with
  | Ev_pwm_config c' _ _ | Ev_pwm_enable c' | Ev_pwm_disable c' =>
      color_index c' =? color_index c
  | Ev_gpio_set_value p _ => p =? pin
  | _ => false
  end.

(** ** The operations of the core *)

Inductive core_op : Type :=
| Op_update_status
| Op_pulse_update (pcolor : Z)
| Op_gpio_timer
| Op_pulse_timer
| Op_blink_timer
| Op_hb_timer
| Op_rb_timer.

Definition forget {S A : Type} (m : M S A) : M S unit := _ <- m ;; ret tt.

Section CoreOperations.

Variables RGBW_PULSE_ON RGBW_BLINK_ON RGBW_HB_ON RGBW_RB_ON : Z.
Variables PULSE_VALUE_PER_NS BLINK_STATE_PER_NS : Z.

Definition run_op (op : core_op) : M rgbw_device unit :=
  match op with
  | Op_update_status => forget rgbw_color_update
  | Op_pulse_update pcolor => forget (pulse_color_update pcolor)
  | Op_gpio_timer => forget rgbw_gpio_hrtimer_callback
  | Op_pulse_timer =>
      forget (rgbw_pulse_hrtimer_callback RGBW_PULSE_ON PULSE_VALUE_PER_NS)
  | Op_blink_timer =>
      forget (rgbw_blink_hrtimer_callback RGBW_BLINK_ON BLINK_STATE_PER_NS)
  | Op_hb_timer => forget (rgbw_hb_hrtimer_callback RGBW_HB_ON)
  | Op_rb_timer =>
      forget (rgbw_rb_hrtimer_callback RGBW_RB_ON PULSE_VALUE_PER_NS)
  end.

End CoreOperations.

(** What the moving channel of the rainbow must satisfy for its next step
    to stay inside [0, max_brightness]: room above while it rises, room
    below while it falls. *)
Definition rb_room (d : rgbw_device) : Prop :=
  match s32 (bstate (acts d)) with
  | 0 => brightness_of d COLOR_GREEN < max_brightness_of d COLOR_GREEN
  | 1 => 0 < brightness_of d COLOR_RED
  | 2 => brightness_of d COLOR_BLUE < max_brightness_of d COLOR_BLUE
  | 3 => 0 < brightness_of d COLOR_GREEN
  | 4 => brightness_of d COLOR_RED < max_brightness_of d COLOR_RED
  | 5 => 0 < brightness_of d COLOR_BLUE
  | _ => True
  end.

(** The bound says that [max_brightness] is an unsigned 32-bit value. *)
Definition rb_guard (d : rgbw_device) : Prop :=
  (forall c, max_brightness_of d c < 2 ^ 32) /\ rb_room d.

(** What each operation needs, beside the invariant, to keep the invariant. *)
Definition op_guard (op : core_op) (d : rgbw_device) : Prop :=
  match op with
  | Op_pulse_timer =>
      forall c, color_of_index (s32 (pcolor (acts d))) = Some c ->
                254 <= max_brightness_of d c
  | Op_blink_timer | Op_hb_timer =>
      forall c, 0 <= cell (rgbw_values (acts d)) c <= max_brightness_of d c
  | Op_rb_timer => rb_guard d
  | _ => True
  end.

(** ** Sample devices *)

(** Red, Green and Blue on hardware PWMs, White on GPIO 42; no levels table
    and no hooks unless said otherwise. *)
Definition sample_types : per_color rgbw_type :=
  mk_per_color RGBW_PWM RGBW_PWM RGBW_PWM RGBW_GPIO.

Definition sample_soft (white_value : Z) (white_running : bool)
  : per_color soft_pwm_device :=
  let idle := mk_soft_pwm 0 0 (mk_hrtimer false false) in
  mk_per_color idle idle idle
    (mk_soft_pwm 42 white_value (mk_hrtimer false white_running)).

Definition sample_data (period max : Z) (lv : option (list Z))
  (white_value : Z) (white_running : bool) : pwm_rgbw_data :=
  mk_pb (sample_soft white_value white_running) sample_types
        period (period / max) lv None false.

Definition sample_props (max : Z) (b : per_color Z) (n : Z)
  : per_color rgbw_properties :=
  map2_cells (fun x t => mk_props x max n t) b sample_types.

(** [sample_device period max b n st step pc saved]: all channels with the
    same [max], brightnesses [b], tick counters [n], effect mask [st], step
    [step], pulse target [pc] and saved colour [saved]. *)
Definition sample_device (period max : Z) (b : per_color Z) (n : Z)
  (st step pc : Z) (saved : per_color Z) : rgbw_device :=
  mk_dev (sample_props max b n) (mk_acts st step pc saved)
         (sample_data period max None 0 false).

(** ** The mapping as the specification writes it *)

(** [raw = levels ? levels[brightness] : brightness] *)
Definition spec_raw (pb : pwm_rgbw_data) (brightness : Z) : Z :=
  match levels pb with
  | Some l => nth (Z.to_nat brightness) l 0
  | None => brightness
  end.

(** [duty_ns = lth_brightness_ns + raw * (period_ns - lth_brightness_ns) /
    max_brightness], over the integers. *)
Definition spec_duty_ns (pb : pwm_rgbw_data) (brightness max : Z) : Z :=
  lth_brightness pb
  + spec_raw pb brightness * (period pb - lth_brightness pb) / max.

(** The values stay inside the C types: the index inside the levels table,
    the product inside 32 bits, the period and the duty cycle inside [int]. *)
Definition fits_32_bits (pb : pwm_rgbw_data) (brightness max : Z) : Prop :=
  0 <= lth_brightness pb <= period pb /\ period pb < 2 ^ 31
  /\ 0 < max < 2 ^ 31
  /\ (forall l, levels pb = Some l -> brightness < Z.of_nat (length l))
  /\ 0 <= spec_raw pb brightness < 2 ^ 31
  /\ spec_raw pb brightness * (period pb - lth_brightness pb) < 2 ^ 32
  /\ spec_duty_ns pb brightness max < 2 ^ 31.

(** The calls to the PWM core that [channel_update] makes for channel [c]. *)
Definition pwm_calls (pb : pwm_rgbw_data) (c : rgbw_colors) (brightness max : Z)
  : list hw_event :=
  if is_pwm (cell (types pb) c) then
    if brightness =? 0
    then [Ev_pwm_config c 0 (s32 (period pb)); Ev_pwm_disable c]
    else match duty_cycle_of pb brightness max with
         | Done duty_cycle =>
             [Ev_pwm_config c duty_cycle (s32 (period pb)); Ev_pwm_enable c]
         | Fault _ => []
         end
  else [].

(** Starts of the soft-PWM timer of channel [c]. *)
Definition starts_timer (c : rgbw_colors) (e : hw_event) : bool :=
  match e with
  | Ev_hrtimer_start c' _ => color_index c' =? color_index c
  | _ => false
  end.

(** The test of lines 135 and 177: a GPIO channel whose timer is not
    active. *)
Definition needs_start (pb : pwm_rgbw_data) (c : rgbw_colors) : bool :=
  is_gpio (cell (types pb) c)
  && negb (hrtimer_active (pwm_timer (cell (soft_pwm pb) c))).

(** A soft-PWM cell once [hrtimer_start] has queued its timer. *)
Definition started_cell (sp : soft_pwm_device) : soft_pwm_device :=
  mk_soft_pwm (gpio sp) (value sp)
              (mk_hrtimer true (callback_running (pwm_timer sp))).

(** What [channel_update] does to the soft-PWM timer of channel [c]. *)
Definition timer_calls (pb : pwm_rgbw_data) (c : rgbw_colors) : list hw_event :=
  if needs_start pb c then [Ev_hrtimer_start c 1000] else [].

Definition timer_cell (pb : pwm_rgbw_data) (c : rgbw_colors) : soft_pwm_device :=
  if needs_start pb c then started_cell (cell (soft_pwm pb) c)
  else cell (soft_pwm pb) c.

Definition soft_firing_device (period max white_brightness white_value : Z)
  : rgbw_device :=
  mk_dev (sample_props max (mk_per_color 0 0 0 white_brightness) 0)
         (mk_acts 0 0 0 (mk_per_color 0 0 0 0))
         (sample_data period max None white_value true).

(** A pulse on White (GPIO) of a device described in the device tree with
    101 brightness levels, so [max_brightness = 100]. *)
Definition dim_pulse_device (pulse_mask n : Z) : rgbw_device :=
  mk_dev (sample_props 100 (mk_per_color 0 0 0 0) n)
         (mk_acts pulse_mask 0 3 (mk_per_color 0 0 0 0))
         (sample_data 7650000 100 (Some (map Z.of_nat (seq 0 101))) 0 false).

(** The same device with the pulse on Red, a hardware PWM. *)
Definition dim_pwm_pulse_device (pulse_mask n : Z) : rgbw_device :=
  mk_dev (sample_props 100 (mk_per_color 0 0 0 0) n)
         (mk_acts pulse_mask 0 0 (mk_per_color 0 0 0 0))
         (sample_data 7650000 100 (Some (map Z.of_nat (seq 0 101))) 0 false).

(** A device-tree node whose [brightness-levels] property is empty, with
    three named PWMs and one named GPIO that the kernel all grants. *)
Definition granted_pwm_slot (i : Z) : color_oracle :=
  mk_color_oracle i (Some 7650000) (- ENODATA) 0 0 0.
Definition granted_gpio_slot : color_oracle :=
  mk_color_oracle (- ENODATA) None 0 42 0 0.

Definition empty_levels_env : probe_env :=
  mk_probe_env None true (Some []) true 0 3 1 3 1 true
    (mk_per_color (granted_pwm_slot 0) (granted_pwm_slot 1) (granted_pwm_slot 2)
                  granted_gpio_slot)
    None.

(** The same node with [brightness-levels = <0>]. *)
Definition single_zero_level_env : probe_env :=
  mk_probe_env None true (Some [0]) true 0 3 1 3 1 true
    (mk_per_color (granted_pwm_slot 0) (granted_pwm_slot 1) (granted_pwm_slot 2)
                  granted_gpio_slot)
    None.

(** ** Runs that restart every time *)

(** [restarts cb n d l d']: fired [n] times in a row from [d], [cb] asks for
    a restart each time, leaves the devices and events [l] and ends in [d']. *)
Inductive restarts (cb : M rgbw_device hrtimer_restart)
  : nat -> rgbw_device -> list (rgbw_device * list hw_event) -> rgbw_device -> Prop :=
| restarts_O (d : rgbw_device) : restarts cb 0 d [] d
| restarts_S (n : nat) (d d1 : rgbw_device) (t : list hw_event)
    (l : list (rgbw_device * list hw_event)) (d' : rgbw_device) :
    cb d = Done (HRTIMER_RESTART, d1, t) ->
    restarts cb n d1 l d' ->
    restarts cb (S n) d ((d1, t) :: l) d'.

(** A device on which every channel can be driven at every brightness of
    its range. *)
Definition drivable (d : rgbw_device) : Prop :=
  forall c b, 0 <= b <= max_brightness_of d c -> mapper_ready d c b = true.

(** Every GPIO channel's timer is active (queued or running). *)
Definition all_armed (pb : pwm_rgbw_data) : Prop :=
  forall c, is_gpio (cell (types pb) c) = true ->
            hrtimer_active (pwm_timer (cell (soft_pwm pb) c)) = true.


(** The platform data the probe works with: the one handed in, else the one
    read from the device tree (lines 564-572). *)
Definition probe_data (e : probe_env) : Z + platform_rgbw_data :=
  match platform_data e with
  | Some pdata => inr pdata
  | None => rgbw_parse_dt e
  end.

(** The value of [ret] when the probe starts acquiring its channels: what
    [init] returned if there is such a hook, else what the sanity check
    returned. *)
Definition ret_at_acquire (e : probe_env) (pdata : platform_rgbw_data) : Z :=
  match pd_init pdata with
  | Some r => r
  | None => rgbw_dt_validation e
  end.

(** The probe asks the PWM core for slot [c]: by name when the node names its
    colours, by position among the [pwms] otherwise. *)
Definition asks_pwm (e : probe_env) (c : rgbw_colors) : Prop :=
  if 0 <? rgbw_dt_validation e
  then color_index c < rgbw_dt_validation e
       /\ 0 <= pwm_name_index (cell (slot e) c)
  else color_index c < s32 (count_pwms e).

(** The read of [levels[max_brightness]] at line 603 falls inside the table. *)
Definition max_entry_exists (pdata : platform_rgbw_data) : Prop :=
  forall l, pd_levels pdata = Some l ->
            0 <= pd_max_brightness pdata < Z.of_nat (length l).

(** ** More sample devices and nodes *)

(** The sample device at rest: dark, no effect on, no timer running. *)
Definition idle_device : rgbw_device :=
  sample_device 7650000 255 (mk_per_color 0 0 0 0) 0 0 0 0 (mk_per_color 0 0 0 0).

(** A node with four brightness levels, three named PWMs and one named GPIO,
    all granted. *)
Definition four_level_env : probe_env :=
  mk_probe_env None true (Some [0; 64; 128; 255]) true 0 3 1 3 1 true
    (mk_per_color (granted_pwm_slot 0) (granted_pwm_slot 1) (granted_pwm_slot 2)
                  granted_gpio_slot)
    None.

(** The same node when the PWM core refuses the PWM of Blue. *)
Definition refused_blue_env : probe_env :=
  mk_probe_env None true (Some [0; 64; 128; 255]) true 0 3 1 3 1 true
    (mk_per_color (granted_pwm_slot 0) (granted_pwm_slot 1)
                  (mk_color_oracle 2 None (- ENODATA) 0 0 0)
                  granted_gpio_slot)
    None.

(** A node with three [pwms], no [gpios] and no names: the counts of the
    missing properties are error codes. *)
Definition unnamed_pwm_env : probe_env :=
  mk_probe_env None true (Some [0; 64; 128; 255]) true 0 3 (- 2) (- EINVAL) (- EINVAL)
    true
    (mk_per_color (granted_pwm_slot (- ENODATA)) (granted_pwm_slot (- ENODATA))
                  (granted_pwm_slot (- ENODATA)) (granted_pwm_slot (- ENODATA)))
    None.

(** * Properties *)

(** ** Machine integers *)

Lemma u32_small (x : Z) : 0 <= x < 2 ^ 32 -> u32 x = x.
Proof. intros H. unfold u32. now apply Z.mod_small. Qed.

Lemma s32_small (x : Z) : - 2 ^ 31 <= x < 2 ^ 31 -> s32 x = x.
Proof. intros H. unfold s32. rewrite Z.mod_small; lia. Qed.

Lemma u64_small (x : Z) : 0 <= x < 2 ^ 64 -> u64 x = x.
Proof. intros H. unfold u64. now apply Z.mod_small. Qed.

Lemma s64_small (x : Z) : - 2 ^ 63 <= x < 2 ^ 63 -> s64 x = x.
Proof. intros H. unfold s64. rewrite Z.mod_small; lia. Qed.

Lemma u32_range (x : Z) : 0 <= u32 x < 2 ^ 32.
Proof. unfold u32. apply Z.mod_pos_bound. lia. Qed.

(** ** The monad *)

Lemma same_config_refl (a : pwm_rgbw_data) : same_config a a.
Proof. repeat split. Qed.

Lemma same_config_trans (a b c : pwm_rgbw_data) :
  same_config a b -> same_config b c -> same_config a c.
Proof.
  unfold same_config. intros (H1 & H2 & H3 & H4 & H5 & H6) (K1 & K2 & K3 & K4 & K5 & K6).
  repeat split; congruence.
Qed.

Lemma bind_done {S A B : Type} (m : M S A) (k : A -> M S B) s b s2 t :
  bind m k s = Done (b, s2, t) ->
  exists a s1 t1 t2, m s = Done (a, s1, t1) /\ k a s1 = Done (b, s2, t2) /\ t = t1 ++ t2.
Proof.
  unfold bind. destruct (m s) as [[[a s1] t1]|f]; [|discriminate].
  destruct (k a s1) as [[[b' s2'] t2]|f] eqn:Ek; [|discriminate].
  intros H. inversion H; subst. exists a, s1, t1, t2. now rewrite Ek.
Qed.

Lemma for_each_frame {S A : Type} (R : S -> S -> Prop) (body : A -> M S unit) :
  (forall s, R s s) ->
  (forall a b c, R a b -> R b c -> R a c) ->
  (forall x s u s' t, body x s = Done (u, s', t) -> R s s') ->
  forall xs s u s' t, for_each xs body s = Done (u, s', t) -> R s s'.
Proof.
  intros Hrefl Htrans Hbody. induction xs as [|x xs IH]; intros s u s' t H.
  - inversion H; subst. apply Hrefl.
  - cbn [for_each] in H. apply bind_done in H.
    destruct H as (a & s1 & t1 & t2 & H1 & H2 & _).
    eapply Htrans; [eapply Hbody; eassumption | eapply IH; eassumption].
Qed.

Lemma for_each_total {S A : Type} (I : S -> Prop) (body : A -> M S unit) (xs : list A) :
  (forall x s, In x xs -> I s -> exists s' t, body x s = Done (tt, s', t) /\ I s') ->
  forall s, I s -> exists s' t, for_each xs body s = Done (tt, s', t) /\ I s'.
Proof.
  induction xs as [|x xs IH]; intros Hbody s Hs.
  - exists s, []. now split.
  - destruct (Hbody x s (or_introl eq_refl) Hs) as (s1 & t1 & E1 & I1).
    destruct IH with (s := s1) as (s2 & t2 & E2 & I2); [|assumption|].
    + intros y s0 Hy. apply Hbody. now right.
    + exists s2, (t1 ++ t2). split; [|assumption].
      cbn [for_each]. unfold bind. now rewrite E1, E2.
Qed.

(** ** One channel *)

Lemma duty_cycle_of_defined (pb : pwm_rgbw_data) (b max : Z) :
  mapper_ok pb b max = true -> exists duty, duty_cycle_of pb b max = Done duty.
Proof.
  unfold mapper_ok, duty_cycle_of, table_read. intros H.
  apply andb_true_iff in H. destruct H as [Hmax Hlev].
  apply negb_true_iff in Hmax. rewrite Hmax.
  destruct (levels pb) as [l|]; [rewrite Hlev|]; eauto.
Qed.

Lemma duty_cycle_of_config (a b : pwm_rgbw_data) (x max : Z) :
  same_config a b -> duty_cycle_of b x max = duty_cycle_of a x max.
Proof.
  intros (_ & Hp & Hl & Hv & _). unfold duty_cycle_of. now rewrite Hp, Hl, Hv.
Qed.

Lemma hrtimer_start_soft_spec (c : rgbw_colors) (ns : Z) (pb : pwm_rgbw_data) :
  exists pb', hrtimer_start_soft c ns pb = Done (tt, pb', [Ev_hrtimer_start c ns])
              /\ same_config pb pb'.
Proof.
  unfold hrtimer_start_soft, bind, get, put, emit. cbn.
  eexists. split; [reflexivity|]. repeat split.
Qed.

Lemma channel_update_frame (c : rgbw_colors) (b max : Z) pb u pb' t :
  channel_update c b max pb = Done (u, pb', t) -> same_config pb pb'.
Proof.
  unfold channel_update. intros H.
  apply bind_done in H. destruct H as (x & s1 & t1 & t2 & Hget & H & _).
  inversion Hget; subst x s1 t1; clear Hget.
  apply bind_done in H. destruct H as (x & s1 & t1 & t3 & H1 & H2 & _).
  assert (s1 = pb) as ->.
  { unfold bind, emit, ret, lift_outcome in H1.
    destruct (is_pwm (cell (types pb) c)); [|now inversion H1].
    destruct (b =? 0); [now inversion H1|].
    destruct (duty_cycle_of pb b max); now inversion H1. }
  destruct (is_gpio (cell (types pb) c)
            && negb (hrtimer_active (pwm_timer (cell (soft_pwm pb) c)))).
  - destruct (hrtimer_start_soft_spec c 1000 pb) as (pb1 & E & Hc).
    rewrite E in H2. inversion H2; subst. exact Hc.
  - unfold ret in H2. inversion H2; subst. apply same_config_refl.
Qed.

Lemma channel_update_total (c : rgbw_colors) (b max : Z) (pb : pwm_rgbw_data) :
  chan_ok pb c b max = true ->
  exists pb' t, channel_update c b max pb = Done (tt, pb', t) /\ same_config pb pb'.
Proof.
  intros Hok.
  assert (exists pb' t, channel_update c b max pb = Done (tt, pb', t)) as (pb' & t & E).
  { unfold channel_update, chan_ok in *.
    destruct (hrtimer_start_soft_spec c 1000 pb) as (pb1 & E & _).
    unfold bind, get, emit, ret, lift_outcome.
    destruct (is_pwm (cell (types pb) c)); cbn [negb orb] in Hok.
    - destruct (b =? 0); cbn [orb] in Hok.
      + destruct (is_gpio _ && negb _); [rewrite E|]; cbn; eauto.
      + destruct (duty_cycle_of_defined pb b max Hok) as (duty & Ed).
        rewrite Ed.
        destruct (is_gpio _ && negb _); [rewrite E|]; cbn; eauto.
    - destruct (is_gpio _ && negb _); [rewrite E|]; cbn; eauto. }
  exists pb', t. split; [exact E|]. eapply channel_update_frame; exact E.
Qed.

Lemma chan_ok_config (a b : pwm_rgbw_data) c x max :
  same_config a b -> chan_ok b c x max = chan_ok a c x max.
Proof.
  intros (Ht & _ & _ & Hv & _). unfold chan_ok, mapper_ok. now rewrite Ht, Hv.
Qed.

(** ** The two update paths *)

Lemma cell_map_cells {A B : Type} (f : A -> B) (a : per_color A) (c : rgbw_colors) :
  cell (map_cells f a) c = f (cell a c).
Proof. now destruct c. Qed.

Lemma cell_set_cell_same {A : Type} (a : per_color A) (c : rgbw_colors) (x : A) :
  cell (set_cell a c x) c = x.
Proof. now destruct c. Qed.

Lemma cell_set_cell_other {A : Type} (a : per_color A) (c c' : rgbw_colors) (x : A) :
  c' <> c -> cell (set_cell a c x) c' = cell a c'.
Proof. destruct c, c'; intros H; try reflexivity; now contradiction H. Qed.

Lemma call_notify_after_spec (pb0 pb : pwm_rgbw_data) (b : Z) :
  exists t, call_notify_after pb0 b pb = Done (tt, pb, t).
Proof.
  unfold call_notify_after, emit, ret. destruct (notify_after pb0); eauto.
Qed.

Lemma notify_loop_spec (pb0 pb : pwm_rgbw_data) (f : rgbw_colors -> Z) (cs : list rgbw_colors) :
  exists t, for_each cs (fun c => call_notify_after pb0 (f c)) pb = Done (tt, pb, t).
Proof.
  induction cs as [|c cs (t2 & IH)]; [now exists []|].
  destruct (call_notify_after_spec pb0 pb (f c)) as (t1 & E).
  exists (t1 ++ t2). cbn [for_each]. unfold bind. now rewrite E, IH.
Qed.

Lemma on_data_done {A : Type} (m : M pwm_rgbw_data A) d a d' t :
  on_data m d = Done (a, d', t) ->
  exists pb', m (data d) = Done (a, pb', t) /\ d' = with_data d pb'.
Proof.
  unfold on_data, rgbw_get_data. destruct (m (data d)) as [[[x pb'] t']|f]; [|discriminate].
  intros H. inversion H; subst. now exists pb'.
Qed.

Lemma bind_intro {S A B : Type} (m : M S A) (k : A -> M S B) s a s1 t1 b s2 t2 :
  m s = Done (a, s1, t1) -> k a s1 = Done (b, s2, t2) ->
  bind m k s = Done (b, s2, t1 ++ t2).
Proof. intros E1 E2. unfold bind. now rewrite E1, E2. Qed.

Lemma on_data_intro {A : Type} (m : M pwm_rgbw_data A) d a pb' t :
  m (data d) = Done (a, pb', t) -> on_data m d = Done (a, with_data d pb', t).
Proof. intros E. unfold on_data, rgbw_get_data. now rewrite E. Qed.

Lemma rgbw_color_update_frame (d : rgbw_device) r d' t :
  rgbw_color_update d = Done (r, d', t) ->
  r = 0 /\ props d' = props d /\ acts d' = acts d /\ same_config (data d) (data d').
Proof.
  unfold rgbw_color_update. intros H.
  apply bind_done in H. destruct H as (x & s1 & t1 & t2 & Hget & H & _).
  inversion Hget; subst x s1 t1; clear Hget.
  apply bind_done in H. destruct H as (x & s1 & t1 & t3 & H1 & H2 & _).
  inversion H2; subst r d' t3; clear H2.
  apply on_data_done in H1. destruct H1 as (pb' & H1 & ->).
  apply bind_done in H1. destruct H1 as (y & pb1 & u1 & u2 & Hloop & Hn & _).
  destruct (notify_loop_spec (rgbw_get_data d) pb1
              (cell (map_cells (fun p => apply_notify (rgbw_get_data d) (s32 (brightness p)))
                               (props d))) all_colors) as (tn & En).
  rewrite En in Hn. inversion Hn; subst pb' u2; clear Hn.
  split; [reflexivity|]. split; [reflexivity|]. split; [reflexivity|].
  cbn [data with_data].
  apply (for_each_frame same_config _ same_config_refl same_config_trans) in Hloop;
    [exact Hloop|].
  intros c s u s' t0. apply channel_update_frame.
Qed.

Lemma rgbw_color_update_total (d : rgbw_device) :
  (forall c, mapper_ready d c (brightness_of d c) = true) ->
  exists d' t, rgbw_color_update d = Done (0, d', t)
               /\ props d' = props d /\ acts d' = acts d
               /\ same_config (data d) (data d').
Proof.
  intros Hready.
  assert (exists d' t, rgbw_color_update d = Done (0, d', t)) as (d' & t & E).
  { unfold rgbw_color_update.
    destruct (for_each_total (same_config (data d))
                (fun c => channel_update c
                   (cell (map_cells (fun p => apply_notify (rgbw_get_data d) (s32 (brightness p)))
                                    (props d)) c)
                   (cell (map_cells (fun p => s32 (max_brightness p)) (props d)) c))
                all_colors) with (s := data d) as (pb1 & t1 & E1 & _).
    - intros c s _ Hs. rewrite !cell_map_cells.
      destruct (channel_update_total c
                  (apply_notify (rgbw_get_data d) (s32 (brightness (cell (props d) c))))
                  (s32 (max_brightness (cell (props d) c))) s) as (s' & t' & E & Hc).
      + rewrite (chan_ok_config (data d) s) by assumption. apply Hready.
      + exists s', t'. split; [exact E|]. eapply same_config_trans; eassumption.
    - apply same_config_refl.
    - destruct (notify_loop_spec (rgbw_get_data d) pb1
                  (cell (map_cells (fun p => apply_notify (rgbw_get_data d) (s32 (brightness p)))
                                   (props d))) all_colors) as (tn & En).
      eexists. eexists.
      eapply bind_intro; [reflexivity|].
      eapply bind_intro; [|reflexivity].
      apply on_data_intro. eapply bind_intro; [exact E1 | exact En]. }
  exists d', t. split; [exact E|].
  apply rgbw_color_update_frame in E. tauto.
Qed.

Lemma pulse_color_update_frame (d : rgbw_device) (i : Z) r d' t :
  pulse_color_update i d = Done (r, d', t) ->
  props d' = props d /\ acts d' = acts d /\ same_config (data d) (data d').
Proof.
  unfold pulse_color_update. intros H.
  apply bind_done in H. destruct H as (x & s1 & t1 & t2 & Hget & H & _).
  inversion Hget; subst x s1 t1; clear Hget.
  destruct (color_of_index i) as [c|].
  - apply bind_done in H. destruct H as (x & s1 & t1 & t3 & H1 & H2 & _).
    inversion H2; subst r d' t3; clear H2.
    apply on_data_done in H1. destruct H1 as (pb' & H1 & ->).
    apply bind_done in H1. destruct H1 as (y & pb1 & u1 & u2 & Hc & Hn & _).
    destruct (call_notify_after_spec (rgbw_get_data d) pb1
                (apply_notify (rgbw_get_data d) (s32 (brightness_of d c)))) as (tn & En).
    rewrite En in Hn. inversion Hn; subst pb' u2; clear Hn.
    split; [reflexivity|]. split; [reflexivity|].
    cbn [data with_data]. eapply channel_update_frame; exact Hc.
  - destruct (MAX_COLORS <=? i); [|discriminate].
    inversion H; subst. split; [reflexivity|]. split; [reflexivity|].
    apply same_config_refl.
Qed.

Lemma pulse_color_update_total (d : rgbw_device) (c : rgbw_colors) :
  mapper_ready d c (brightness_of d c) = true ->
  exists d' t, pulse_color_update (color_index c) d = Done (0, d', t)
               /\ props d' = props d /\ acts d' = acts d
               /\ same_config (data d) (data d').
Proof.
  intros Hready.
  assert (exists d' t, pulse_color_update (color_index c) d = Done (0, d', t))
    as (d' & t & E).
  { unfold pulse_color_update.
    assert (color_of_index (color_index c) = Some c) as -> by now destruct c.
    destruct (channel_update_total c
                (apply_notify (rgbw_get_data d) (s32 (brightness_of d c)))
                (s32 (max_brightness_of d c)) (data d) Hready) as (pb1 & t1 & E1 & _).
    destruct (call_notify_after_spec (rgbw_get_data d) pb1
                (apply_notify (rgbw_get_data d) (s32 (brightness_of d c)))) as (tn & En).
    eexists. eexists.
    eapply bind_intro; [reflexivity|].
    eapply bind_intro; [|reflexivity].
    apply on_data_intro. eapply bind_intro; [exact E1 | exact En]. }
  exists d', t. split; [exact E|].
  apply pulse_color_update_frame in E. tauto.
Qed.

(** ** What a timer tick leaves in place *)

Lemma same_setup_refl (d : rgbw_device) : same_setup d d.
Proof. repeat split. Qed.

Lemma same_setup_trans (a b c : rgbw_device) :
  same_setup a b -> same_setup b c -> same_setup a c.
Proof.
  intros (H1 & H2 & H3 & H4 & H5) (K1 & K2 & K3 & K4 & K5).
  split; [intros x; now rewrite K1|].
  split; [congruence|]. split; [congruence|]. split; [congruence|].
  eapply same_config_trans; eassumption.
Qed.

Lemma mapper_ready_setup (d d1 : rgbw_device) (c : rgbw_colors) (b : Z) :
  same_setup d d1 -> mapper_ready d1 c b = mapper_ready d c b.
Proof.
  intros (Hmax & _ & _ & _ & Hc). unfold mapper_ready.
  rewrite (chan_ok_config (data d) (data d1)) by assumption.
  rewrite Hmax. destruct Hc as (_ & _ & _ & _ & Hn & _).
  unfold apply_notify. now rewrite Hn.
Qed.

Lemma effect_on_setup (d d1 : rgbw_device) (mask : Z) :
  same_setup d d1 -> effect_on d1 mask = effect_on d mask.
Proof. intros (_ & Hs & _). unfold effect_on. now rewrite Hs. Qed.

Lemma write_all_brightness (f : rgbw_colors -> Z) (d : rgbw_device) (c : rgbw_colors) :
  brightness_of (write_all f d) c = f c.
Proof. now destruct c. Qed.

Lemma write_all_setup (f : rgbw_colors -> Z) (d : rgbw_device) :
  same_setup d (write_all f d) /\ bstate (acts (write_all f d)) = bstate (acts d).
Proof.
  split; [|reflexivity].
  split; [intros c; now destruct c|]. repeat split.
Qed.

Lemma with_bstate_setup (d : rgbw_device) (b : Z) :
  same_setup d (with_bstate d b)
  /\ (forall c, brightness_of (with_bstate d b) c = brightness_of d c)
  /\ bstate (acts (with_bstate d b)) = b.
Proof. repeat split. Qed.

Lemma set_brightness_setup (d : rgbw_device) (c : rgbw_colors) (b : Z) :
  same_setup d (set_brightness d c b)
  /\ bstate (acts (set_brightness d c b)) = bstate (acts d)
  /\ brightness_of (set_brightness d c b) c = b
  /\ (forall c', c' <> c -> brightness_of (set_brightness d c b) c' = brightness_of d c').
Proof.
  split; [|split; [reflexivity|split]].
  - split; [intros x; now destruct c, x|]. repeat split.
  - now destruct c.
  - intros c' H. destruct c, c'; try reflexivity; now contradiction H.
Qed.

(** The common tail of the blink, heartbeat and rainbow callbacks: change the
    device, push the change, ask for a restart. *)
Lemma effect_tick (f : rgbw_device -> rgbw_device) (ns : Z) (d : rgbw_device) :
  (forall c, mapper_ready (f d) c (brightness_of (f d) c) = true) ->
  exists d1 t,
    (modify f ;;;
     _ <- rgbw_color_update ;;
     emit (Ev_hrtimer_forward ns) ;;;
     ret HRTIMER_RESTART) d = Done (HRTIMER_RESTART, d1, t ++ [Ev_hrtimer_forward ns])
    /\ props d1 = props (f d) /\ acts d1 = acts (f d)
    /\ same_config (data (f d)) (data d1).
Proof.
  intros Hready.
  destruct (rgbw_color_update_total (f d) Hready) as (d1 & t & E & Hp & Ha & Hc).
  exists d1, t. split; [|tauto].
  change (t ++ [Ev_hrtimer_forward ns])
    with ([] ++ t ++ [Ev_hrtimer_forward ns] ++ []).
  eapply bind_intro; [reflexivity|].
  eapply bind_intro; [exact E|].
  eapply bind_intro; reflexivity.
Qed.

Lemma props_acts_setup (d d1 d2 : rgbw_device) :
  props d2 = props d1 -> acts d2 = acts d1 -> same_config (data d1) (data d2) ->
  same_setup d d1 ->
  same_setup d d2
  /\ (forall c, brightness_of d2 c = brightness_of d1 c)
  /\ bstate (acts d2) = bstate (acts d1)
  /\ (forall c, cntr (cell (props d2) c) = cntr (cell (props d1) c)).
Proof.
  intros Hp Ha Hc Hs.
  split; [|unfold brightness_of; rewrite Hp, Ha; repeat split].
  eapply same_setup_trans; [exact Hs|].
  unfold same_setup, max_brightness_of. rewrite Hp, Ha. repeat split; apply Hc.
Qed.

(** ** Runs of a timer *)

Lemma fire_steps (cb : M rgbw_device hrtimer_restart)
  (I : nat -> rgbw_device -> Prop)
  (P : nat -> rgbw_device -> list hw_event -> Prop) (N : nat) :
  (forall k d, (k < N)%nat -> I k d ->
     exists d1 t, cb d = Done (HRTIMER_RESTART, d1, t) /\ I (S k) d1 /\ P k d1 t) ->
  forall n k d, (k + n <= N)%nat -> I k d ->
    exists l d', fire cb n d = Done (l, d') /\ length l = n /\ I (k + n)%nat d'
      /\ forall j x, nth_error l j = Some x -> P (k + j)%nat (fst x) (snd x).
Proof.
  intros Hstep. induction n as [|n IH]; intros k d Hk Hd.
  - exists [], d. cbn. rewrite Nat.add_0_r. repeat split; try assumption.
    intros [|j] x; discriminate.
  - destruct (Hstep k d) as (d1 & t & E & I1 & P1); [lia|assumption|].
    destruct (IH (S k) d1) as (l & d' & El & Hlen & I' & Hl); [lia|assumption|].
    exists ((d1, t) :: l), d'. cbn [fire]. rewrite E, El.
    split; [reflexivity|]. split; [cbn; now rewrite Hlen|].
    split; [now replace (k + S n)%nat with (S k + n)%nat by lia|].
    intros [|j] x Hx; cbn in Hx.
    + inversion Hx; subst. now rewrite Nat.add_0_r.
    + replace (k + S j)%nat with (S k + j)%nat by lia. now apply Hl.
Qed.

(** ** Heartbeat *)

Lemma mod4_view (k : nat) :
  exists r, (r < 4)%nat /\ (k mod 4 = r)%nat /\ Nat.even k = Nat.even r
            /\ (S k mod 4 = S r mod 4)%nat.
Proof.
  exists (k mod 4)%nat.
  split; [apply Nat.mod_upper_bound; lia|]. split; [reflexivity|]. split.
  - assert (Nat.even (4 * (k / 4) + k mod 4) = Nat.even (k mod 4)) as H.
    { rewrite Nat.even_add, Nat.even_mul. cbn [Nat.even orb].
      now destruct (Nat.even (k mod 4)). }
    rewrite <- H. f_equal. apply Nat.div_mod_eq.
  - replace (S k) with (k + 1)%nat by lia.
    replace (S (k mod 4)) with (k mod 4 + 1)%nat by lia.
    now rewrite Nat.Div0.add_mod_idemp_l.
Qed.

Section HeartbeatFacts.

Variable RGBW_HB_ON : Z.

Lemma hb_switch_spec (d : rgbw_device) (j : Z) :
  bstate (acts d) = j -> 0 <= j <= 3 ->
  same_setup d (hb_switch d)
  /\ (forall c, brightness_of (hb_switch d) c
                = if Z.even j then cell (rgbw_values (acts d)) c else 0)
  /\ bstate (acts (hb_switch d)) = (if j <? 3 then j + 1 else 0).
Proof.
  intros Hb Hj.
  assert (j = 0 \/ j = 1 \/ j = 2 \/ j = 3) as Hcases by lia.
  unfold hb_switch. rewrite Hb, (s32_small j) by lia.
  split; [|split].
  - eapply same_setup_trans; [apply write_all_setup | apply with_bstate_setup].
  - intros c.
    match goal with
    | |- brightness_of (with_bstate ?x ?b) c = _ =>
        destruct (with_bstate_setup x b) as (_ & Hbr & _); rewrite Hbr
    end.
    rewrite write_all_brightness.
    destruct Hcases as [-> | [-> | [-> | ->]]]; reflexivity.
  - match goal with
    | |- bstate (acts (with_bstate ?x ?b)) = _ =>
        destruct (with_bstate_setup x b) as (_ & _ & Hst); rewrite Hst
    end.
    match goal with
    | |- context [write_all ?f d] =>
        rewrite (proj2 (write_all_setup f d))
    end.
    rewrite Hb. destruct (j <? 3) eqn:E3; [|reflexivity].
    apply u32_small. apply Z.ltb_lt in E3. lia.
Qed.

Lemma hb_tick (d : rgbw_device) (j : Z) :
  effect_on d RGBW_HB_ON = true -> bstate (acts d) = j -> 0 <= j <= 3 ->
  (forall c, mapper_ready d c
               (if Z.even j then cell (rgbw_values (acts d)) c else 0) = true) ->
  exists d1 t,
    rgbw_hb_hrtimer_callback RGBW_HB_ON d
    = Done (HRTIMER_RESTART, d1,
            t ++ [Ev_hrtimer_forward (if j <? 3 then 100000000 else 700000000)])
    /\ same_setup d d1
    /\ (forall c, brightness_of d1 c
                  = if Z.even j then cell (rgbw_values (acts d)) c else 0)
    /\ bstate (acts d1) = (if j <? 3 then j + 1 else 0).
Proof.
  intros Heff Hb Hj Hready.
  destruct (hb_switch_spec d j Hb Hj) as (Hs & Hbr & Hst).
  destruct (effect_tick hb_switch (if j <? 3 then 100000000 else 700000000) d)
    as (d1 & t & E & Hp & Ha & Hc).
  { intros c. rewrite (mapper_ready_setup d (hb_switch d)) by exact Hs.
    rewrite Hbr. apply Hready. }
  destruct (props_acts_setup d (hb_switch d) d1 Hp Ha Hc Hs) as (Hs1 & Hb1 & Hst1 & _).
  exists d1, t. split; [|split; [exact Hs1|split]].
  - unfold rgbw_hb_hrtimer_callback.
    change (t ++ [Ev_hrtimer_forward (if j <? 3 then 100000000 else 700000000)])
      with ([] ++ t ++ [Ev_hrtimer_forward (if j <? 3 then 100000000 else 700000000)]).
    eapply bind_intro; [reflexivity|].
    rewrite Heff. cbv zeta. rewrite Hb, (s32_small j) by lia. exact E.
  - intros c. now rewrite Hb1, Hbr.
  - now rewrite Hst1, Hst.
Qed.

(** C5.  With the heartbeat bit set, the step at 0 and the saved colour
    [200, 0, 0, 0], any number [n] of successive firings of the heartbeat
    callback all ask for a restart; firing [k] (from 0) leaves the four
    brightnesses at [200, 0, 0, 0] when [k] is even and at [0, 0, 0, 0]
    when it is odd, and forwards the timer by 100 ms, except every fourth
    firing, which forwards it by 700 ms.  The hypothesis on [mapper_ready]
    says that the channels can be driven at these two values at all. *)
Theorem heartbeat_cycle (d : rgbw_device) (n : nat) :
  effect_on d RGBW_HB_ON = true ->
  bstate (acts d) = 0 ->
  rgbw_values (acts d) = mk_per_color 200 0 0 0 ->
  (forall c b, b = 0 \/ b = cell (mk_per_color 200 0 0 0) c ->
               mapper_ready d c b = true) ->
  exists l d',
    fire (rgbw_hb_hrtimer_callback RGBW_HB_ON) n d = Done (l, d')
    /\ length l = n
    /\ forall k x, nth_error l k = Some x ->
         brightnesses (fst x)
         = (if Nat.even k then [200; 0; 0; 0] else [0; 0; 0; 0])
         /\ exists t, snd x = t ++ [Ev_hrtimer_forward
                                      (if (k mod 4 =? 3)%nat then 700000000
                                       else 100000000)].
Proof.
  intros Heff Hb Hsaved Hready.
  pose (I := fun (k : nat) (x : rgbw_device) =>
               same_setup d x /\ bstate (acts x) = Z.of_nat (k mod 4)).
  pose (P := fun (k : nat) (x : rgbw_device) (t : list hw_event) =>
               brightnesses x
               = (if Nat.even k then [200; 0; 0; 0] else [0; 0; 0; 0])
               /\ exists t', t = t' ++ [Ev_hrtimer_forward
                                          (if (k mod 4 =? 3)%nat then 700000000
                                           else 100000000)]).
  destruct (fire_steps (rgbw_hb_hrtimer_callback RGBW_HB_ON) I P n) with
    (n := n) (k := 0%nat) (d := d) as (l & d' & E & Hlen & _ & Hl).
  - intros k x _ (Hs & Hk).
    destruct (mod4_view k) as (r & Hr & Hm & Hev & HS).
    rewrite Hm in Hk.
    assert (rgbw_values (acts x) = mk_per_color 200 0 0 0) as Hv.
    { destruct Hs as (_ & _ & _ & Hv & _). now rewrite Hv. }
    destruct (hb_tick x (Z.of_nat r)) as (d1 & t & E & Hs1 & Hbr & Hst).
    + now rewrite (effect_on_setup d x) by exact Hs.
    + exact Hk.
    + lia.
    + intros c. rewrite (mapper_ready_setup d x) by exact Hs. apply Hready.
      rewrite Hv. destruct (Z.even (Z.of_nat r)); [now right | now left].
    + exists d1, (t ++ [Ev_hrtimer_forward
                          (if Z.of_nat r <? 3 then 100000000 else 700000000)]).
      split; [exact E|].
      unfold I, P. rewrite HS, Hm, Hev, Hst.
      unfold brightnesses. cbn [map all_colors]. rewrite !Hbr, Hv.
      split; [split; [eapply same_setup_trans; eassumption|]|].
      * destruct r as [|[|[|[|r]]]]; try reflexivity; lia.
      * destruct r as [|[|[|[|r]]]]; try lia; (split; [reflexivity|]);
          exists t; reflexivity.
  - lia.
  - split; [apply same_setup_refl | exact Hb].
  - exists l, d'. split; [exact E|]. split; [exact Hlen|].
    intros k x Hx. apply (Hl k x Hx).
Qed.

End HeartbeatFacts.

(** ** Where a fault can come from *)

Lemma duty_cycle_of_fault (pb : pwm_rgbw_data) (b max : Z) (f : fault) :
  duty_cycle_of pb b max = Fault f -> f = DivByZero \/ f = OutOfBounds Arr_levels.
Proof.
  unfold duty_cycle_of, table_read.
  destruct (levels pb) as [l|].
  - destruct ((0 <=? b) && (b <? Z.of_nat (length l))).
    + destruct (u32 max =? 0); intros H; inversion H; now left.
    + intros H; inversion H; now right.
  - destruct (u32 max =? 0); intros H; inversion H; now left.
Qed.

Lemma channel_update_fault (c : rgbw_colors) (b max : Z) (pb : pwm_rgbw_data) (f : fault) :
  channel_update c b max pb = Fault f -> duty_cycle_of pb b max = Fault f.
Proof.
  unfold channel_update.
  destruct (hrtimer_start_soft_spec c 1000 pb) as (pb1 & E & _).
  unfold bind, get, emit, ret, lift_outcome.
  destruct (is_pwm (cell (types pb) c)).
  - destruct (b =? 0).
    + destruct (is_gpio _ && negb _); [rewrite E|]; discriminate.
    + destruct (duty_cycle_of pb b max) as [duty|f']; [|now intros H; inversion H].
      destruct (is_gpio _ && negb _); [rewrite E|]; discriminate.
  - destruct (is_gpio _ && negb _); [rewrite E|]; discriminate.
Qed.

Lemma bind_fault {S A B : Type} (m : M S A) (k : A -> M S B) s f :
  bind m k s = Fault f ->
  m s = Fault f \/ exists a s1 t1, m s = Done (a, s1, t1) /\ k a s1 = Fault f.
Proof.
  unfold bind. destruct (m s) as [[[a s1] t1]|f'].
  - destruct (k a s1) as [[[b s2] t2]|f''] eqn:Ek; [discriminate|].
    intros H; inversion H; subst. right. now exists a, s1, t1.
  - intros H; inversion H; subst. now left.
Qed.

Lemma pulse_color_update_fault (i : Z) (d : rgbw_device) (f : fault) :
  pulse_color_update i d = Fault f ->
  f = DivByZero \/ f = OutOfBounds Arr_levels \/ f = OutOfBounds Arr_props.
Proof.
  unfold pulse_color_update. intros H.
  apply bind_fault in H. destruct H as [H | (x & s1 & t1 & Hget & H)]; [discriminate|].
  inversion Hget; subst x s1 t1; clear Hget.
  destruct (color_of_index i) as [c|].
  - apply bind_fault in H. destruct H as [H | (x & s1 & t1 & _ & H)]; [|discriminate].
    unfold on_data in H.
    match type of H with
    | match ?m ?s with _ => _ end = _ => destruct (m s) as [[[y pb'] t']|f'] eqn:Em
    end; [discriminate|].
    inversion H; subst f'; clear H.
    apply bind_fault in Em. destruct Em as [Em | (x & s1 & t1 & _ & Em)].
    + apply channel_update_fault, duty_cycle_of_fault in Em. tauto.
    + destruct (call_notify_after_spec (rgbw_get_data d) s1
                  (apply_notify (rgbw_get_data d) (s32 (brightness_of d c)))) as (tn & En).
      rewrite En in Em. discriminate.
  - destruct (MAX_COLORS <=? i); [discriminate|].
    inversion H. tauto.
Qed.

(** ** Idle timers and the pulse index *)

Section IdleFacts.

Variables RGBW_PULSE_ON RGBW_BLINK_ON RGBW_HB_ON RGBW_RB_ON : Z.
Variables PULSE_VALUE_PER_NS BLINK_STATE_PER_NS : Z.

(** C9.  Each of the four effect callbacks, fired while its own bit is
    clear in the active-effect mask, returns [HRTIMER_NORESTART], leaves the
    whole device (brightnesses, effect state, driver data) as it was and
    calls no kernel service. *)
Theorem idle_callback_does_nothing (d : rgbw_device) :
  (effect_on d RGBW_PULSE_ON = false ->
   rgbw_pulse_hrtimer_callback RGBW_PULSE_ON PULSE_VALUE_PER_NS d
   = Done (HRTIMER_NORESTART, d, []))
  /\ (effect_on d RGBW_BLINK_ON = false ->
      rgbw_blink_hrtimer_callback RGBW_BLINK_ON BLINK_STATE_PER_NS d
      = Done (HRTIMER_NORESTART, d, []))
  /\ (effect_on d RGBW_HB_ON = false ->
      rgbw_hb_hrtimer_callback RGBW_HB_ON d = Done (HRTIMER_NORESTART, d, []))
  /\ (effect_on d RGBW_RB_ON = false ->
      rgbw_rb_hrtimer_callback RGBW_RB_ON PULSE_VALUE_PER_NS d
      = Done (HRTIMER_NORESTART, d, [])).
Proof.
  unfold rgbw_pulse_hrtimer_callback, rgbw_blink_hrtimer_callback,
    rgbw_hb_hrtimer_callback, rgbw_rb_hrtimer_callback.
  repeat split; intros H; unfold bind at 1; cbn [get]; rewrite H; reflexivity.
Qed.

Lemma pulse_index_range (n : Z) : 0 <= n -> 0 <= pulse_index n < pulse_val_size.
Proof.
  intros Hn. unfold pulse_index.
  destruct (Z.leb_spec pulse_val_size n); [|lia].
  now vm_compute.
Qed.

(** C10.  In the pulse callback, whatever non-negative value the tick
    counter of the targeted channel starts with, the index used for
    [pulse_val_table] is 0 when the counter is at or past the length of the
    table and the counter itself otherwise; the index lies inside the table,
    the read returns the table entry, and the callback never faults on
    [pulse_val_table]. *)
Theorem pulse_table_read_in_bounds (d : rgbw_device) (c : rgbw_colors) :
  color_of_index (s32 (pcolor (acts d))) = Some c ->
  0 <= cntr (cell (props d) c) ->
  (pulse_val_size <= cntr (cell (props d) c) ->
   pulse_index (cntr (cell (props d) c)) = 0)
  /\ (cntr (cell (props d) c) < pulse_val_size ->
      pulse_index (cntr (cell (props d) c)) = cntr (cell (props d) c))
  /\ 0 <= pulse_index (cntr (cell (props d) c)) < pulse_val_size
  /\ table_read Arr_pulse_val_table pulse_val_table
       (pulse_index (cntr (cell (props d) c)))
     = Done (nth (Z.to_nat (pulse_index (cntr (cell (props d) c))))
                 pulse_val_table 0)
  /\ rgbw_pulse_hrtimer_callback RGBW_PULSE_ON PULSE_VALUE_PER_NS d
     <> Fault (OutOfBounds Arr_pulse_val_table).
Proof.
  intros Hc Hn.
  pose proof (pulse_index_range _ Hn) as Hr.
  assert (table_read Arr_pulse_val_table pulse_val_table
            (pulse_index (cntr (cell (props d) c)))
          = Done (nth (Z.to_nat (pulse_index (cntr (cell (props d) c))))
                      pulse_val_table 0)) as Hread.
  { unfold table_read. fold pulse_val_size.
    destruct (Z.leb_spec 0 (pulse_index (cntr (cell (props d) c)))); [|lia].
    destruct (Z.ltb_spec (pulse_index (cntr (cell (props d) c))) pulse_val_size); [|lia].
    reflexivity. }
  split; [|split; [|split; [exact Hr|split; [exact Hread|]]]].
  - intros H. unfold pulse_index. destruct (Z.leb_spec pulse_val_size (cntr (cell (props d) c))); lia.
  - intros H. unfold pulse_index. destruct (Z.leb_spec pulse_val_size (cntr (cell (props d) c))); lia.
  - unfold rgbw_pulse_hrtimer_callback. intros H.
    apply bind_fault in H. destruct H as [H | (x & s1 & t1 & Hget & H)]; [discriminate|].
    inversion Hget; subst x s1 t1; clear Hget.
    destruct (effect_on d RGBW_PULSE_ON); [|discriminate].
    cbv zeta in H. rewrite Hc in H.
    apply bind_fault in H. destruct H as [H | (v & s1 & t1 & Hv & H)].
    + unfold lift_outcome in H. rewrite Hread in H. discriminate.
    + apply bind_fault in H. destruct H as [H | (u & s2 & t2 & Hput & H)]; [discriminate|].
      apply bind_fault in H. destruct H as [H | (r & s3 & t3 & _ & H)].
      * apply pulse_color_update_fault in H.
        destruct H as [H | [H | H]]; discriminate.
      * apply bind_fault in H. destruct H as [H | (? & ? & ? & _ & H)]; discriminate.
Qed.

End IdleFacts.

(** ** Pulse *)

Lemma color_of_index_inv (i : Z) (c : rgbw_colors) :
  color_of_index i = Some c -> i = color_index c.
Proof.
  unfold color_of_index.
  destruct i as [|p|p]; try discriminate;
    [intros H; inversion H; reflexivity|].
  destruct p as [[p|p|]|[p|p|]|]; try discriminate;
    try destruct p; try discriminate; intros H; inversion H; reflexivity.
Qed.

Lemma set_cntr_setup (d : rgbw_device) (c : rgbw_colors) (n : Z) :
  same_setup d (set_cntr d c n)
  /\ bstate (acts (set_cntr d c n)) = bstate (acts d)
  /\ (forall c', brightness_of (set_cntr d c n) c' = brightness_of d c')
  /\ cntr (cell (props (set_cntr d c n)) c) = n.
Proof.
  split; [|split; [reflexivity|split]].
  - split; [intros x; now destruct c, x|]. repeat split.
  - intros c'. now destruct c, c'.
  - now destruct c.
Qed.

Lemma pulse_val_size_eq : pulse_val_size = 80.
Proof. reflexivity. Qed.

Lemma pulse_index_next (i : Z) :
  0 <= i < 80 -> pulse_index (i + 1) = (i + 1) mod 80.
Proof.
  intros Hi. unfold pulse_index. rewrite pulse_val_size_eq.
  destruct (Z.leb_spec 80 (i + 1)).
  - replace (i + 1) with 80 by lia. reflexivity.
  - symmetry. apply Z.mod_small. lia.
Qed.

Section PulseFacts.

Variables RGBW_PULSE_ON PULSE_VALUE_PER_NS : Z.

Lemma pulse_tick (d : rgbw_device) (c : rgbw_colors) :
  effect_on d RGBW_PULSE_ON = true ->
  color_of_index (s32 (pcolor (acts d))) = Some c ->
  0 <= cntr (cell (props d) c) ->
  mapper_ready d c (nth (Z.to_nat (pulse_index (cntr (cell (props d) c))))
                        pulse_val_table 0) = true ->
  exists d1 t,
    rgbw_pulse_hrtimer_callback RGBW_PULSE_ON PULSE_VALUE_PER_NS d
    = Done (HRTIMER_RESTART, d1, t ++ [Ev_hrtimer_forward PULSE_VALUE_PER_NS])
    /\ same_setup d d1
    /\ brightness_of d1 c
       = nth (Z.to_nat (pulse_index (cntr (cell (props d) c)))) pulse_val_table 0
    /\ (forall c', c' <> c -> brightness_of d1 c' = brightness_of d c')
    /\ cntr (cell (props d1) c) = pulse_index (cntr (cell (props d) c)) + 1.
Proof.
  intros Heff Hc Hn Hready.
  set (i := pulse_index (cntr (cell (props d) c))) in *.
  set (v := nth (Z.to_nat i) pulse_val_table 0) in *.
  assert (0 <= i < 80) as Hi
    by (rewrite <- pulse_val_size_eq; now apply pulse_index_range).
  assert (table_read Arr_pulse_val_table pulse_val_table i = Done v) as Hread.
  { unfold table_read. change (Z.of_nat (length pulse_val_table)) with 80.
    destruct (Z.leb_spec 0 i); [|lia]. destruct (Z.ltb_spec i 80); [|lia]. reflexivity. }
  set (d2 := set_cntr (set_brightness d c v) c (s32 (i + 1))).
  destruct (set_brightness_setup d c v) as (Hs1 & _ & Hb1 & Ho1).
  destruct (set_cntr_setup (set_brightness d c v) c (s32 (i + 1)))
    as (Hs2 & _ & Hb2 & Hc2).
  fold d2 in Hs2, Hb2, Hc2.
  assert (same_setup d d2) as Hs by (eapply same_setup_trans; eassumption).
  destruct (pulse_color_update_total d2 c) as (d1 & t & E & Hp & Ha & Hcfg).
  { rewrite (mapper_ready_setup d d2) by exact Hs. now rewrite Hb2, Hb1. }
  destruct (props_acts_setup d d2 d1 Hp Ha Hcfg Hs) as (Hs' & Hb' & _ & Hc').
  exists d1, t. split; [|split; [exact Hs'|split; [|split]]].
  - unfold rgbw_pulse_hrtimer_callback.
    change (t ++ [Ev_hrtimer_forward PULSE_VALUE_PER_NS])
      with ([] ++ [] ++ [] ++ t ++ [Ev_hrtimer_forward PULSE_VALUE_PER_NS] ++ []).
    eapply bind_intro; [reflexivity|].
    rewrite Heff. cbv zeta. rewrite Hc. fold i.
    eapply bind_intro; [unfold lift_outcome; rewrite Hread; reflexivity|].
    eapply bind_intro; [reflexivity|].
    rewrite (color_of_index_inv _ _ Hc).
    eapply bind_intro; [exact E|].
    eapply bind_intro; reflexivity.
  - now rewrite Hb', Hb2, Hb1.
  - intros c' Hne. rewrite Hb', Hb2. now apply Ho1.
  - rewrite Hc', Hc2. apply s32_small. lia.
Qed.

(** C4, as the code has it.  [pulse_val_table] holds 80 values, each
    between 0 and 254.  With the pulse bit set, a valid target channel [c],
    a non-negative tick counter, and a channel that can be driven at every
    value of the table, any number [n] of successive firings of the pulse
    callback all ask for a restart; firing [k] (from 0) leaves on [c] the
    table entry at index [(i0 + k) mod 80], where [i0] is the index the first
    firing reads, and leaves the other channels as they were.  Hence the
    index steps by one, returns to 0 after 79, and the brightness left by
    firing [k + 80] is the one left by firing [k]. *)
Theorem pulse_sequence (d : rgbw_device) (c : rgbw_colors) (n : nat) :
  effect_on d RGBW_PULSE_ON = true ->
  color_of_index (s32 (pcolor (acts d))) = Some c ->
  0 <= cntr (cell (props d) c) ->
  (forall v, In v pulse_val_table -> mapper_ready d c v = true) ->
  length pulse_val_table = 80%nat
  /\ Forall (fun v => 0 <= v <= 254) pulse_val_table
  /\ exists l d',
      fire (rgbw_pulse_hrtimer_callback RGBW_PULSE_ON PULSE_VALUE_PER_NS) n d
      = Done (l, d')
      /\ length l = n
      /\ (forall k x, nth_error l k = Some x ->
            brightness_of (fst x) c
            = nth (Z.to_nat ((pulse_index (cntr (cell (props d) c)) + Z.of_nat k)
                             mod 80))
                  pulse_val_table 0
            /\ forall c', c' <> c -> brightness_of (fst x) c' = brightness_of d c')
      /\ (forall k x y, nth_error l k = Some x -> nth_error l (k + 80) = Some y ->
            brightness_of (fst y) c = brightness_of (fst x) c).
Proof.
  intros Heff Hc Hn Hready.
  split; [reflexivity|].
  split; [repeat constructor; lia|].
  set (i0 := pulse_index (cntr (cell (props d) c))).
  assert (0 <= i0 < 80) as Hi0
    by (rewrite <- pulse_val_size_eq; now apply pulse_index_range).
  pose (I := fun (k : nat) (x : rgbw_device) =>
               same_setup d x /\ 0 <= cntr (cell (props x) c)
               /\ pulse_index (cntr (cell (props x) c)) = (i0 + Z.of_nat k) mod 80
               /\ forall c', c' <> c -> brightness_of x c' = brightness_of d c').
  pose (P := fun (k : nat) (x : rgbw_device) (t : list hw_event) =>
               brightness_of x c
               = nth (Z.to_nat ((i0 + Z.of_nat k) mod 80)) pulse_val_table 0
               /\ forall c', c' <> c -> brightness_of x c' = brightness_of d c').
  destruct (fire_steps (rgbw_pulse_hrtimer_callback RGBW_PULSE_ON PULSE_VALUE_PER_NS)
              I P n) with (n := n) (k := 0%nat) (d := d)
    as (l & d' & E & Hlen & _ & Hl).
  - intros k x _ (Hs & Hx & Hidx & Hoth).
    assert (0 <= (i0 + Z.of_nat k) mod 80 < 80) as Hm by (apply Z.mod_pos_bound; lia).
    destruct (pulse_tick x c) as (d1 & t & E & Hs1 & Hb & Ho & Hcn).
    + now rewrite (effect_on_setup d x) by exact Hs.
    + destruct Hs as (_ & _ & Hp & _). now rewrite Hp.
    + exact Hx.
    + rewrite (mapper_ready_setup d x) by exact Hs. apply Hready.
      apply nth_In. rewrite Hidx. change (length pulse_val_table) with 80%nat. lia.
    + exists d1, (t ++ [Ev_hrtimer_forward PULSE_VALUE_PER_NS]).
      split; [exact E|].
      assert (forall c', c' <> c -> brightness_of d1 c' = brightness_of d c') as Hoth1.
      { intros c' Hne. rewrite Ho by exact Hne. now apply Hoth. }
      split; [split; [|split; [|split]]|split].
      * eapply same_setup_trans; eassumption.
      * rewrite Hcn, Hidx. lia.
      * rewrite Hcn, Hidx, pulse_index_next by exact Hm.
        rewrite Z.add_mod_idemp_l by lia. f_equal. lia.
      * exact Hoth1.
      * now rewrite Hb, Hidx.
      * exact Hoth1.
  - lia.
  - split; [apply same_setup_refl|]. split; [exact Hn|]. split; [|reflexivity].
    fold i0. rewrite Z.add_0_r. symmetry. apply Z.mod_small. exact Hi0.
  - exists l, d'. split; [exact E|]. split; [exact Hlen|]. split.
    + intros k x Hx. apply (Hl k x Hx).
    + intros k x y Hx Hy.
      destruct (Hl k x Hx) as (Hbx & _). destruct (Hl (k + 80)%nat y Hy) as (Hby & _).
      cbn [Nat.add] in Hbx, Hby. rewrite Hbx, Hby. f_equal. f_equal.
      rewrite Nat2Z.inj_add.
      replace (i0 + (Z.of_nat k + Z.of_nat 80)) with (i0 + Z.of_nat k + 1 * 80) by lia.
      apply Z_mod_plus_full.
Qed.

End PulseFacts.

(** ** Rainbow *)

Lemma max_brightness_set_brightness (d : rgbw_device) (c c' : rgbw_colors) (b : Z) :
  max_brightness_of (set_brightness d c b) c' = max_brightness_of d c'.
Proof. now destruct c, c'. Qed.

Lemma rb_up_spec (d : rgbw_device) (c : rgbw_colors) (next g : Z) :
  brightness_of d c = g -> 0 <= g + 1 < 2 ^ 32 ->
  same_setup d (rb_up c next d)
  /\ brightness_of (rb_up c next d) c = g + 1
  /\ (forall c', c' <> c -> brightness_of (rb_up c next d) c' = brightness_of d c')
  /\ bstate (acts (rb_up c next d))
     = (if u32 (max_brightness_of d c - 1) <? g + 1 then next else bstate (acts d)).
Proof.
  intros Hg Hr. unfold rb_up. rewrite Hg, (u32_small (g + 1)) by exact Hr.
  destruct (set_brightness_setup d c (g + 1)) as (Hs & Hst & Hb & Ho).
  rewrite max_brightness_set_brightness, Hb.
  destruct (u32 (max_brightness_of d c - 1) <? g + 1).
  - destruct (with_bstate_setup (set_brightness d c (g + 1)) next) as (Hs' & Hb' & Hst').
    split; [eapply same_setup_trans; eassumption|].
    split; [now rewrite Hb'|]. split; [|exact Hst'].
    intros c' Hne. rewrite Hb'. now apply Ho.
  - tauto.
Qed.

Lemma rb_down_spec (d : rgbw_device) (c : rgbw_colors) (next g : Z) :
  brightness_of d c = g -> 0 <= g - 1 < 2 ^ 32 ->
  same_setup d (rb_down c next d)
  /\ brightness_of (rb_down c next d) c = g - 1
  /\ (forall c', c' <> c -> brightness_of (rb_down c next d) c' = brightness_of d c')
  /\ bstate (acts (rb_down c next d))
     = (if g - 1 <? 1 then next else bstate (acts d)).
Proof.
  intros Hg Hr. unfold rb_down. rewrite Hg, (u32_small (g - 1)) by exact Hr.
  destruct (set_brightness_setup d c (g - 1)) as (Hs & Hst & Hb & Ho).
  rewrite Hb.
  destruct (g - 1 <? 1).
  - destruct (with_bstate_setup (set_brightness d c (g - 1)) next) as (Hs' & Hb' & Hst').
    split; [eapply same_setup_trans; eassumption|].
    split; [now rewrite Hb'|]. split; [|exact Hst'].
    intros c' Hne. rewrite Hb'. now apply Ho.
  - tauto.
Qed.

Lemma color_neq_dec (a b : rgbw_colors) : a = b \/ a <> b.
Proof. destruct a, b; (now left) || (right; discriminate). Qed.

Section RainbowFacts.

Variables RGBW_RB_ON PULSE_VALUE_PER_NS : Z.

Lemma rb_tick (d : rgbw_device) :
  effect_on d RGBW_RB_ON = true ->
  (forall c, mapper_ready d c (brightness_of (rb_switch d) c) = true) ->
  same_setup d (rb_switch d) ->
  exists d1 t,
    rgbw_rb_hrtimer_callback RGBW_RB_ON PULSE_VALUE_PER_NS d
    = Done (HRTIMER_RESTART, d1, t ++ [Ev_hrtimer_forward PULSE_VALUE_PER_NS])
    /\ same_setup d d1
    /\ (forall c, brightness_of d1 c = brightness_of (rb_switch d) c)
    /\ bstate (acts d1) = bstate (acts (rb_switch d)).
Proof.
  intros Heff Hready Hs.
  destruct (effect_tick rb_switch PULSE_VALUE_PER_NS d) as (d1 & t & E & Hp & Ha & Hc).
  { intros c. rewrite (mapper_ready_setup d (rb_switch d)) by exact Hs. apply Hready. }
  destruct (props_acts_setup d (rb_switch d) d1 Hp Ha Hc Hs) as (Hs1 & Hb1 & Hst1 & _).
  exists d1, t. split; [|tauto].
  unfold rgbw_rb_hrtimer_callback.
  change (t ++ [Ev_hrtimer_forward PULSE_VALUE_PER_NS])
    with ([] ++ t ++ [Ev_hrtimer_forward PULSE_VALUE_PER_NS]).
  eapply bind_intro; [reflexivity|].
  rewrite Heff. exact E.
Qed.

(** C6.  With the rainbow bit set, the step at 0, [max_brightness = 255] on
    every channel and Red, Green, Blue at 255, 0, 0, the rainbow callback
    fires 255 times in a row, asking for a restart each time.  Firing [k]
    (from 0 to 254) finds Green at [k] and leaves it at [k + 1], so Green is
    stepped by one from each of the values 0, 1, ..., 254; Red stays at 255
    and Blue at 0; the step is still 0 after each of the first 254 firings
    and is 1 after the 255th, which is the one that takes Green from 254 to
    255.  The hypotheses on [mapper_ready] and on White say that the
    channels can be driven at the values in play. *)
Theorem rainbow_state0 (d : rgbw_device) :
  effect_on d RGBW_RB_ON = true ->
  bstate (acts d) = 0 ->
  (forall c, max_brightness_of d c = 255) ->
  brightness_of d COLOR_RED = 255 ->
  brightness_of d COLOR_GREEN = 0 ->
  brightness_of d COLOR_BLUE = 0 ->
  0 <= brightness_of d COLOR_WHITE <= 255 ->
  (forall c b, 0 <= b <= 255 -> mapper_ready d c b = true) ->
  exists l d',
    fire (rgbw_rb_hrtimer_callback RGBW_RB_ON PULSE_VALUE_PER_NS) 255 d = Done (l, d')
    /\ length l = 255%nat
    /\ (forall k x, nth_error l k = Some x ->
          brightness_of (fst x) COLOR_RED = 255
          /\ brightness_of (fst x) COLOR_GREEN = Z.of_nat k + 1
          /\ brightness_of (fst x) COLOR_BLUE = 0
          /\ bstate (acts (fst x)) = (if (k <? 254)%nat then 0 else 1))
    /\ brightness_of d' COLOR_GREEN = 255
    /\ bstate (acts d') = 1.
Proof.
  intros Heff Hst Hmax Hr Hg Hb Hw Hready.
  pose (I := fun (k : nat) (x : rgbw_device) =>
               same_setup d x
               /\ bstate (acts x) = (if (k <? 255)%nat then 0 else 1)
               /\ brightness_of x COLOR_RED = 255
               /\ brightness_of x COLOR_GREEN = Z.of_nat k
               /\ brightness_of x COLOR_BLUE = 0
               /\ brightness_of x COLOR_WHITE = brightness_of d COLOR_WHITE).
  pose (P := fun (k : nat) (x : rgbw_device) (t : list hw_event) =>
               brightness_of x COLOR_RED = 255
               /\ brightness_of x COLOR_GREEN = Z.of_nat k + 1
               /\ brightness_of x COLOR_BLUE = 0
               /\ bstate (acts x) = (if (k <? 254)%nat then 0 else 1)).
  destruct (fire_steps (rgbw_rb_hrtimer_callback RGBW_RB_ON PULSE_VALUE_PER_NS)
              I P 255) with (n := 255%nat) (k := 0%nat) (d := d)
    as (l & d' & E & Hlen & HI & Hl).
  - intros k x Hk (Hs & Hxs & Hxr & Hxg & Hxb & Hxw).
    destruct (Nat.ltb_spec k 255) as [_|]; [|lia].
    assert (rb_switch x = rb_up COLOR_GREEN 1 x) as Hsw
      by (unfold rb_switch; now rewrite Hxs).
    destruct (rb_up_spec x COLOR_GREEN 1 (Z.of_nat k) Hxg)
      as (Hs1 & Hg1 & Ho1 & Hst1); [lia|].
    assert (max_brightness_of x COLOR_GREEN = 255) as Hmx
      by (destruct Hs as (Hm & _); now rewrite Hm).
    rewrite Hmx in Hst1. change (u32 (255 - 1)) with 254 in Hst1.
    destruct (rb_tick x) as (d1 & t & E & Hs2 & Hb2 & Hst2).
    + now rewrite (effect_on_setup d x) by exact Hs.
    + intros c. rewrite (mapper_ready_setup d x) by exact Hs. apply Hready.
      rewrite Hsw.
      destruct c; [rewrite Ho1 by discriminate | rewrite Hg1
                  | rewrite Ho1 by discriminate | rewrite Ho1 by discriminate]; lia.
    + now rewrite Hsw.
    + exists d1, (t ++ [Ev_hrtimer_forward PULSE_VALUE_PER_NS]).
      split; [exact E|].
      rewrite Hsw in Hb2, Hst2.
      assert (bstate (acts d1) = (if (k <? 254)%nat then 0 else 1)) as Hstep.
      { rewrite Hst2, Hst1, Hxs.
        destruct (Nat.ltb_spec k 254); destruct (Z.ltb_spec 254 (Z.of_nat k + 1)); lia. }
      unfold I, P. rewrite !Hb2, Hg1, !Ho1 by discriminate.
      split; [split; [eapply same_setup_trans; eassumption|]|].
      * split; [|split; [exact Hxr|split; [lia|split; [exact Hxb|exact Hxw]]]].
        rewrite Hstep.
        destruct (Nat.ltb_spec k 254); destruct (Nat.ltb_spec (S k) 255); lia.
      * split; [exact Hxr|]. split; [reflexivity|]. split; [exact Hxb|exact Hstep].
  - lia.
  - unfold I. cbn [Nat.ltb Nat.leb]. split; [apply same_setup_refl|]. tauto.
  - exists l, d'. split; [exact E|]. split; [exact Hlen|].
    destruct HI as (_ & Hs' & _ & Hg' & _).
    split; [intros k x Hx; apply (Hl k x Hx)|].
    split; [exact Hg' | exact Hs'].
Qed.

End RainbowFacts.

(** ** The brightness invariant *)

Lemma forget_done {S A : Type} (m : M S A) s u s' t :
  forget m s = Done (u, s', t) -> exists r, m s = Done (r, s', t).
Proof.
  unfold forget. intros H. apply bind_done in H.
  destruct H as (a & s1 & t1 & t2 & E & Hret & ->).
  inversion Hret; subst. rewrite app_nil_r. now exists a.
Qed.

Lemma brightness_in_range_props (d d' : rgbw_device) :
  props d' = props d -> brightness_in_range d -> brightness_in_range d'.
Proof.
  intros Hp H c. unfold brightness_of, max_brightness_of. rewrite Hp. apply H.
Qed.

Lemma gpio_scan_frame (cs : list rgbw_colors) (d : rgbw_device) r d' t :
  gpio_scan cs d = Done (r, d', t) -> props d' = props d /\ acts d' = acts d.
Proof.
  revert t. induction cs as [|c cs IH]; intros t H.
  - inversion H; subst. now split.
  - cbn [gpio_scan] in H. apply bind_done in H.
    destruct H as (x & s1 & t1 & t2 & Hget & H & _).
    inversion Hget; subst x s1 t1; clear Hget.
    destruct (is_gpio (cell (types (rgbw_get_data d)) c)
              && hrtimer_callback_running
                   (pwm_timer (cell (soft_pwm (rgbw_get_data d)) c))).
    + destruct (soft_pwm_step (rgbw_get_data d) (cell (props d) c)
                  (cell (soft_pwm (rgbw_get_data d)) c)) as [v tick].
      unfold bind, put, emit, ret in H. inversion H; subst. split; reflexivity.
    + now apply (IH t2).
Qed.

Lemma rgbw_gpio_hrtimer_callback_frame (d : rgbw_device) r d' t :
  rgbw_gpio_hrtimer_callback d = Done (r, d', t) ->
  props d' = props d /\ acts d' = acts d.
Proof.
  unfold rgbw_gpio_hrtimer_callback. intros H. apply bind_done in H.
  destruct H as (tick & s1 & t1 & t2 & Hscan & H & _).
  apply gpio_scan_frame in Hscan.
  unfold bind, emit, ret in H.
  destruct (0 <? tick); inversion H; subst; exact Hscan.
Qed.

Lemma effect_tick_done (f : rgbw_device -> rgbw_device) (ns : Z) (d : rgbw_device) r d1 t :
  (modify f ;;;
   _ <- rgbw_color_update ;;
   emit (Ev_hrtimer_forward ns) ;;;
   ret HRTIMER_RESTART) d = Done (r, d1, t) ->
  props d1 = props (f d) /\ acts d1 = acts (f d).
Proof.
  intros H. apply bind_done in H.
  destruct H as (x & s1 & t1 & t2 & Hmod & H & _).
  inversion Hmod; subst x s1 t1; clear Hmod.
  apply bind_done in H. destruct H as (x & s1 & t1 & t3 & Hup & H & _).
  apply rgbw_color_update_frame in Hup. destruct Hup as (_ & Hp & Ha & _).
  inversion H; subst. now split.
Qed.

Lemma in_pulse_val_table_range (v : Z) : In v pulse_val_table -> 0 <= v <= 254.
Proof.
  assert (Forall (fun x => 0 <= x <= 254) pulse_val_table) as Hall
    by (repeat constructor; lia).
  rewrite Forall_forall in Hall. apply Hall.
Qed.

Lemma table_read_in (a : c_array) (l : list Z) (i v : Z) :
  table_read a l i = Done v -> In v l.
Proof.
  unfold table_read.
  destruct (Z.leb_spec 0 i) as [Hlo|]; [|discriminate].
  destruct (Z.ltb_spec i (Z.of_nat (length l))) as [Hhi|]; [|discriminate].
  cbn [andb]. intros Hd. inversion Hd; subst. apply nth_In. lia.
Qed.

Lemma write_all_in_range (f : rgbw_colors -> Z) (d : rgbw_device) (b : Z) :
  (forall c, 0 <= f c <= max_brightness_of d c) ->
  brightness_in_range (with_bstate (write_all f d) b).
Proof.
  intros H c.
  destruct (with_bstate_setup (write_all f d) b) as ((Hm & _) & Hb & _).
  destruct (write_all_setup f d) as ((Hm' & _) & _).
  rewrite Hb, Hm, Hm', write_all_brightness. apply H.
Qed.

Lemma rb_switch_cases (d : rgbw_device) :
  (s32 (bstate (acts d)) = 0 /\ rb_switch d = rb_up COLOR_GREEN 1 d)
  \/ (s32 (bstate (acts d)) = 1 /\ rb_switch d = rb_down COLOR_RED 2 d)
  \/ (s32 (bstate (acts d)) = 2 /\ rb_switch d = rb_up COLOR_BLUE 3 d)
  \/ (s32 (bstate (acts d)) = 3 /\ rb_switch d = rb_down COLOR_GREEN 4 d)
  \/ (s32 (bstate (acts d)) = 4 /\ rb_switch d = rb_up COLOR_RED 5 d)
  \/ (s32 (bstate (acts d)) = 5 /\ rb_switch d = rb_down COLOR_BLUE 0 d)
  \/ rb_switch d = rb_default d.
Proof.
  unfold rb_switch.
  destruct (s32 (bstate (acts d))) as [|p|p]; [tauto| |tauto].
  destruct p as [[p|p|]|[p|p|]|]; try tauto; destruct p; tauto.
Qed.

Lemma rb_default_in_range (d : rgbw_device) :
  brightness_in_range d -> brightness_in_range (rb_default d).
Proof.
  intros H c. pose proof (H COLOR_RED). pose proof (H c).
  destruct c; unfold rb_default, brightness_of, max_brightness_of in *;
    cbn in *; lia.
Qed.

Lemma up_in_range (d : rgbw_device) (c : rgbw_colors) (next : Z) :
  brightness_in_range d ->
  (forall c', max_brightness_of d c' < 2 ^ 32) ->
  brightness_of d c < max_brightness_of d c ->
  brightness_in_range (rb_up c next d).
Proof.
  intros H Hmax Hg. pose proof (H c) as Hc. pose proof (Hmax c).
  destruct (rb_up_spec d c next (brightness_of d c) eq_refl) as ((Hm & _) & Hb & Ho & _);
    [lia|].
  intros c'. rewrite Hm. destruct (color_neq_dec c' c) as [->|Hne].
  - rewrite Hb. lia.
  - rewrite Ho by exact Hne. apply H.
Qed.

Lemma down_in_range (d : rgbw_device) (c : rgbw_colors) (next : Z) :
  brightness_in_range d ->
  (forall c', max_brightness_of d c' < 2 ^ 32) ->
  0 < brightness_of d c ->
  brightness_in_range (rb_down c next d).
Proof.
  intros H Hmax Hg. pose proof (H c) as Hc. pose proof (Hmax c).
  destruct (rb_down_spec d c next (brightness_of d c) eq_refl) as ((Hm & _) & Hb & Ho & _);
    [lia|].
  intros c'. rewrite Hm. destruct (color_neq_dec c' c) as [->|Hne].
  - rewrite Hb. lia.
  - rewrite Ho by exact Hne. apply H.
Qed.

Lemma lift_outcome_done {S A : Type} (o : outcome A) (s : S) a s' t :
  lift_outcome o s = Done (a, s', t) -> o = Done a /\ s' = s.
Proof.
  unfold lift_outcome. destruct o; [|discriminate].
  intros H; inversion H; subst. now split.
Qed.

Lemma pulse_target_in_range (d : rgbw_device) (c : rgbw_colors) (v n : Z) :
  brightness_in_range d -> 0 <= v <= max_brightness_of d c ->
  brightness_in_range (set_cntr (set_brightness d c v) c n).
Proof.
  intros H Hv c'.
  destruct (set_brightness_setup d c v) as ((Hm1 & _) & _ & Hb1 & Ho1).
  destruct (set_cntr_setup (set_brightness d c v) c n) as ((Hm2 & _) & _ & Hb2 & _).
  rewrite Hm2, Hm1, Hb2. destruct (color_neq_dec c' c) as [->|Hne].
  - now rewrite Hb1.
  - rewrite Ho1 by exact Hne. apply H.
Qed.

Section InvariantFacts.

Variables RGBW_PULSE_ON RGBW_BLINK_ON RGBW_HB_ON RGBW_RB_ON : Z.
Variables PULSE_VALUE_PER_NS BLINK_STATE_PER_NS : Z.

Lemma pulse_callback_in_range (d : rgbw_device) r d' t :
  brightness_in_range d -> op_guard Op_pulse_timer d ->
  rgbw_pulse_hrtimer_callback RGBW_PULSE_ON PULSE_VALUE_PER_NS d = Done (r, d', t) ->
  brightness_in_range d'.
Proof.
  intros Hinv Hguard H. unfold rgbw_pulse_hrtimer_callback in H.
  apply bind_done in H. destruct H as (x & s1 & t1 & t2 & Hget & H & _).
  inversion Hget; subst x s1 t1; clear Hget.
  destruct (effect_on d RGBW_PULSE_ON); [|inversion H; now subst].
  cbv zeta in H.
  destruct (color_of_index (s32 (pcolor (acts d)))) as [c|] eqn:Hc; [|discriminate].
  apply bind_done in H. destruct H as (v & s1 & t1 & t3 & Hread & H & _).
  apply lift_outcome_done in Hread. destruct Hread as (Hread & ->).
  apply bind_done in H. destruct H as (u & s2 & t4 & t5 & Hput & H & _).
  inversion Hput; subst u s2 t4; clear Hput.
  apply bind_done in H. destruct H as (u & s3 & t6 & t7 & Hup & H & _).
  apply pulse_color_update_frame in Hup. destruct Hup as (Hp & _).
  unfold bind, emit, ret in H. inversion H; subst.
  apply (brightness_in_range_props _ _ Hp).
  apply pulse_target_in_range; [exact Hinv|].
  apply table_read_in, in_pulse_val_table_range in Hread.
  specialize (Hguard c Hc). lia.
Qed.

Lemma saved_in_range (d : rgbw_device) (c : rgbw_colors) (pick : bool) :
  brightness_in_range d ->
  (forall c', 0 <= cell (rgbw_values (acts d)) c' <= max_brightness_of d c') ->
  0 <= (if pick then cell (rgbw_values (acts d)) c else 0) <= max_brightness_of d c.
Proof.
  intros Hinv Hsaved. pose proof (Hinv c). pose proof (Hsaved c).
  destruct pick; lia.
Qed.

(** X17.  Where the brightness invariant is kept.  An operation of the
    core that returns leaves every brightness inside [0, max_brightness], if
    it started from such a device and that operation's own condition holds:
    none for the two update paths and the soft-PWM timer, which never write
    a brightness; the saved colour inside the range for blink and heartbeat;
    a targeted channel with [max_brightness >= 254] for pulse, whose table
    goes up to 254; room for the moving channel for rainbow ([rb_guard]). *)
Theorem brightness_invariant_step (op : core_op) (d d' : rgbw_device)
  (t : list hw_event) :
  brightness_in_range d ->
  op_guard op d ->
  run_op RGBW_PULSE_ON RGBW_BLINK_ON RGBW_HB_ON RGBW_RB_ON
         PULSE_VALUE_PER_NS BLINK_STATE_PER_NS op d = Done (tt, d', t) ->
  brightness_in_range d'.
Proof.
  intros Hinv Hguard H.
  destruct op; cbn [run_op] in H; apply forget_done in H; destruct H as (r & H).
  - apply rgbw_color_update_frame in H. destruct H as (_ & Hp & _).
    now apply (brightness_in_range_props _ _ Hp).
  - apply pulse_color_update_frame in H. destruct H as (Hp & _).
    now apply (brightness_in_range_props _ _ Hp).
  - apply rgbw_gpio_hrtimer_callback_frame in H. destruct H as (Hp & _).
    now apply (brightness_in_range_props _ _ Hp).
  - eapply pulse_callback_in_range; eassumption.
  - unfold rgbw_blink_hrtimer_callback in H.
    apply bind_done in H. destruct H as (x & s1 & t1 & t2 & Hget & H & _).
    inversion Hget; subst x s1 t1; clear Hget.
    destruct (effect_on d RGBW_BLINK_ON); [|inversion H; now subst].
    apply effect_tick_done in H. destruct H as (Hp & _).
    apply (brightness_in_range_props _ _ Hp). unfold blink_switch.
    apply write_all_in_range. intros c. cbn [op_guard] in Hguard.
    pose proof (saved_in_range d c (negb (s32 (bstate (acts d)) =? 0)) Hinv Hguard).
    destruct (s32 (bstate (acts d)) =? 0); assumption.
  - unfold rgbw_hb_hrtimer_callback in H.
    apply bind_done in H. destruct H as (x & s1 & t1 & t2 & Hget & H & _).
    inversion Hget; subst x s1 t1; clear Hget.
    destruct (effect_on d RGBW_HB_ON); [|inversion H; now subst].
    cbv zeta in H. apply effect_tick_done in H. destruct H as (Hp & _).
    apply (brightness_in_range_props _ _ Hp). unfold hb_switch.
    apply write_all_in_range. intros c. cbn [op_guard] in Hguard.
    apply (saved_in_range d c _ Hinv Hguard).
  - unfold rgbw_rb_hrtimer_callback in H.
    apply bind_done in H. destruct H as (x & s1 & t1 & t2 & Hget & H & _).
    inversion Hget; subst x s1 t1; clear Hget.
    destruct (effect_on d RGBW_RB_ON); [|inversion H; now subst].
    apply effect_tick_done in H. destruct H as (Hp & _).
    apply (brightness_in_range_props _ _ Hp).
    destruct Hguard as (Hmax & Hroom). unfold rb_room in Hroom.
    destruct (rb_switch_cases d)
      as [(Hs & ->) | [(Hs & ->) | [(Hs & ->) | [(Hs & ->) | [(Hs & ->) | [(Hs & ->) | ->]]]]]];
      try rewrite Hs in Hroom;
      first [ now apply up_in_range | now apply down_in_range
            | now apply rb_default_in_range ].
Qed.

End InvariantFacts.

(** ** Soft-PWM scheduler *)

Lemma gpio_scan_served (cs : list rgbw_colors) (d : rgbw_device) (c : rgbw_colors) :
  find (fun x => is_gpio (cell (types (data d)) x)
                 && hrtimer_callback_running (pwm_timer (cell (soft_pwm (data d)) x)))
       cs = Some c ->
  gpio_scan cs d
  = Done (snd (soft_pwm_step (data d) (cell (props d) c) (cell (soft_pwm (data d)) c)),
          with_data d
            (set_soft_value (data d) c
               (fst (soft_pwm_step (data d) (cell (props d) c)
                       (cell (soft_pwm (data d)) c)))),
          [Ev_gpio_set_value (gpio (cell (soft_pwm (data d)) c))
             (fst (soft_pwm_step (data d) (cell (props d) c)
                     (cell (soft_pwm (data d)) c)))]).
Proof.
  induction cs as [|x cs IH]; [discriminate|].
  cbn [find gpio_scan]. unfold bind at 1. cbn [get]. unfold rgbw_get_data.
  destruct (is_gpio (cell (types (data d)) x)
            && hrtimer_callback_running (pwm_timer (cell (soft_pwm (data d)) x))).
  - intros H. inversion H; subst x.
    destruct (soft_pwm_step (data d) (cell (props d) c) (cell (soft_pwm (data d)) c))
      as [v tick]. reflexivity.
  - intros H. rewrite (IH H). reflexivity.
Qed.

(** C2, as the code has it.  When the soft-PWM callback fires for channel
    [c] (the first GPIO channel whose timer is running its callback):
    with [brightness >= max_brightness] the pin is driven to 1 and the timer
    is not restarted; with [brightness = 0] the pin is driven to 0 and the
    timer is not restarted; otherwise the level flips to [1 - value],
    [pulse_ns] is [brightness * lth_brightness] in 32 bits, the pin is
    driven to the new level, and the delay is [pulse_ns] for a new level
    other than 0 and [period - pulse_ns] (in 64 bits) for the level 0; the
    timer is forwarded by that delay and restarted only when the delay, read
    as a signed 64-bit count, is positive, and is not restarted otherwise. *)
Theorem soft_pwm_firing (d : rgbw_device) (c : rgbw_colors) :
  served_channel d = Some c ->
  (max_brightness_of d c <= brightness_of d c ->
   rgbw_gpio_hrtimer_callback d
   = Done (HRTIMER_NORESTART, with_data d (set_soft_value (data d) c 1),
           [Ev_gpio_set_value (gpio (cell (soft_pwm (data d)) c)) 1]))
  /\ (brightness_of d c < max_brightness_of d c -> brightness_of d c = 0 ->
      rgbw_gpio_hrtimer_callback d
      = Done (HRTIMER_NORESTART, with_data d (set_soft_value (data d) c 0),
              [Ev_gpio_set_value (gpio (cell (soft_pwm (data d)) c)) 0]))
  /\ (brightness_of d c < max_brightness_of d c -> brightness_of d c <> 0 ->
      forall v pulse_ns delay,
        v = 1 - value (cell (soft_pwm (data d)) c) ->
        pulse_ns = u32 (brightness_of d c * lth_brightness (data d)) ->
        delay = s64 (if v =? 0 then u64 (period (data d) - pulse_ns) else pulse_ns) ->
        rgbw_gpio_hrtimer_callback d
        = if 0 <? delay
          then Done (HRTIMER_RESTART, with_data d (set_soft_value (data d) c v),
                     [Ev_gpio_set_value (gpio (cell (soft_pwm (data d)) c)) v;
                      Ev_hrtimer_forward delay])
          else Done (HRTIMER_NORESTART, with_data d (set_soft_value (data d) c v),
                     [Ev_gpio_set_value (gpio (cell (soft_pwm (data d)) c)) v])).
Proof.
  intros Hserved. unfold served_channel in Hserved.
  pose proof (gpio_scan_served all_colors d c Hserved) as Hscan.
  unfold rgbw_gpio_hrtimer_callback, bind. rewrite Hscan. clear Hscan.
  unfold soft_pwm_step, brightness_of, max_brightness_of.
  split; [|split].
  - intros Hb. destruct (Z.leb_spec (max_brightness (cell (props d) c))
                           (brightness (cell (props d) c))); [reflexivity|lia].
  - intros Hb H0. destruct (Z.leb_spec (max_brightness (cell (props d) c))
                              (brightness (cell (props d) c))); [lia|].
    rewrite H0. reflexivity.
  - intros Hb H0 v pulse_ns delay -> -> ->.
    destruct (Z.leb_spec (max_brightness (cell (props d) c))
                (brightness (cell (props d) c))); [lia|].
    destruct (Z.eqb_spec (brightness (cell (props d) c)) 0); [contradiction|].
    cbn [fst snd].
    destruct (0 <? s64 _); reflexivity.
Qed.

(** ** Duty-cycle mapper *)

Lemma color_index_eqb (a b : rgbw_colors) :
  (color_index a =? color_index b) = true <-> a = b.
Proof. destruct a, b; cbn; split; intros H; try reflexivity; discriminate. Qed.

Lemma s32_range (x : Z) : - 2 ^ 31 <= s32 x < 2 ^ 31.
Proof.
  unfold s32. pose proof (Z.mod_pos_bound (x + 2 ^ 31) (2 ^ 32)). lia.
Qed.

Lemma duty_cycle_of_exact (pb : pwm_rgbw_data) (b max : Z) :
  0 <= b -> fits_32_bits pb b max ->
  duty_cycle_of pb b max = Done (spec_duty_ns pb b max).
Proof.
  intros Hb (Hlth & Hper & Hmax & Hidx & Hraw & Hprod & Hduty).
  assert (0 <= spec_raw pb b * (period pb - lth_brightness pb)) as Hp0
    by (apply Z.mul_nonneg_nonneg; lia).
  assert (0 <= spec_raw pb b * (period pb - lth_brightness pb) / max) as Hq0
    by (apply Z.div_pos; lia).
  assert (duty_cycle_of pb b max
          = Done (s32 (u32 (lth_brightness pb
                            + u32 (u32 (spec_raw pb b)
                                   * u32 (period pb - lth_brightness pb))
                              / u32 max)))) as ->.
  { unfold duty_cycle_of, table_read, spec_raw in *.
    rewrite (u32_small max) by lia.
    destruct (Z.eqb_spec max 0); [lia|].
    destruct (levels pb) as [l|]; [|reflexivity].
    specialize (Hidx l eq_refl).
    destruct (Z.leb_spec 0 b); [|lia].
    destruct (Z.ltb_spec b (Z.of_nat (length l))); [|lia].
    cbn [andb]. now rewrite (s32_small (nth (Z.to_nat b) l 0)) by lia. }
  unfold spec_duty_ns in *.
  rewrite (u32_small (spec_raw pb b)) by lia.
  rewrite (u32_small (period pb - lth_brightness pb)) by lia.
  rewrite (u32_small max) by lia.
  rewrite (u32_small (spec_raw pb b * (period pb - lth_brightness pb))) by lia.
  rewrite u32_small by lia. now rewrite s32_small by lia.
Qed.

Lemma channel_update_calls (c c' : rgbw_colors) (pin b max : Z) pb u pb' t :
  channel_update c' b max pb = Done (u, pb', t) ->
  filter (drives_output c pin) t
  = if color_index c' =? color_index c then pwm_calls pb c' b max else [].
Proof.
  unfold channel_update, pwm_calls.
  destruct (hrtimer_start_soft_spec c' 1000 pb) as (pb1 & E & _).
  unfold bind, get, emit, ret, lift_outcome.
  destruct (is_pwm (cell (types pb) c')).
  - destruct (b =? 0).
    + destruct (is_gpio _ && negb _); [rewrite E|]; intros H; inversion H; subst;
        cbn; destruct (color_index c' =? color_index c); reflexivity.
    + destruct (duty_cycle_of pb b max) as [duty|f]; [|discriminate].
      destruct (is_gpio _ && negb _); [rewrite E|]; intros H; inversion H; subst;
        cbn; destruct (color_index c' =? color_index c); reflexivity.
  - destruct (is_gpio _ && negb _); [rewrite E|]; intros H; inversion H; subst;
      cbn; destruct (color_index c' =? color_index c); reflexivity.
Qed.

Lemma call_notify_after_quiet (c : rgbw_colors) (pin b : Z) pb0 pb u pb' t :
  call_notify_after pb0 b pb = Done (u, pb', t) ->
  filter (drives_output c pin) t = [].
Proof.
  unfold call_notify_after, emit, ret.
  destruct (notify_after pb0); intros H; inversion H; reflexivity.
Qed.

Lemma notify_loop_quiet (c : rgbw_colors) (pin : Z) pb0 (f : rgbw_colors -> Z)
  (cs : list rgbw_colors) pb u pb' t :
  for_each cs (fun x => call_notify_after pb0 (f x)) pb = Done (u, pb', t) ->
  filter (drives_output c pin) t = [].
Proof.
  revert pb t. induction cs as [|x cs IH]; intros pb t H.
  - inversion H. reflexivity.
  - cbn [for_each] in H. apply bind_done in H.
    destruct H as (a & s1 & t1 & t2 & H1 & H2 & ->).
    rewrite filter_app, (call_notify_after_quiet c pin _ _ _ _ _ _ H1).
    now apply (IH s1).
Qed.

Lemma pwm_calls_config (a b : pwm_rgbw_data) (c : rgbw_colors) (x max : Z) :
  same_config a b -> pwm_calls b c x max = pwm_calls a c x max.
Proof.
  intros Hc. unfold pwm_calls. rewrite (duty_cycle_of_config a b) by exact Hc.
  destruct Hc as (Ht & Hp & _). now rewrite Ht, Hp.
Qed.

Lemma update_loop_calls (c : rgbw_colors) (pin : Z) (fb fm : rgbw_colors -> Z)
  (cs : list rgbw_colors) :
  NoDup cs ->
  forall pb u pb' t,
    for_each cs (fun x => channel_update x (fb x) (fm x)) pb = Done (u, pb', t) ->
    filter (drives_output c pin) t
    = if existsb (fun x => color_index x =? color_index c) cs
      then pwm_calls pb c (fb c) (fm c) else [].
Proof.
  induction 1 as [|x cs Hnotin Hnd IH]; intros pb u pb' t H.
  - inversion H. reflexivity.
  - cbn [for_each existsb] in *. apply bind_done in H.
    destruct H as (a & s1 & t1 & t2 & H1 & H2 & ->).
    rewrite filter_app, (channel_update_calls c x pin _ _ _ _ _ _ H1).
    rewrite (IH _ _ _ _ H2).
    rewrite (pwm_calls_config pb s1) by (eapply channel_update_frame; exact H1).
    destruct (color_index x =? color_index c) eqn:Ex.
    + apply color_index_eqb in Ex. subst x.
      assert (existsb (fun x => color_index x =? color_index c) cs = false) as ->.
      { apply not_true_is_false. intros Hex. apply existsb_exists in Hex.
        destruct Hex as (y & Hy & Hyc). apply color_index_eqb in Hyc. now subst y. }
      cbn [orb]. apply app_nil_r.
    + reflexivity.
Qed.

Lemma rgbw_color_update_calls (d : rgbw_device) (c : rgbw_colors) (pin : Z) r d' t :
  rgbw_color_update d = Done (r, d', t) ->
  filter (drives_output c pin) t
  = pwm_calls (data d) c (apply_notify (data d) (s32 (brightness_of d c)))
              (s32 (max_brightness_of d c)).
Proof.
  unfold rgbw_color_update. intros H.
  apply bind_done in H. destruct H as (x & s1 & t1 & t2 & Hget & H & ->).
  inversion Hget; subst x s1 t1; clear Hget.
  apply bind_done in H. destruct H as (x & s1 & t1 & t3 & H1 & H2 & ->).
  inversion H2; subst r d' t3; clear H2.
  apply on_data_done in H1. destruct H1 as (pb' & H1 & _).
  apply bind_done in H1. destruct H1 as (y & pb1 & u1 & u2 & Hloop & Hn & ->).
  cbn [app]. rewrite app_nil_r, filter_app.
  rewrite (notify_loop_quiet c pin _ _ _ _ _ _ _ Hn), app_nil_r.
  assert (NoDup all_colors) as Hnd
    by (repeat constructor; cbn; intuition discriminate).
  rewrite (update_loop_calls c pin _ _ all_colors Hnd _ _ _ _ Hloop).
  rewrite !cell_map_cells. now destruct c.
Qed.

Lemma pulse_color_update_calls (d : rgbw_device) (c : rgbw_colors) (pin : Z) r d' t :
  pulse_color_update (color_index c) d = Done (r, d', t) ->
  filter (drives_output c pin) t
  = pwm_calls (data d) c (apply_notify (data d) (s32 (brightness_of d c)))
              (s32 (max_brightness_of d c)).
Proof.
  unfold pulse_color_update. intros H.
  apply bind_done in H. destruct H as (x & s1 & t1 & t2 & Hget & H & ->).
  inversion Hget; subst x s1 t1; clear Hget.
  assert (color_of_index (color_index c) = Some c) as Hc by now destruct c.
  rewrite Hc in H.
  apply bind_done in H. destruct H as (x & s1 & t1 & t3 & H1 & H2 & ->).
  inversion H2; subst r d' t3; clear H2.
  apply on_data_done in H1. destruct H1 as (pb' & H1 & _).
  apply bind_done in H1. destruct H1 as (y & pb1 & u1 & u2 & Hup & Hn & ->).
  cbn [app]. rewrite app_nil_r, filter_app.
  rewrite (call_notify_after_quiet c pin _ _ _ _ _ _ Hn), app_nil_r.
  rewrite (channel_update_calls c c pin _ _ _ _ _ _ Hup).
  now rewrite Z.eqb_refl.
Qed.

Lemma channel_update_timer (c c' : rgbw_colors) (b max : Z) pb u pb' t :
  channel_update c' b max pb = Done (u, pb', t) ->
  filter (starts_timer c) t
  = (if color_index c' =? color_index c then timer_calls pb c' else [])
  /\ cell (soft_pwm pb') c
     = (if color_index c' =? color_index c then timer_cell pb c'
        else cell (soft_pwm pb) c).
Proof.
  unfold channel_update, timer_calls, timer_cell, needs_start, started_cell.
  unfold bind, get, emit, ret, lift_outcome, hrtimer_start_soft, put.
  destruct (color_index c' =? color_index c) eqn:Ecc.
  - apply color_index_eqb in Ecc. subst c'.
    destruct (is_pwm (cell (types pb) c)).
    + destruct (b =? 0).
      * destruct (is_gpio _ && negb _); intros H; inversion H; subst;
          cbn [filter starts_timer app soft_pwm];
          rewrite ?Z.eqb_refl, ?cell_set_cell_same; split; reflexivity.
      * destruct (duty_cycle_of pb b max); [|discriminate].
        destruct (is_gpio _ && negb _); intros H; inversion H; subst;
          cbn [filter starts_timer app soft_pwm];
          rewrite ?Z.eqb_refl, ?cell_set_cell_same; split; reflexivity.
    + destruct (is_gpio _ && negb _); intros H; inversion H; subst;
        cbn [filter starts_timer app soft_pwm];
        rewrite ?Z.eqb_refl, ?cell_set_cell_same; split; reflexivity.
  - assert (c <> c') as Hne
      by (intros ->; rewrite Z.eqb_refl in Ecc; discriminate).
    destruct (is_pwm (cell (types pb) c')).
    + destruct (b =? 0).
      * destruct (is_gpio _ && negb _); intros H; inversion H; subst;
          cbn [filter starts_timer app soft_pwm];
          rewrite ?Ecc, ?(cell_set_cell_other _ _ _ _ Hne); split; reflexivity.
      * destruct (duty_cycle_of pb b max); [|discriminate].
        destruct (is_gpio _ && negb _); intros H; inversion H; subst;
          cbn [filter starts_timer app soft_pwm];
          rewrite ?Ecc, ?(cell_set_cell_other _ _ _ _ Hne); split; reflexivity.
    + destruct (is_gpio _ && negb _); intros H; inversion H; subst;
        cbn [filter starts_timer app soft_pwm];
        rewrite ?Ecc, ?(cell_set_cell_other _ _ _ _ Hne); split; reflexivity.
Qed.

Lemma call_notify_after_no_start (c : rgbw_colors) (b : Z) pb0 pb u pb' t :
  call_notify_after pb0 b pb = Done (u, pb', t) ->
  pb' = pb /\ filter (starts_timer c) t = [].
Proof.
  unfold call_notify_after, emit, ret.
  destruct (notify_after pb0); intros H; inversion H; split; reflexivity.
Qed.

Lemma notify_loop_no_start (c : rgbw_colors) pb0 (f : rgbw_colors -> Z)
  (cs : list rgbw_colors) pb u pb' t :
  for_each cs (fun x => call_notify_after pb0 (f x)) pb = Done (u, pb', t) ->
  pb' = pb /\ filter (starts_timer c) t = [].
Proof.
  revert pb t. induction cs as [|x cs IH]; intros pb t H.
  - inversion H. split; reflexivity.
  - cbn [for_each] in H. apply bind_done in H.
    destruct H as (a & s1 & t1 & t2 & H1 & H2 & ->).
    destruct (call_notify_after_no_start c _ _ _ _ _ _ H1) as (-> & F1).
    destruct (IH _ _ H2) as (-> & F2).
    split; [reflexivity|]. now rewrite filter_app, F1, F2.
Qed.

Lemma timer_calls_cell (a b : pwm_rgbw_data) (c : rgbw_colors) :
  types a = types b -> cell (soft_pwm a) c = cell (soft_pwm b) c ->
  timer_calls a c = timer_calls b c /\ timer_cell a c = timer_cell b c.
Proof.
  intros Ht Hc. unfold timer_calls, timer_cell, needs_start.
  now rewrite Ht, Hc.
Qed.

Lemma update_loop_timer (c : rgbw_colors) (fb fm : rgbw_colors -> Z)
  (cs : list rgbw_colors) :
  NoDup cs ->
  forall pb u pb' t,
    for_each cs (fun x => channel_update x (fb x) (fm x)) pb = Done (u, pb', t) ->
    filter (starts_timer c) t
    = (if existsb (fun x => color_index x =? color_index c) cs
       then timer_calls pb c else [])
    /\ cell (soft_pwm pb') c
       = (if existsb (fun x => color_index x =? color_index c) cs
          then timer_cell pb c else cell (soft_pwm pb) c).
Proof.
  induction 1 as [|x cs Hnotin Hnd IH]; intros pb u pb' t H.
  - inversion H. split; reflexivity.
  - cbn [for_each existsb] in *. apply bind_done in H.
    destruct H as (a & s1 & t1 & t2 & H1 & H2 & ->).
    destruct (channel_update_timer c x _ _ _ _ _ _ H1) as (F1 & C1).
    destruct (IH _ _ _ _ H2) as (F2 & C2).
    pose proof (channel_update_frame _ _ _ _ _ _ _ H1) as (Ht & _).
    rewrite filter_app, F1, F2, C2.
    destruct (color_index x =? color_index c) eqn:Ex.
    + apply color_index_eqb in Ex. subst x.
      assert (existsb (fun x => color_index x =? color_index c) cs = false) as ->.
      { apply not_true_is_false. intros Hex. apply existsb_exists in Hex.
        destruct Hex as (y & Hy & Hyc). apply color_index_eqb in Hyc. now subst y. }
      cbn [orb]. rewrite app_nil_r. split; [reflexivity | exact C1].
    + cbn [orb app].
      destruct (timer_calls_cell s1 pb c (eq_sym Ht) C1) as (-> & ->).
      rewrite C1. split; reflexivity.
Qed.

Lemma rgbw_color_update_timer (d : rgbw_device) (c : rgbw_colors) r d' t :
  rgbw_color_update d = Done (r, d', t) ->
  filter (starts_timer c) t = timer_calls (data d) c
  /\ cell (soft_pwm (data d')) c = timer_cell (data d) c.
Proof.
  unfold rgbw_color_update. intros H.
  apply bind_done in H. destruct H as (x & s1 & t1 & t2 & Hget & H & ->).
  inversion Hget; subst x s1 t1; clear Hget.
  apply bind_done in H. destruct H as (x & s1 & t1 & t3 & H1 & H2 & ->).
  inversion H2; subst r d' t3; clear H2.
  apply on_data_done in H1. destruct H1 as (pb' & H1 & ->).
  apply bind_done in H1. destruct H1 as (y & pb1 & u1 & u2 & Hloop & Hn & ->).
  destruct (notify_loop_no_start c _ _ _ _ _ _ _ Hn) as (-> & Fn).
  cbn [app data with_data]. rewrite app_nil_r, filter_app, Fn, app_nil_r.
  assert (NoDup all_colors) as Hnd
    by (repeat constructor; cbn; intuition discriminate).
  destruct (update_loop_timer c _ _ all_colors Hnd _ _ _ _ Hloop) as (F & C).
  unfold rgbw_get_data in *. rewrite F, C. now destruct c.
Qed.

Lemma pulse_color_update_timer (d : rgbw_device) (c : rgbw_colors) r d' t :
  pulse_color_update (color_index c) d = Done (r, d', t) ->
  r = 0
  /\ filter (starts_timer c) t = timer_calls (data d) c
  /\ cell (soft_pwm (data d')) c = timer_cell (data d) c.
Proof.
  unfold pulse_color_update. intros H.
  apply bind_done in H. destruct H as (x & s1 & t1 & t2 & Hget & H & ->).
  inversion Hget; subst x s1 t1; clear Hget.
  assert (color_of_index (color_index c) = Some c) as Hc by now destruct c.
  rewrite Hc in H.
  apply bind_done in H. destruct H as (x & s1 & t1 & t3 & H1 & H2 & ->).
  inversion H2; subst r d' t3; clear H2.
  apply on_data_done in H1. destruct H1 as (pb' & H1 & ->).
  apply bind_done in H1. destruct H1 as (y & pb1 & u1 & u2 & Hup & Hn & ->).
  destruct (call_notify_after_no_start c _ _ _ _ _ _ Hn) as (-> & Fn).
  cbn [app data with_data]. rewrite app_nil_r, filter_app, Fn, app_nil_r.
  destruct (channel_update_timer c c _ _ _ _ _ _ Hup) as (F & C).
  rewrite Z.eqb_refl in F, C. unfold rgbw_get_data in *. now repeat split.
Qed.

(** C1, as the code has it.  Take either update path that returns (the
    all-channel [rgbw_color_update], or [pulse_color_update] on channel
    [c]), and keep of its events those that drive the output of [c]: the
    calls to the PWM core for [c] and the writes to its pin.  With [b] the
    brightness after the [notify] hook: a hardware-PWM channel with [b = 0]
    gets exactly a configuration with duty 0 followed by a disable; a
    hardware-PWM channel with [b > 0] whose values fit the C types gets
    exactly a configuration with
    [duty_ns = lth_brightness + raw * (period - lth_brightness) / max_brightness]
    followed by an enable, [raw] being [levels[b]] with a table and [b]
    without; a channel that is not hardware-PWM (GPIO or unassigned) gets
    nothing at all, whatever its brightness: its output is not touched.
    The soft-PWM timer of [c] is started, once and after 1000 ns, exactly
    when [c] is a GPIO channel whose timer is not active, and its cell then
    holds a queued timer with the same pin and level; otherwise no timer of
    [c] is started and its cell is what it was.  The update returns 0 and
    writes no brightness, no effect state and nothing of the channel types,
    period, [lth_brightness], levels and hooks. *)
Theorem duty_cycle_mapping (d : rgbw_device) (c : rgbw_colors) r d' t :
  rgbw_color_update d = Done (r, d', t)
  \/ pulse_color_update (color_index c) d = Done (r, d', t) ->
  forall pb b max pin,
    pb = data d ->
    b = apply_notify pb (s32 (brightness_of d c)) ->
    max = s32 (max_brightness_of d c) ->
    pin = gpio (cell (soft_pwm pb) c) ->
    (cell (types pb) c = RGBW_PWM -> b = 0 ->
     filter (drives_output c pin) t
     = [Ev_pwm_config c 0 (s32 (period pb)); Ev_pwm_disable c])
    /\ (cell (types pb) c = RGBW_PWM -> 0 < b -> fits_32_bits pb b max ->
        filter (drives_output c pin) t
        = [Ev_pwm_config c (spec_duty_ns pb b max) (period pb); Ev_pwm_enable c])
    /\ (cell (types pb) c <> RGBW_PWM ->
        filter (drives_output c pin) t = [])
    /\ filter (starts_timer c) t
       = (if needs_start pb c then [Ev_hrtimer_start c 1000] else [])
    /\ cell (soft_pwm (data d')) c
       = (if needs_start pb c then started_cell (cell (soft_pwm pb) c)
          else cell (soft_pwm pb) c)
    /\ r = 0
    /\ props d' = props d /\ acts d' = acts d /\ same_config pb (data d').
Proof.
  intros H pb b max pin -> -> -> ->.
  assert (filter (drives_output c (gpio (cell (soft_pwm (data d)) c))) t
          = pwm_calls (data d) c (apply_notify (data d) (s32 (brightness_of d c)))
                      (s32 (max_brightness_of d c))) as ->.
  { destruct H as [H|H];
      [eapply rgbw_color_update_calls | eapply pulse_color_update_calls]; exact H. }
  unfold pwm_calls. split; [|split; [|split]].
  - intros -> ->. reflexivity.
  - intros -> Hb Hfit. cbn [is_pwm].
    destruct (Z.eqb_spec (apply_notify (data d) (s32 (brightness_of d c))) 0); [lia|].
    rewrite (duty_cycle_of_exact _ _ _ (Z.lt_le_incl _ _ Hb) Hfit).
    destruct Hfit as (Hlth & Hper & _).
    now rewrite (s32_small (period (data d))) by lia.
  - intros Hne. destruct (cell (types (data d)) c); try reflexivity. now contradiction Hne.
  - fold (timer_calls (data d) c). fold (timer_cell (data d) c).
    destruct H as [H|H].
    + destruct (rgbw_color_update_timer d c r d' t H) as (F & C).
      destruct (rgbw_color_update_frame d r d' t H) as (Hr & Hp & Ha & Hc).
      split; [exact F|]. split; [exact C|]. split; [exact Hr|].
      split; [exact Hp|]. split; [exact Ha | exact Hc].
    + destruct (pulse_color_update_timer d c r d' t H) as (Hr & F & C).
      destruct (pulse_color_update_frame d _ r d' t H) as (Hp & Ha & Hc).
      split; [exact F|]. split; [exact C|]. split; [exact Hr|].
      split; [exact Hp|]. split; [exact Ha | exact Hc].
Qed.

Lemma channel_update_pwm (pb : pwm_rgbw_data) (c : rgbw_colors) (b max : Z) :
  is_pwm (cell (types pb) c) = true ->
  channel_update c b max pb
  = if b =? 0
    then Done (tt, pb, [Ev_pwm_config c 0 (s32 (period pb)); Ev_pwm_disable c])
    else match duty_cycle_of pb b max with
         | Done duty_cycle =>
             Done (tt, pb, [Ev_pwm_config c duty_cycle (s32 (period pb));
                            Ev_pwm_enable c])
         | Fault f => Fault f
         end.
Proof.
  intros Hpwm. unfold channel_update, bind, get, emit, ret, lift_outcome.
  rewrite Hpwm.
  assert (is_gpio (cell (types pb) c) = false) as ->
    by (destruct (cell (types pb) c); (reflexivity || discriminate)).
  cbn [andb]. destruct (b =? 0); [reflexivity|].
  destruct (duty_cycle_of pb b max); reflexivity.
Qed.

(** C8, as the code has it.  Without a levels table, with
    [lth_brightness = period / max_brightness], a period that fits an [int],
    [max_brightness <= period - lth_brightness] and
    [max_brightness * (period - lth_brightness) < 2^32], a hardware-PWM
    channel is configured with duty 0 and disabled at brightness 0, with a
    duty cycle strictly between [lth_brightness] and [period] at every
    brightness strictly between 0 and [max_brightness], and with a duty
    cycle equal to [period] at [max_brightness]. *)
Theorem duty_cycle_bounds (pb : pwm_rgbw_data) (c : rgbw_colors) (max b : Z) :
  is_pwm (cell (types pb) c) = true ->
  levels pb = None ->
  lth_brightness pb = period pb / max ->
  0 < max ->
  0 <= period pb < 2 ^ 31 ->
  max <= period pb - lth_brightness pb ->
  max * (period pb - lth_brightness pb) < 2 ^ 32 ->
  channel_update c 0 max pb
  = Done (tt, pb, [Ev_pwm_config c 0 (period pb); Ev_pwm_disable c])
  /\ (0 < b < max ->
      exists duty_ns,
        channel_update c b max pb
        = Done (tt, pb, [Ev_pwm_config c duty_ns (period pb); Ev_pwm_enable c])
        /\ lth_brightness pb < duty_ns < period pb)
  /\ channel_update c max max pb
     = Done (tt, pb, [Ev_pwm_config c (period pb) (period pb); Ev_pwm_enable c]).
Proof.
  intros Hpwm Hlev Hlth Hmax Hper Hroom Hprod.
  set (D := period pb - lth_brightness pb) in *.
  assert (0 <= lth_brightness pb <= period pb) as Hl.
  { rewrite Hlth. split; [apply Z.div_pos; lia|].
    apply Z.div_le_upper_bound; [lia|]. nia. }
  assert (max < 2 ^ 16) as Hm16 by nia.
  assert (forall x, 0 < x <= max -> fits_32_bits pb x max) as Hfit.
  { intros x Hx. unfold fits_32_bits, spec_duty_ns, spec_raw. rewrite Hlev. fold D.
    split; [exact Hl|]. split; [lia|]. split; [lia|].
    split; [discriminate|]. split; [lia|]. split; [nia|].
    assert (x * D / max <= D); [|lia].
    apply Z.div_le_upper_bound; [lia|]. nia. }
  assert (forall x, 0 < x <= max ->
            channel_update c x max pb
            = Done (tt, pb, [Ev_pwm_config c (lth_brightness pb + x * D / max)
                               (period pb); Ev_pwm_enable c])) as Hupd.
  { intros x Hx. rewrite (channel_update_pwm pb c x max Hpwm).
    destruct (Z.eqb_spec x 0); [lia|].
    rewrite (duty_cycle_of_exact pb x max) by (lia || apply Hfit; lia).
    unfold spec_duty_ns, spec_raw. rewrite Hlev. fold D.
    now rewrite (s32_small (period pb)) by lia. }
  split; [|split].
  - rewrite (channel_update_pwm pb c 0 max Hpwm). cbn [Z.eqb].
    now rewrite (s32_small (period pb)) by lia.
  - intros Hb. exists (lth_brightness pb + b * D / max).
    split; [apply Hupd; lia|].
    assert (0 < b * D / max) by (apply Z.div_str_pos; nia).
    assert (b * D / max < D) by (apply Z.div_lt_upper_bound; nia).
    lia.
  - rewrite (Hupd max) by lia. rewrite Z.mul_comm, Z.div_mul by lia.
    unfold D. repeat f_equal. lia.
Qed.

(** ** Initialisation *)

Lemma probe_setup_zero_max (INVALID_COLOR : Z) (zeroed_type : rgbw_type)
  (e : probe_env) (pdata : platform_rgbw_data) (n ret : Z) (a : acquired) :
  pd_levels pdata = None ->
  u32 (pd_max_brightness pdata) = 0 ->
  probe_acquire zeroed_type e n ret = Acq_ok a ->
  probe_setup INVALID_COLOR zeroed_type e pdata n ret = Probe_fault DivByZero.
Proof.
  intros Hlev Hmax Hacq. unfold probe_setup. now rewrite Hlev, Hacq, Hmax.
Qed.

(** C7, at the failing input.  For a node whose [brightness-levels]
    property is empty, [rgbw_parse_dt] succeeds with
    [max_brightness = 0] and no levels table, the sanity check passes, every
    PWM and GPIO is granted, and the probe then computes
    [period / max] with [max = 0]: it faults instead of returning an error
    code.  The same happens for [brightness-levels = <0>], where
    [max_brightness] is 0 and [max = levels[0] = 0]. *)
Theorem probe_divides_by_zero_max (INVALID_COLOR : Z) (zeroed_type : rgbw_type) :
  rgbw_parse_dt empty_levels_env
  = inr (mk_platform_data 0 0 0 None None None false false)
  /\ rgbw_dt_validation empty_levels_env = 4
  /\ rgbw_dt_probe INVALID_COLOR zeroed_type empty_levels_env
     = Probe_fault DivByZero
  /\ rgbw_parse_dt single_zero_level_env
     = inr (mk_platform_data 0 0 0 (Some [0]) None None false false)
  /\ rgbw_dt_probe INVALID_COLOR zeroed_type single_zero_level_env
     = Probe_fault DivByZero.
Proof.
  split; [reflexivity|]. split; [reflexivity|]. split; [|split; [reflexivity|]].
  - unfold rgbw_dt_probe.
    change (platform_data empty_levels_env) with (@None platform_rgbw_data).
    change (rgbw_parse_dt empty_levels_env)
      with (@inr Z _ (mk_platform_data 0 0 0 None None None false false)).
    change (rgbw_dt_validation empty_levels_env) with 4.
    cbn [pd_init Z.ltb Z.compare pb_alloc_ok empty_levels_env].
    now destruct zeroed_type.
  - unfold rgbw_dt_probe.
    change (platform_data single_zero_level_env) with (@None platform_rgbw_data).
    change (rgbw_parse_dt single_zero_level_env)
      with (@inr Z _ (mk_platform_data 0 0 0 (Some [0]) None None false false)).
    change (rgbw_dt_validation single_zero_level_env) with 4.
    cbn [pd_init Z.ltb Z.compare pb_alloc_ok single_zero_level_env].
    now destruct zeroed_type.
Qed.

(** ** Concrete runs *)

Lemma sample_device_ready (period max : Z) (b0 : per_color Z) (n st step pc : Z)
  (saved : per_color Z) (c : rgbw_colors) (b : Z) :
  u32 (s32 max) <> 0 ->
  mapper_ready (sample_device period max b0 n st step pc saved) c b = true.
Proof.
  intros Hmax. unfold mapper_ready, chan_ok, mapper_ok.
  assert (max_brightness_of (sample_device period max b0 n st step pc saved) c = max)
    as -> by now destruct c.
  apply Z.eqb_neq in Hmax. rewrite Hmax.
  cbn [levels data sample_device sample_data negb andb]. apply orb_true_r.
Qed.

(** Where C1 fails as stated.  The all-channel update of a dark device
    with White on a GPIO: the brightness of White is 0, yet nothing drives
    its output; the update only starts White's timer.  A hardware-PWM
    channel with a period of 20 ms and 255 levels at full brightness: the
    product [255 * 19921569] does not fit 32 bits, and the duty cycle
    configured is 3156990 ns where the formula gives 20000000 ns.  A
    hardware-PWM channel at brightness 107 with a levels table of 101
    entries: the update reads outside the table and produces nothing. *)
Lemma mapping_fails_as_stated :
  (brightness_of
     (sample_device 7650000 255 (mk_per_color 0 0 0 0) 0 0 0 0 (mk_per_color 0 0 0 0))
     COLOR_WHITE = 0
   /\ exists d' t,
       rgbw_color_update
         (sample_device 7650000 255 (mk_per_color 0 0 0 0) 0 0 0 0 (mk_per_color 0 0 0 0))
       = Done (0, d', t)
       /\ In (Ev_hrtimer_start COLOR_WHITE 1000) t
       /\ ~ In (Ev_pwm_disable COLOR_WHITE) t
       /\ forall v, ~ In (Ev_gpio_set_value 42 v) t)
  /\ (exists d' t,
        rgbw_color_update
          (sample_device 20000000 255 (mk_per_color 255 0 0 0) 0 0 0 0
                         (mk_per_color 0 0 0 0))
        = Done (0, d', t)
        /\ filter (drives_output COLOR_RED 0) t
           = [Ev_pwm_config COLOR_RED 3156990 20000000; Ev_pwm_enable COLOR_RED]
        /\ spec_duty_ns (sample_data 20000000 255 None 0 false) 255 255 = 20000000)
  /\ rgbw_color_update
       (mk_dev (sample_props 100 (mk_per_color 107 0 0 0) 0)
               (mk_acts 0 0 0 (mk_per_color 0 0 0 0))
               (sample_data 7650000 100 (Some (map Z.of_nat (seq 0 101))) 0 false))
     = Fault (OutOfBounds Arr_levels).
Proof.
  split; [|split].
  - split; [reflexivity|]. eexists. eexists.
    split; [vm_compute; reflexivity|].
    split; [cbn; tauto|].
    split; [cbn; intuition discriminate|].
    intros v. cbn. intuition discriminate.
  - eexists. eexists. split; [vm_compute; reflexivity|].
    split; vm_compute; reflexivity.
  - vm_compute. reflexivity.
Qed.

(** A soft-PWM channel at brightness 1 of 255 with a period of 100 ns, so
    [lth_brightness = 0]: the level flips to 1, the pulse width is 0, and the
    timer is not restarted.  This is the input at which C2 fails as
    stated. *)
Lemma soft_pwm_stops_on_zero_delay :
  served_channel (soft_firing_device 100 255 1 0) = Some COLOR_WHITE
  /\ 0 < brightness_of (soft_firing_device 100 255 1 0) COLOR_WHITE
       < max_brightness_of (soft_firing_device 100 255 1 0) COLOR_WHITE
  /\ lth_brightness (data (soft_firing_device 100 255 1 0)) = 0
  /\ rgbw_gpio_hrtimer_callback (soft_firing_device 100 255 1 0)
     = Done (HRTIMER_NORESTART,
             with_data (soft_firing_device 100 255 1 0)
               (set_soft_value (data (soft_firing_device 100 255 1 0)) COLOR_WHITE 1),
             [Ev_gpio_set_value 42 1]).
Proof.
  split; [reflexivity|]. split; [cbn; lia|]. split; reflexivity.
Qed.

(** C3, at the failing input.  The pulse effect on a device with 101
    brightness levels, so [max_brightness = 100], started on a dark device
    that satisfies the invariant.  On White, a GPIO channel, the 23rd firing
    writes the table entry 107 on the channel and a firing at counter 37
    writes 254: the brightness is above [max_brightness].  On Red, a
    hardware PWM, 22 firings go through and keep the invariant; the 23rd
    writes 107 and its update reads [levels[107]] in a table of 101
    entries, outside the table. *)
Theorem pulse_ignores_max_brightness :
  brightness_in_range (dim_pulse_device 1 0)
  /\ (exists l d',
        fire (rgbw_pulse_hrtimer_callback 1 10000000) 23 (dim_pulse_device 1 0)
        = Done (l, d')
        /\ brightness_of d' COLOR_WHITE = 107
        /\ max_brightness_of d' COLOR_WHITE = 100
        /\ ~ brightness_in_range d')
  /\ brightness_in_range (dim_pulse_device 1 37)
  /\ (exists d' t,
        rgbw_pulse_hrtimer_callback 1 10000000 (dim_pulse_device 1 37)
        = Done (HRTIMER_RESTART, d', t)
        /\ brightness_of d' COLOR_WHITE = 254
        /\ max_brightness_of d' COLOR_WHITE = 100
        /\ ~ brightness_in_range d')
  /\ brightness_in_range (dim_pwm_pulse_device 1 0)
  /\ (exists l d1,
        fire (rgbw_pulse_hrtimer_callback 1 10000000) 22 (dim_pwm_pulse_device 1 0)
        = Done (l, d1)
        /\ brightness_in_range d1
        /\ rgbw_pulse_hrtimer_callback 1 10000000 d1
           = Fault (OutOfBounds Arr_levels))
  /\ fire (rgbw_pulse_hrtimer_callback 1 10000000) 23 (dim_pwm_pulse_device 1 0)
     = Fault (OutOfBounds Arr_levels).
Proof.
  split; [intros c; destruct c; cbn; lia|].
  split.
  { eexists. eexists. split; [vm_compute; reflexivity|].
    split; [reflexivity|]. split; [reflexivity|].
    intros H. specialize (H COLOR_WHITE). cbn in H. lia. }
  split; [intros c; destruct c; cbn; lia|].
  split.
  { eexists. eexists. split; [vm_compute; reflexivity|].
    split; [reflexivity|]. split; [reflexivity|].
    intros H. specialize (H COLOR_WHITE). cbn in H. lia. }
  split; [intros c; destruct c; cbn; lia|].
  split.
  { eexists. eexists. split; [vm_compute; reflexivity|].
    split; [intros c; destruct c; cbn; lia|].
    vm_compute. reflexivity. }
  vm_compute. reflexivity.
Qed.

(** The table has 80 entries, not 75: the index that follows 74 is 75, and a
    firing that starts at counter 75 reads entry 75 and moves on to 76.
    This is where C4 fails as stated. *)
Lemma pulse_table_is_longer_than_75 :
  length pulse_val_table <> 75%nat
  /\ pulse_index 75 = 75
  /\ exists d' t,
      rgbw_pulse_hrtimer_callback 1 10000000
        (sample_device 7650000 255 (mk_per_color 0 0 0 0) 75 1 0 0
                       (mk_per_color 0 0 0 0))
      = Done (HRTIMER_RESTART, d', t)
      /\ brightness_of d' COLOR_RED = nth 75 pulse_val_table 0
      /\ cntr (cell (props d') COLOR_RED) = 76.
Proof.
  split; [discriminate|]. split; [reflexivity|].
  eexists. eexists. split; [vm_compute; reflexivity|].
  split; reflexivity.
Qed.

(** A hardware-PWM channel with a period of 100 ns and 255 levels at
    brightness 1: [lth_brightness] is 0 and so is the duty cycle, which is
    therefore not above [lth_brightness].  This is the input at which C8
    fails as stated. *)
Lemma duty_not_above_lth_brightness :
  levels (sample_data 100 255 None 0 false) = None
  /\ lth_brightness (sample_data 100 255 None 0 false) = 100 / 255
  /\ exists duty_ns,
      channel_update COLOR_RED 1 255 (sample_data 100 255 None 0 false)
      = Done (tt, sample_data 100 255 None 0 false,
              [Ev_pwm_config COLOR_RED duty_ns 100; Ev_pwm_enable COLOR_RED])
      /\ ~ (lth_brightness (sample_data 100 255 None 0 false) < duty_ns
            < period (sample_data 100 255 None 0 false)).
Proof.
  split; [reflexivity|]. split; [reflexivity|].
  exists 0. split; [reflexivity|]. cbn. lia.
Qed.

(** Witness of C1: a device with Red at 128, Green at 0 and White on a
    GPIO, refreshed by the all-channel update. *)
Lemma duty_cycle_mapping_witness :
  exists d' t,
    rgbw_color_update
      (sample_device 7650000 255 (mk_per_color 128 0 0 0) 0 0 0 0
                     (mk_per_color 0 0 0 0)) = Done (0, d', t)
    /\ filter (drives_output COLOR_GREEN 0) t
       = [Ev_pwm_config COLOR_GREEN 0 7650000; Ev_pwm_disable COLOR_GREEN]
    /\ filter (drives_output COLOR_RED 0) t
       = [Ev_pwm_config COLOR_RED (30000 + 128 * (7650000 - 30000) / 255) 7650000;
          Ev_pwm_enable COLOR_RED]
    /\ filter (drives_output COLOR_WHITE 42) t = []
    /\ filter (starts_timer COLOR_WHITE) t = [Ev_hrtimer_start COLOR_WHITE 1000]
    /\ filter (starts_timer COLOR_RED) t = []
    /\ cell (soft_pwm (data d')) COLOR_WHITE
       = mk_soft_pwm 42 0 (mk_hrtimer true false).
Proof.
  eexists. eexists. split; [vm_compute; reflexivity|].
  split; [|split; [|split; [|split; [|split]]]].
  - refine (proj1 (duty_cycle_mapping
                     (sample_device 7650000 255 (mk_per_color 128 0 0 0) 0 0 0 0
                                    (mk_per_color 0 0 0 0))
                     COLOR_GREEN 0 _ _ (or_introl eq_refl)
                     _ _ _ _ eq_refl eq_refl eq_refl eq_refl) eq_refl eq_refl).
  - refine (proj1 (proj2 (duty_cycle_mapping
                     (sample_device 7650000 255 (mk_per_color 128 0 0 0) 0 0 0 0
                                    (mk_per_color 0 0 0 0))
                     COLOR_RED 0 _ _ (or_introl eq_refl)
                     _ _ _ _ eq_refl eq_refl eq_refl eq_refl)) eq_refl _ _).
    + vm_compute. reflexivity.
    + unfold fits_32_bits. vm_compute.
      repeat split; try discriminate; intros l H; discriminate H.
  - refine (proj1 (proj2 (proj2 (duty_cycle_mapping
                     (sample_device 7650000 255 (mk_per_color 128 0 0 0) 0 0 0 0
                                    (mk_per_color 0 0 0 0))
                     COLOR_WHITE 0 _ _ (or_introl eq_refl)
                     _ _ _ _ eq_refl eq_refl eq_refl eq_refl))) _).
    vm_compute. discriminate.
  - exact (proj1 (proj2 (proj2 (proj2 (duty_cycle_mapping
                     (sample_device 7650000 255 (mk_per_color 128 0 0 0) 0 0 0 0
                                    (mk_per_color 0 0 0 0))
                     COLOR_WHITE 0 _ _ (or_introl eq_refl)
                     _ _ _ _ eq_refl eq_refl eq_refl eq_refl))))).
  - exact (proj1 (proj2 (proj2 (proj2 (duty_cycle_mapping
                     (sample_device 7650000 255 (mk_per_color 128 0 0 0) 0 0 0 0
                                    (mk_per_color 0 0 0 0))
                     COLOR_RED 0 _ _ (or_introl eq_refl)
                     _ _ _ _ eq_refl eq_refl eq_refl eq_refl))))).
  - exact (proj1 (proj2 (proj2 (proj2 (proj2 (duty_cycle_mapping
                     (sample_device 7650000 255 (mk_per_color 128 0 0 0) 0 0 0 0
                                    (mk_per_color 0 0 0 0))
                     COLOR_WHITE 0 _ _ (or_introl eq_refl)
                     _ _ _ _ eq_refl eq_refl eq_refl eq_refl)))))).
Defined.

(** Witness of C2: White on a GPIO with a period of 7.65 ms and 255 levels,
    at brightness 255, 0 and 100. *)
Lemma soft_pwm_firing_witness :
  rgbw_gpio_hrtimer_callback (soft_firing_device 7650000 255 255 0)
  = Done (HRTIMER_NORESTART,
          with_data (soft_firing_device 7650000 255 255 0)
            (set_soft_value (data (soft_firing_device 7650000 255 255 0)) COLOR_WHITE 1),
          [Ev_gpio_set_value 42 1])
  /\ rgbw_gpio_hrtimer_callback (soft_firing_device 7650000 255 0 1)
     = Done (HRTIMER_NORESTART,
             with_data (soft_firing_device 7650000 255 0 1)
               (set_soft_value (data (soft_firing_device 7650000 255 0 1)) COLOR_WHITE 0),
             [Ev_gpio_set_value 42 0])
  /\ rgbw_gpio_hrtimer_callback (soft_firing_device 7650000 255 100 0)
     = Done (HRTIMER_RESTART,
             with_data (soft_firing_device 7650000 255 100 0)
               (set_soft_value (data (soft_firing_device 7650000 255 100 0)) COLOR_WHITE 1),
             [Ev_gpio_set_value 42 1; Ev_hrtimer_forward 3000000]).
Proof.
  split; [|split].
  - apply (proj1 (soft_pwm_firing (soft_firing_device 7650000 255 255 0)
                    COLOR_WHITE eq_refl)).
    cbn. lia.
  - apply (proj1 (proj2 (soft_pwm_firing (soft_firing_device 7650000 255 0 1)
                           COLOR_WHITE eq_refl))).
    + cbn. lia.
    + reflexivity.
  - refine (proj2 (proj2 (soft_pwm_firing (soft_firing_device 7650000 255 100 0)
                            COLOR_WHITE eq_refl)) _ _ 1 3000000 3000000
                  eq_refl eq_refl eq_refl).
    + cbn. lia.
    + cbn. lia.
Defined.

(** Witness of X17: one firing of the pulse timer on a device whose
    channels all have [max_brightness = 255]. *)
Lemma brightness_invariant_step_witness :
  exists d' t,
    run_op 1 2 4 8 10000000 500000000 Op_pulse_timer
      (sample_device 7650000 255 (mk_per_color 0 0 0 0) 37 1 0 0
                     (mk_per_color 0 0 0 0)) = Done (tt, d', t)
    /\ brightness_in_range
         (sample_device 7650000 255 (mk_per_color 0 0 0 0) 37 1 0 0
                        (mk_per_color 0 0 0 0))
    /\ op_guard Op_pulse_timer
         (sample_device 7650000 255 (mk_per_color 0 0 0 0) 37 1 0 0
                        (mk_per_color 0 0 0 0))
    /\ brightness_in_range d'.
Proof.
  eexists. eexists. split; [vm_compute; reflexivity|].
  assert (brightness_in_range
            (sample_device 7650000 255 (mk_per_color 0 0 0 0) 37 1 0 0
                           (mk_per_color 0 0 0 0))) as Hinv
    by (intros c; destruct c; cbn; lia).
  assert (op_guard Op_pulse_timer
            (sample_device 7650000 255 (mk_per_color 0 0 0 0) 37 1 0 0
                           (mk_per_color 0 0 0 0))) as Hguard
    by (intros c _; destruct c; cbn; lia).
  split; [exact Hinv|]. split; [exact Hguard|].
  exact (brightness_invariant_step 1 2 4 8 10000000 500000000 Op_pulse_timer
           _ _ _ Hinv Hguard eq_refl).
Defined.

(** Witness of C4: 160 firings of the pulse timer on Red. *)
Lemma pulse_sequence_witness :
  effect_on (sample_device 7650000 255 (mk_per_color 0 0 0 0) 0 1 0 0
                           (mk_per_color 0 0 0 0)) 1 = true
  /\ length pulse_val_table = 80%nat
  /\ exists l d',
      fire (rgbw_pulse_hrtimer_callback 1 10000000) 160
        (sample_device 7650000 255 (mk_per_color 0 0 0 0) 0 1 0 0
                       (mk_per_color 0 0 0 0)) = Done (l, d')
      /\ length l = 160%nat.
Proof.
  split; [reflexivity|].
  destruct (pulse_sequence 1 10000000
              (sample_device 7650000 255 (mk_per_color 0 0 0 0) 0 1 0 0
                             (mk_per_color 0 0 0 0))
              COLOR_RED 160)
    as (Hlen & _ & l & d' & E & Hl & _).
  - reflexivity.
  - reflexivity.
  - cbn. lia.
  - intros v _. apply sample_device_ready. vm_compute. discriminate.
  - split; [exact Hlen|]. exists l, d'. split; [exact E | exact Hl].
Defined.

(** Witness of C5: eight firings of the heartbeat timer. *)
Lemma heartbeat_cycle_witness :
  effect_on (sample_device 7650000 255 (mk_per_color 0 0 0 0) 0 4 0 0
                           (mk_per_color 200 0 0 0)) 4 = true
  /\ exists l d',
      fire (rgbw_hb_hrtimer_callback 4) 8
        (sample_device 7650000 255 (mk_per_color 0 0 0 0) 0 4 0 0
                       (mk_per_color 200 0 0 0)) = Done (l, d')
      /\ length l = 8%nat
      /\ forall k x, nth_error l k = Some x ->
           brightnesses (fst x)
           = (if Nat.even k then [200; 0; 0; 0] else [0; 0; 0; 0])
           /\ exists t, snd x = t ++ [Ev_hrtimer_forward
                                        (if (k mod 4 =? 3)%nat then 700000000
                                         else 100000000)].
Proof.
  split; [reflexivity|].
  apply (heartbeat_cycle 4
           (sample_device 7650000 255 (mk_per_color 0 0 0 0) 0 4 0 0
                          (mk_per_color 200 0 0 0)) 8).
  - reflexivity.
  - reflexivity.
  - reflexivity.
  - intros c b _. apply sample_device_ready. vm_compute. discriminate.
Defined.

(** Witness of C6: the rainbow from Red 255, Green 0, Blue 0. *)
Lemma rainbow_state0_witness :
  effect_on (sample_device 7650000 255 (mk_per_color 255 0 0 0) 0 8 0 0
                           (mk_per_color 0 0 0 0)) 8 = true
  /\ exists l d',
      fire (rgbw_rb_hrtimer_callback 8 10000000) 255
        (sample_device 7650000 255 (mk_per_color 255 0 0 0) 0 8 0 0
                       (mk_per_color 0 0 0 0)) = Done (l, d')
      /\ length l = 255%nat
      /\ brightness_of d' COLOR_GREEN = 255
      /\ bstate (acts d') = 1.
Proof.
  split; [reflexivity|].
  destruct (rainbow_state0 8 10000000
              (sample_device 7650000 255 (mk_per_color 255 0 0 0) 0 8 0 0
                             (mk_per_color 0 0 0 0)))
    as (l & d' & E & Hlen & _ & Hg & Hs).
  - reflexivity.
  - reflexivity.
  - intros c. now destruct c.
  - reflexivity.
  - reflexivity.
  - reflexivity.
  - cbn. lia.
  - intros c b _. apply sample_device_ready. vm_compute. discriminate.
  - exists l, d'. repeat split; assumption.
Defined.

(** Witness of C8: Red on a hardware PWM with a period of 7.65 ms and 255
    levels, at brightness 128. *)
Lemma duty_cycle_bounds_witness :
  channel_update COLOR_RED 0 255 (sample_data 7650000 255 None 0 false)
  = Done (tt, sample_data 7650000 255 None 0 false,
          [Ev_pwm_config COLOR_RED 0 7650000; Ev_pwm_disable COLOR_RED])
  /\ (exists duty_ns,
        channel_update COLOR_RED 128 255 (sample_data 7650000 255 None 0 false)
        = Done (tt, sample_data 7650000 255 None 0 false,
                [Ev_pwm_config COLOR_RED duty_ns 7650000; Ev_pwm_enable COLOR_RED])
        /\ 30000 < duty_ns < 7650000)
  /\ channel_update COLOR_RED 255 255 (sample_data 7650000 255 None 0 false)
     = Done (tt, sample_data 7650000 255 None 0 false,
             [Ev_pwm_config COLOR_RED 7650000 7650000; Ev_pwm_enable COLOR_RED]).
Proof.
  destruct (duty_cycle_bounds (sample_data 7650000 255 None 0 false)
              COLOR_RED 255 128) as (H0 & Hb & Hmax).
  - reflexivity.
  - reflexivity.
  - reflexivity.
  - lia.
  - cbn. lia.
  - cbn. lia.
  - cbn. lia.
  - split; [exact H0|]. split; [|exact Hmax]. apply Hb. lia.
Defined.

(** Witness of C9: a device with no effect active. *)
Lemma idle_callback_witness :
  rgbw_pulse_hrtimer_callback 1 10000000
    (sample_device 7650000 255 (mk_per_color 9 9 9 9) 0 0 0 0 (mk_per_color 0 0 0 0))
  = Done (HRTIMER_NORESTART,
          sample_device 7650000 255 (mk_per_color 9 9 9 9) 0 0 0 0
                        (mk_per_color 0 0 0 0), [])
  /\ rgbw_blink_hrtimer_callback 2 500000000
       (sample_device 7650000 255 (mk_per_color 9 9 9 9) 0 0 0 0 (mk_per_color 0 0 0 0))
     = Done (HRTIMER_NORESTART,
             sample_device 7650000 255 (mk_per_color 9 9 9 9) 0 0 0 0
                           (mk_per_color 0 0 0 0), [])
  /\ rgbw_hb_hrtimer_callback 4
       (sample_device 7650000 255 (mk_per_color 9 9 9 9) 0 0 0 0 (mk_per_color 0 0 0 0))
     = Done (HRTIMER_NORESTART,
             sample_device 7650000 255 (mk_per_color 9 9 9 9) 0 0 0 0
                           (mk_per_color 0 0 0 0), [])
  /\ rgbw_rb_hrtimer_callback 8 10000000
       (sample_device 7650000 255 (mk_per_color 9 9 9 9) 0 0 0 0 (mk_per_color 0 0 0 0))
     = Done (HRTIMER_NORESTART,
             sample_device 7650000 255 (mk_per_color 9 9 9 9) 0 0 0 0
                           (mk_per_color 0 0 0 0), []).
Proof.
  destruct (idle_callback_does_nothing 1 2 4 8 10000000 500000000
              (sample_device 7650000 255 (mk_per_color 9 9 9 9) 0 0 0 0
                             (mk_per_color 0 0 0 0)))
    as (H1 & H2 & H3 & H4).
  split; [apply H1; reflexivity|].
  split; [apply H2; reflexivity|].
  split; [apply H3; reflexivity | apply H4; reflexivity].
Defined.

(** Witness of C10: a tick counter left at 100 by an earlier run. *)
Lemma pulse_table_read_in_bounds_witness :
  0 <= cntr (cell (props (sample_device 7650000 255 (mk_per_color 0 0 0 0) 100 1 0 0
                                        (mk_per_color 0 0 0 0))) COLOR_RED)
  /\ pulse_index 100 = 0
  /\ table_read Arr_pulse_val_table pulse_val_table (pulse_index 100) = Done 0
  /\ rgbw_pulse_hrtimer_callback 1 10000000
       (sample_device 7650000 255 (mk_per_color 0 0 0 0) 100 1 0 0
                      (mk_per_color 0 0 0 0))
     <> Fault (OutOfBounds Arr_pulse_val_table).
Proof.
  assert (0 <= cntr (cell (props (sample_device 7650000 255 (mk_per_color 0 0 0 0)
                                                100 1 0 0 (mk_per_color 0 0 0 0)))
                          COLOR_RED)) as Hn by (cbn; lia).
  destruct (pulse_table_read_in_bounds 1 10000000
              (sample_device 7650000 255 (mk_per_color 0 0 0 0) 100 1 0 0
                             (mk_per_color 0 0 0 0))
              COLOR_RED eq_refl Hn) as (Hwrap & _ & _ & Hread & Hsafe).
  split; [exact Hn|]. split; [apply Hwrap; cbn; lia|].
  split; [exact Hread | exact Hsafe].
Defined.

(** * Further properties of the driver *)

(** ** Soft-PWM scheduler, continued *)

Lemma gpio_scan_none (cs : list rgbw_colors) (d : rgbw_device) :
  find (fun x => is_gpio (cell (types (data d)) x)
                 && hrtimer_callback_running (pwm_timer (cell (soft_pwm (data d)) x)))
       cs = None ->
  gpio_scan cs d = Done (0, d, []).
Proof.
  induction cs as [|x cs IH]; [reflexivity|].
  cbn [find gpio_scan]. unfold bind at 1. cbn [get]. unfold rgbw_get_data.
  destruct (is_gpio (cell (types (data d)) x)
            && hrtimer_callback_running (pwm_timer (cell (soft_pwm (data d)) x)));
    [discriminate|].
  intros H. now rewrite (IH H).
Qed.

Lemma soft_pwm_step_level (pb : pwm_rgbw_data) (p : rgbw_properties)
  (sp : soft_pwm_device) :
  value sp = 0 \/ value sp = 1 ->
  fst (soft_pwm_step pb p sp) = 0 \/ fst (soft_pwm_step pb p sp) = 1.
Proof.
  intros Hv. unfold soft_pwm_step.
  destruct (max_brightness p <=? brightness p); [now right|].
  destruct (brightness p =? 0); [now left|].
  cbn [fst]. lia.
Qed.

Lemma rgbw_gpio_hrtimer_callback_served (d : rgbw_device) (c : rgbw_colors) r d' t :
  served_channel d = Some c ->
  rgbw_gpio_hrtimer_callback d = Done (r, d', t) ->
  d' = with_data d
         (set_soft_value (data d) c
            (fst (soft_pwm_step (data d) (cell (props d) c)
                    (cell (soft_pwm (data d)) c))))
  /\ exists rest,
      t = Ev_gpio_set_value (gpio (cell (soft_pwm (data d)) c))
            (fst (soft_pwm_step (data d) (cell (props d) c)
                    (cell (soft_pwm (data d)) c))) :: rest
      /\ forall e, In e rest -> exists ns, e = Ev_hrtimer_forward ns.
Proof.
  intros Hs. unfold served_channel in Hs.
  unfold rgbw_gpio_hrtimer_callback, bind.
  rewrite (gpio_scan_served all_colors d c Hs).
  destruct (0 <? snd _); unfold emit, ret; intros H; inversion H; subst;
    (split; [reflexivity|]); eexists; (split; [reflexivity|]); cbn.
  - intros e [<- | []]. eauto.
  - intros e [].
Qed.

Lemma value_set_soft_value (pb : pwm_rgbw_data) (c x : rgbw_colors) (v : Z) :
  value (cell (soft_pwm (set_soft_value pb c v)) x)
  = if color_index x =? color_index c then v else value (cell (soft_pwm pb) x).
Proof. now destruct c, x. Qed.

Lemma soft_cell_set_soft_value_other (pb : pwm_rgbw_data) (c x : rgbw_colors) (v : Z) :
  x <> c -> cell (soft_pwm (set_soft_value pb c v)) x = cell (soft_pwm pb) x.
Proof. intros H. destruct c, x; try reflexivity; now contradiction H. Qed.

Lemma gpio_callback_idle (d : rgbw_device) :
  served_channel d = None ->
  rgbw_gpio_hrtimer_callback d = Done (HRTIMER_NORESTART, d, []).
Proof.
  intros Hs. unfold served_channel in Hs.
  unfold rgbw_gpio_hrtimer_callback, bind.
  now rewrite (gpio_scan_none all_colors d Hs).
Qed.

(** X1.  A firing of the soft-PWM callback that finds no GPIO channel whose
    timer is running its callback does nothing: no pin is written, the
    device is as it was and the timer is not restarted. *)
Theorem soft_pwm_no_served_channel (d : rgbw_device) :
  served_channel d = None ->
  rgbw_gpio_hrtimer_callback d = Done (HRTIMER_NORESTART, d, []).
Proof.
  unfold served_channel. intros Hnone.
  unfold rgbw_gpio_hrtimer_callback, bind.
  rewrite (gpio_scan_none all_colors d Hnone).
  cbn [snd Z.ltb Z.compare]. reflexivity.
Qed.

(** X2.  The soft-PWM callback keeps the stored levels at 0 or 1: if every
    channel's [value] is 0 or 1 before a firing, it is so after it, a pin is
    only ever written 0 or 1, and only the served channel's cell changes;
    brightnesses and effect state are not touched. *)
Theorem soft_pwm_levels_stay_binary (d : rgbw_device) r d' t :
  (forall c, value (cell (soft_pwm (data d)) c) = 0
             \/ value (cell (soft_pwm (data d)) c) = 1) ->
  rgbw_gpio_hrtimer_callback d = Done (r, d', t) ->
  (forall c, value (cell (soft_pwm (data d')) c) = 0
             \/ value (cell (soft_pwm (data d')) c) = 1)
  /\ (forall pin v, In (Ev_gpio_set_value pin v) t -> v = 0 \/ v = 1)
  /\ (forall c, served_channel d <> Some c ->
        cell (soft_pwm (data d')) c = cell (soft_pwm (data d)) c)
  /\ props d' = props d /\ acts d' = acts d.
Proof.
  intros Hbin H.
  destruct (rgbw_gpio_hrtimer_callback_frame d r d' t H) as (Hp & Ha).
  destruct (served_channel d) as [c|] eqn:Hs.
  - destruct (rgbw_gpio_hrtimer_callback_served d c r d' t Hs H)
      as (-> & rest & -> & Hrest).
    pose proof (soft_pwm_step_level (data d) (cell (props d) c)
                  (cell (soft_pwm (data d)) c) (Hbin c)) as Hv.
    split; [|split; [|split; [|now split]]].
    + intros x. cbn [data with_data]. rewrite value_set_soft_value.
      destruct (color_index x =? color_index c); [exact Hv | apply Hbin].
    + intros pin v [Hin | Hin].
      * inversion Hin; subst. exact Hv.
      * destruct (Hrest _ Hin) as (ns & Hns). discriminate Hns.
    + intros x Hx. cbn [data with_data].
      apply soft_cell_set_soft_value_other. congruence.
  - rewrite (gpio_callback_idle d Hs) in H.
    inversion H; subst. split; [exact Hbin|]. split; [intros pin v []|].
    split; [reflexivity|now split].
Qed.

Lemma served_channel_set_soft_value (d : rgbw_device) (c : rgbw_colors) (v : Z) :
  served_channel (with_data d (set_soft_value (data d) c v)) = served_channel d.
Proof.
  unfold served_channel, all_colors. cbn [find data with_data].
  now destruct c.
Qed.

(** X3.  One period of the soft PWM.  For a GPIO channel at Low whose
    [lth_brightness] is [period / max_brightness], with
    [max_brightness <= period < 2^32] and a brightness strictly between 0
    and [max_brightness]: the firing drives the pin to 1 and restarts the
    timer after [brightness * lth_brightness]; the next firing drives it to
    0 and restarts the timer after the rest of the period.  Both delays are
    positive and they add up to [period]; the stored level is back at 0. *)
Theorem soft_pwm_one_period (d : rgbw_device) (c : rgbw_colors) :
  served_channel d = Some c ->
  value (cell (soft_pwm (data d)) c) = 0 ->
  lth_brightness (data d) = period (data d) / max_brightness_of d c ->
  max_brightness_of d c <= period (data d) < 2 ^ 32 ->
  0 < brightness_of d c < max_brightness_of d c ->
  exists d1 d2 high_ns low_ns,
    rgbw_gpio_hrtimer_callback d
    = Done (HRTIMER_RESTART, d1,
            [Ev_gpio_set_value (gpio (cell (soft_pwm (data d)) c)) 1;
             Ev_hrtimer_forward high_ns])
    /\ rgbw_gpio_hrtimer_callback d1
       = Done (HRTIMER_RESTART, d2,
               [Ev_gpio_set_value (gpio (cell (soft_pwm (data d)) c)) 0;
                Ev_hrtimer_forward low_ns])
    /\ high_ns = brightness_of d c * lth_brightness (data d)
    /\ 0 < high_ns /\ 0 < low_ns
    /\ high_ns + low_ns = period (data d)
    /\ value (cell (soft_pwm (data d2)) c) = 0.
Proof.
  intros Hs Hv Hlth Hper Hb.
  set (b := brightness_of d c) in *. set (m := max_brightness_of d c) in *.
  set (per := period (data d)) in *. set (lth := lth_brightness (data d)) in *.
  assert (1 <= lth) as Hl1.
  { rewrite Hlth. apply Z.div_le_lower_bound; lia. }
  assert (lth * m <= per) as Hlm.
  { rewrite Hlth, Z.mul_comm. apply Z.mul_div_le. lia. }
  assert (0 < b * lth < per) as Hpulse by nia.
  assert (u32 (b * lth) = b * lth) as Hu32 by (apply u32_small; lia).
  assert (s64 (b * lth) = b * lth) as Hs64 by (apply s64_small; lia).
  assert (s64 (u64 (per - b * lth)) = per - b * lth) as Hlow.
  { rewrite u64_small by lia. apply s64_small. lia. }
  set (d1 := with_data d (set_soft_value (data d) c 1)).
  set (d2 := with_data d1 (set_soft_value (data d1) c 0)).
  exists d1, d2, (b * lth), (per - b * lth).
  assert (forall x v, brightness_of (with_data x v) c = brightness_of x c) as Hbw
    by reflexivity.
  split; [|split; [|split; [reflexivity|split; [lia|split; [lia|split; [lia|]]]]]].
  - unfold served_channel in Hs.
    unfold rgbw_gpio_hrtimer_callback, bind.
    rewrite (gpio_scan_served all_colors d c Hs).
    unfold soft_pwm_step. fold (brightness_of d c) (max_brightness_of d c) b m lth per.
    destruct (Z.leb_spec m b); [lia|]. destruct (Z.eqb_spec b 0); [lia|].
    rewrite Hv. cbn [Z.sub Z.opp Z.add Z.pos_sub Z.eqb fst snd].
    rewrite Hu32, Hs64.
    destruct (Z.ltb_spec 0 (b * lth)); [reflexivity|lia].
  - assert (served_channel d1 = Some c) as Hs1
      by (unfold d1; now rewrite served_channel_set_soft_value).
    unfold served_channel in Hs1.
    unfold rgbw_gpio_hrtimer_callback, bind.
    rewrite (gpio_scan_served all_colors d1 c Hs1).
    assert (cell (props d1) c = cell (props d) c) as -> by reflexivity.
    assert (value (cell (soft_pwm (data d1)) c) = 1) as Hv1.
    { unfold d1. cbn [data with_data]. rewrite value_set_soft_value.
      now rewrite Z.eqb_refl. }
    assert (gpio (cell (soft_pwm (data d1)) c) = gpio (cell (soft_pwm (data d)) c))
      as Hpin by (unfold d1; now destruct c).
    assert (period (data d1) = per /\ lth_brightness (data d1) = lth) as (Hp1 & Hl1')
      by (unfold d1; now split).
    unfold soft_pwm_step. fold (brightness_of d c) (max_brightness_of d c) b m.
    rewrite Hp1, Hl1', Hv1, Hpin.
    destruct (Z.leb_spec m b); [lia|]. destruct (Z.eqb_spec b 0); [lia|].
    cbn [Z.sub Z.opp Z.add Z.pos_sub Z.eqb fst snd].
    rewrite Hu32, Hlow.
    destruct (Z.ltb_spec 0 (per - b * lth)); [reflexivity|lia].
  - unfold d2. cbn [data with_data]. rewrite value_set_soft_value.
    now rewrite Z.eqb_refl.
Qed.

(** ** What no operation changes *)

Lemma setup_of_frame (d d' : rgbw_device) :
  props d' = props d -> acts d' = acts d -> same_config (data d) (data d') ->
  same_setup d d'.
Proof.
  intros Hp Ha Hc.
  exact (proj1 (props_acts_setup d d d' Hp Ha Hc (same_setup_refl d))).
Qed.

Lemma gpio_callback_setup (d : rgbw_device) r d' t :
  rgbw_gpio_hrtimer_callback d = Done (r, d', t) -> same_setup d d'.
Proof.
  intros H. destruct (served_channel d) as [c|] eqn:Hs.
  - destruct (rgbw_gpio_hrtimer_callback_served d c r d' t Hs H) as (-> & _).
    apply setup_of_frame; try reflexivity. repeat split.
  - rewrite (gpio_callback_idle d Hs) in H. inversion H; subst.
    apply same_setup_refl.
Qed.

Lemma effect_tick_setup (f : rgbw_device -> rgbw_device) (ns : Z) (d : rgbw_device)
  r d1 t :
  same_setup d (f d) ->
  (modify f ;;;
   _ <- rgbw_color_update ;;
   emit (Ev_hrtimer_forward ns) ;;;
   ret HRTIMER_RESTART) d = Done (r, d1, t) ->
  same_setup d d1.
Proof.
  intros Hs H. apply bind_done in H.
  destruct H as (x & s1 & t1 & t2 & Hmod & H & _).
  inversion Hmod; subst x s1 t1; clear Hmod.
  apply bind_done in H. destruct H as (x & s1 & t1 & t3 & Hup & H & _).
  apply rgbw_color_update_frame in Hup. destruct Hup as (_ & Hp & Ha & Hc).
  unfold bind, emit, ret in H. inversion H; subst.
  exact (proj1 (props_acts_setup d (f d) d1 Hp Ha Hc Hs)).
Qed.

Lemma blink_switch_setup (d : rgbw_device) : same_setup d (blink_switch d).
Proof.
  unfold blink_switch.
  eapply same_setup_trans; [apply write_all_setup | apply with_bstate_setup].
Qed.

Lemma hb_switch_setup (d : rgbw_device) : same_setup d (hb_switch d).
Proof.
  unfold hb_switch.
  eapply same_setup_trans; [apply write_all_setup | apply with_bstate_setup].
Qed.

Lemma rb_up_setup (d : rgbw_device) (c : rgbw_colors) (next : Z) :
  same_setup d (rb_up c next d).
Proof.
  unfold rb_up.
  destruct (_ <? _);
    [eapply same_setup_trans; [apply set_brightness_setup | apply with_bstate_setup]
    | apply set_brightness_setup].
Qed.

Lemma rb_down_setup (d : rgbw_device) (c : rgbw_colors) (next : Z) :
  same_setup d (rb_down c next d).
Proof.
  unfold rb_down.
  destruct (_ <? _);
    [eapply same_setup_trans; [apply set_brightness_setup | apply with_bstate_setup]
    | apply set_brightness_setup].
Qed.

Lemma rb_default_setup (d : rgbw_device) : same_setup d (rb_default d).
Proof.
  unfold rb_default.
  eapply same_setup_trans; [apply with_bstate_setup|].
  eapply same_setup_trans; [apply set_brightness_setup|].
  eapply same_setup_trans; [apply set_brightness_setup|].
  eapply same_setup_trans; [apply set_brightness_setup|].
  apply set_brightness_setup.
Qed.

Lemma rb_switch_setup (d : rgbw_device) : same_setup d (rb_switch d).
Proof.
  destruct (rb_switch_cases d)
    as [(_ & ->) | [(_ & ->) | [(_ & ->) | [(_ & ->) | [(_ & ->) | [(_ & ->) | ->]]]]]];
    first [apply rb_up_setup | apply rb_down_setup | apply rb_default_setup].
Qed.

Section FrameFacts.

Variables RGBW_PULSE_ON RGBW_BLINK_ON RGBW_HB_ON RGBW_RB_ON : Z.
Variables PULSE_VALUE_PER_NS BLINK_STATE_PER_NS : Z.

Lemma pulse_callback_setup (d : rgbw_device) r d' t :
  rgbw_pulse_hrtimer_callback RGBW_PULSE_ON PULSE_VALUE_PER_NS d = Done (r, d', t) ->
  same_setup d d'.
Proof.
  intros H. unfold rgbw_pulse_hrtimer_callback in H.
  apply bind_done in H. destruct H as (x & s1 & t1 & t2 & Hget & H & _).
  inversion Hget; subst x s1 t1; clear Hget.
  destruct (effect_on d RGBW_PULSE_ON);
    [|inversion H; subst; apply same_setup_refl].
  cbv zeta in H.
  destruct (color_of_index (s32 (pcolor (acts d)))) as [c|] eqn:Hc; [|discriminate].
  apply bind_done in H. destruct H as (v & s1 & t1 & t3 & Hread & H & _).
  apply lift_outcome_done in Hread. destruct Hread as (Hread & ->).
  apply bind_done in H. destruct H as (u & s2 & t4 & t5 & Hput & H & _).
  inversion Hput; subst u s2 t4; clear Hput.
  apply bind_done in H. destruct H as (u & s3 & t6 & t7 & Hup & H & _).
  apply pulse_color_update_frame in Hup. destruct Hup as (Hp & Ha & Hcfg).
  unfold bind, emit, ret in H. inversion H; subst.
  refine (proj1 (props_acts_setup d _ d' Hp Ha Hcfg _)).
  eapply same_setup_trans; [apply set_brightness_setup | apply set_cntr_setup].
Qed.

(** X4.  No operation of the core that returns (either update path, the
    soft-PWM callback, the four effect callbacks) changes a channel's
    [max_brightness], the active-effect mask, the pulse target, the saved
    colour, or the channel types, the period, [lth_brightness], the levels
    table and the hooks.  In particular an effect callback never clears its
    own bit: an effect runs until something else clears it. *)
Theorem core_op_keeps_setup (op : core_op) (d d' : rgbw_device) (t : list hw_event) :
  run_op RGBW_PULSE_ON RGBW_BLINK_ON RGBW_HB_ON RGBW_RB_ON
         PULSE_VALUE_PER_NS BLINK_STATE_PER_NS op d = Done (tt, d', t) ->
  (forall c, max_brightness_of d' c = max_brightness_of d c)
  /\ state (acts d') = state (acts d)
  /\ pcolor (acts d') = pcolor (acts d)
  /\ rgbw_values (acts d') = rgbw_values (acts d)
  /\ types (data d') = types (data d)
  /\ period (data d') = period (data d)
  /\ lth_brightness (data d') = lth_brightness (data d)
  /\ levels (data d') = levels (data d)
  /\ notify (data d') = notify (data d)
  /\ notify_after (data d') = notify_after (data d).
Proof.
  intros H.
  assert (same_setup d d') as (Hm & Hs & Hp & Hv & Ht & Hper & Hl & Hlev & Hn & Hna).
  { destruct op; cbn [run_op] in H; apply forget_done in H; destruct H as (r & H).
    - apply rgbw_color_update_frame in H. destruct H as (_ & Hp & Ha & Hc).
      now apply setup_of_frame.
    - apply pulse_color_update_frame in H. destruct H as (Hp & Ha & Hc).
      now apply setup_of_frame.
    - eapply gpio_callback_setup; exact H.
    - eapply pulse_callback_setup; exact H.
    - unfold rgbw_blink_hrtimer_callback in H.
      apply bind_done in H. destruct H as (x & s1 & t1 & t2 & Hget & H & _).
      inversion Hget; subst x s1 t1; clear Hget.
      destruct (effect_on d RGBW_BLINK_ON);
        [|inversion H; subst; apply same_setup_refl].
      eapply effect_tick_setup; [apply blink_switch_setup | exact H].
    - unfold rgbw_hb_hrtimer_callback in H.
      apply bind_done in H. destruct H as (x & s1 & t1 & t2 & Hget & H & _).
      inversion Hget; subst x s1 t1; clear Hget.
      destruct (effect_on d RGBW_HB_ON);
        [|inversion H; subst; apply same_setup_refl].
      cbv zeta in H.
      eapply effect_tick_setup; [apply hb_switch_setup | exact H].
    - unfold rgbw_rb_hrtimer_callback in H.
      apply bind_done in H. destruct H as (x & s1 & t1 & t2 & Hget & H & _).
      inversion Hget; subst x s1 t1; clear Hget.
      destruct (effect_on d RGBW_RB_ON);
        [|inversion H; subst; apply same_setup_refl].
      eapply effect_tick_setup; [apply rb_switch_setup | exact H]. }
  repeat split; congruence || assumption.
Qed.

End FrameFacts.

(** ** Blink *)

Lemma blink_switch_spec (d : rgbw_device) :
  same_setup d (blink_switch d)
  /\ (forall c, brightness_of (blink_switch d) c
                = if s32 (bstate (acts d)) =? 0
                  then 0 else cell (rgbw_values (acts d)) c)
  /\ bstate (acts (blink_switch d)) = (if s32 (bstate (acts d)) =? 0 then 1 else 0).
Proof.
  split; [apply blink_switch_setup|]. unfold blink_switch. split.
  - intros c.
    match goal with
    | |- brightness_of (with_bstate ?x ?b) c = _ =>
        destruct (with_bstate_setup x b) as (_ & Hbr & _); rewrite Hbr
    end.
    now rewrite write_all_brightness.
  - match goal with
    | |- bstate (acts (with_bstate ?x ?b)) = _ =>
        destruct (with_bstate_setup x b) as (_ & _ & Hst); exact Hst
    end.
Qed.

Section BlinkFacts.

Variables RGBW_BLINK_ON BLINK_STATE_PER_NS : Z.

Lemma blink_tick (d : rgbw_device) :
  effect_on d RGBW_BLINK_ON = true ->
  (forall c, mapper_ready d c
               (if s32 (bstate (acts d)) =? 0
                then 0 else cell (rgbw_values (acts d)) c) = true) ->
  exists d1 t,
    rgbw_blink_hrtimer_callback RGBW_BLINK_ON BLINK_STATE_PER_NS d
    = Done (HRTIMER_RESTART, d1, t ++ [Ev_hrtimer_forward BLINK_STATE_PER_NS])
    /\ same_setup d d1
    /\ (forall c, brightness_of d1 c
                  = if s32 (bstate (acts d)) =? 0
                    then 0 else cell (rgbw_values (acts d)) c)
    /\ bstate (acts d1) = (if s32 (bstate (acts d)) =? 0 then 1 else 0).
Proof.
  intros Heff Hready.
  destruct (blink_switch_spec d) as (Hs & Hbr & Hst).
  destruct (effect_tick blink_switch BLINK_STATE_PER_NS d)
    as (d1 & t & E & Hp & Ha & Hc).
  { intros c. rewrite (mapper_ready_setup d (blink_switch d)) by exact Hs.
    rewrite Hbr. apply Hready. }
  destruct (props_acts_setup d (blink_switch d) d1 Hp Ha Hc Hs) as (Hs1 & Hb1 & Hst1 & _).
  exists d1, t. split; [|split; [exact Hs1|split]].
  - unfold rgbw_blink_hrtimer_callback.
    change (t ++ [Ev_hrtimer_forward BLINK_STATE_PER_NS])
      with ([] ++ t ++ [Ev_hrtimer_forward BLINK_STATE_PER_NS]).
    eapply bind_intro; [reflexivity|].
    rewrite Heff. exact E.
  - intros c. now rewrite Hb1, Hbr.
  - now rewrite Hst1, Hst.
Qed.

(** X5.  Blink.  With the blink bit set and channels that can be driven at
    0 and at the saved colour, any number of successive firings of the
    blink callback all ask for a restart after [BLINK_STATE_PER_NS], and
    they alternate: a firing that finds the step at 0 leaves every channel
    at 0, the next one leaves every channel at its saved value, and so on.
    A step other than 0 counts as 1. *)
Theorem blink_alternates (d : rgbw_device) (n : nat) :
  effect_on d RGBW_BLINK_ON = true ->
  (forall c b, b = 0 \/ b = cell (rgbw_values (acts d)) c ->
               mapper_ready d c b = true) ->
  exists l d',
    fire (rgbw_blink_hrtimer_callback RGBW_BLINK_ON BLINK_STATE_PER_NS) n d
    = Done (l, d')
    /\ length l = n
    /\ forall k x, nth_error l k = Some x ->
         (forall c, brightness_of (fst x) c
                    = if Bool.eqb (Nat.even k) (s32 (bstate (acts d)) =? 0)
                      then 0 else cell (rgbw_values (acts d)) c)
         /\ exists t, snd x = t ++ [Ev_hrtimer_forward BLINK_STATE_PER_NS].
Proof.
  intros Heff Hready.
  set (off0 := s32 (bstate (acts d)) =? 0).
  pose (I := fun (k : nat) (x : rgbw_device) =>
               same_setup d x
               /\ (s32 (bstate (acts x)) =? 0) = Bool.eqb (Nat.even k) off0).
  pose (P := fun (k : nat) (x : rgbw_device) (t : list hw_event) =>
               (forall c, brightness_of x c
                          = if Bool.eqb (Nat.even k) off0
                            then 0 else cell (rgbw_values (acts d)) c)
               /\ exists t', t = t' ++ [Ev_hrtimer_forward BLINK_STATE_PER_NS]).
  destruct (fire_steps
              (rgbw_blink_hrtimer_callback RGBW_BLINK_ON BLINK_STATE_PER_NS) I P n)
    with (n := n) (k := 0%nat) (d := d) as (l & d' & E & Hlen & _ & Hl).
  - intros k x _ (Hs & Hk).
    assert (rgbw_values (acts x) = rgbw_values (acts d)) as Hv
      by (destruct Hs as (_ & _ & _ & Hv & _); exact Hv).
    destruct (blink_tick x) as (d1 & t & E & Hs1 & Hbr & Hst).
    + now rewrite (effect_on_setup d x) by exact Hs.
    + intros c. rewrite (mapper_ready_setup d x) by exact Hs. apply Hready.
      rewrite Hv. destruct (s32 (bstate (acts x)) =? 0); [now left | now right].
    + exists d1, (t ++ [Ev_hrtimer_forward BLINK_STATE_PER_NS]).
      split; [exact E|]. unfold I, P. rewrite Hst.
      split; [split; [eapply same_setup_trans; eassumption|]|split].
      * rewrite Nat.even_succ, <- Nat.negb_even. rewrite Hk.
        destruct (Nat.even k), off0; reflexivity.
      * intros c. now rewrite Hbr, Hk, Hv.
      * now exists t.
  - lia.
  - split; [apply same_setup_refl|]. cbn [Nat.even]. unfold off0.
    now destruct (s32 (bstate (acts d)) =? 0).
  - exists l, d'. split; [exact E|]. split; [exact Hlen|].
    intros k x Hx. apply (Hl k x Hx).
Qed.

End BlinkFacts.

(** ** Rainbow, the whole wheel *)

Lemma restarts_fire (cb : M rgbw_device hrtimer_restart) n d l d' :
  restarts cb n d l d' -> fire cb n d = Done (l, d') /\ length l = n.
Proof.
  induction 1 as [d|n d d1 t l d' E _ (IH & Hlen)]; [now split|].
  cbn [fire length]. rewrite E, IH, Hlen. now split.
Qed.

Lemma restarts_app (cb : M rgbw_device hrtimer_restart) n m d l1 d1 l2 d2 :
  restarts cb n d l1 d1 -> restarts cb m d1 l2 d2 ->
  restarts cb (n + m) d (l1 ++ l2) d2.
Proof.
  induction 1 as [d|n d dx t l d' E _ IH]; intros H2; [exact H2|].
  cbn [Nat.add app]. econstructor; [exact E | now apply IH].
Qed.

Lemma drivable_setup (d x : rgbw_device) :
  same_setup d x -> drivable d -> drivable x.
Proof.
  intros Hs Hd c b Hb. rewrite (mapper_ready_setup d x) by exact Hs.
  apply Hd. destruct Hs as (Hm & _). now rewrite <- Hm.
Qed.

Lemma in_range_of_brightness (d x : rgbw_device) :
  same_setup d x -> (forall c, 0 <= brightness_of x c <= max_brightness_of d c) ->
  brightness_in_range x.
Proof. intros (Hm & _) H c. rewrite Hm. apply H. Qed.

Section WheelFacts.

Variables RGBW_RB_ON PULSE_VALUE_PER_NS : Z.

(** One firing, for a device whose next device is in range. *)
Lemma rb_tick_in_range (d : rgbw_device) :
  effect_on d RGBW_RB_ON = true -> drivable d ->
  brightness_in_range (rb_switch d) ->
  exists d1 t,
    rgbw_rb_hrtimer_callback RGBW_RB_ON PULSE_VALUE_PER_NS d
    = Done (HRTIMER_RESTART, d1, t)
    /\ same_setup d d1
    /\ (forall c, brightness_of d1 c = brightness_of (rb_switch d) c)
    /\ bstate (acts d1) = bstate (acts (rb_switch d)).
Proof.
  intros Heff Hd Hin.
  pose proof (rb_switch_setup d) as Hs.
  destruct (rb_tick RGBW_RB_ON PULSE_VALUE_PER_NS d Heff) as (d1 & t & E & H1 & H2 & H3).
  - intros c. apply Hd. destruct Hs as (Hm & _). rewrite <- Hm. apply Hin.
  - exact Hs.
  - exists d1, (t ++ [Ev_hrtimer_forward PULSE_VALUE_PER_NS]).
    split; [exact E | split; [exact H1 | split; [exact H2 | exact H3]]].
Qed.

(** The shape shared by the six phases: the moving channel [c] goes from
    [from] to [to] in [j + 1] unit steps [delta], the other channels stay,
    and the step becomes [next] with the last firing. *)
Lemma rb_phase (s next delta : Z) (c : rgbw_colors)
  (last : rgbw_device -> Z -> bool) :
  (forall x g,
     bstate (acts x) = s -> brightness_of x c = g ->
     0 <= g + delta <= max_brightness_of x c -> max_brightness_of x c < 2 ^ 32 ->
     brightness_of (rb_switch x) c = g + delta
     /\ (forall c', c' <> c -> brightness_of (rb_switch x) c' = brightness_of x c')
     /\ bstate (acts (rb_switch x)) = (if last x (g + delta) then next else s)) ->
  forall (j : nat) (d : rgbw_device) (target : Z),
    effect_on d RGBW_RB_ON = true -> drivable d -> brightness_in_range d ->
    bstate (acts d) = s ->
    (forall c', max_brightness_of d c' < 2 ^ 32) ->
    brightness_of d c + delta * Z.of_nat (S j) = target ->
    0 <= target <= max_brightness_of d c ->
    (forall x g, same_setup d x -> 0 <= g <= max_brightness_of d c ->
                 last x g = (g =? target)) ->
    delta = 1 \/ delta = -1 ->
    exists l d',
      restarts (rgbw_rb_hrtimer_callback RGBW_RB_ON PULSE_VALUE_PER_NS) (S j) d l d'
      /\ same_setup d d'
      /\ bstate (acts d') = next
      /\ brightness_of d' c = target
      /\ (forall c', c' <> c -> brightness_of d' c' = brightness_of d c')
      /\ brightness_in_range d'
      /\ forall x, In x l ->
           brightness_in_range (fst x)
           /\ forall c', c' <> c -> brightness_of (fst x) c' = brightness_of d c'.
Proof.
  intros Hsw. induction j as [|j IH];
    intros d target Heff Hd Hin Hst Hmax Hg Ht Hlast Hdelta.
  - pose proof (Hin c) as Hc.
    destruct (Hsw d (brightness_of d c) Hst eq_refl) as (Hb & Ho & Hn); [lia|apply Hmax|].
    assert (brightness_in_range (rb_switch d)) as Hin1.
    { apply (in_range_of_brightness d); [apply rb_switch_setup|].
      intros c'. destruct (color_neq_dec c' c) as [->|Hne].
      - rewrite Hb. lia.
      - rewrite Ho by exact Hne. apply Hin. }
    destruct (rb_tick_in_range d Heff Hd Hin1) as (d1 & t & E & Hs1 & Hb1 & Hst1).
    exists [(d1, t)], d1.
    split; [econstructor; [exact E | constructor]|].
    split; [exact Hs1|]. split.
    { rewrite Hst1, Hn, (Hlast d _ (same_setup_refl d)) by lia.
      destruct (Z.eqb_spec (brightness_of d c + delta) target); [reflexivity|lia]. }
    split; [rewrite Hb1, Hb; lia|].
    assert (forall c', c' <> c -> brightness_of d1 c' = brightness_of d c') as Ho1
      by (intros c' Hne; rewrite Hb1; now apply Ho).
    split; [exact Ho1|].
    assert (brightness_in_range d1) as Hin2.
    { apply (in_range_of_brightness d); [exact Hs1|].
      intros c'. rewrite Hb1. destruct Hin1 with (c := c') as (Hlo & Hhi).
      destruct (rb_switch_setup d) as (Hm & _). rewrite Hm in Hhi. lia. }
    split; [exact Hin2|].
    intros x [<- | []]. cbn [fst]. now split.
  - pose proof (Hin c) as Hc.
    destruct (Hsw d (brightness_of d c) Hst eq_refl) as (Hb & Ho & Hn); [lia|apply Hmax|].
    assert (brightness_in_range (rb_switch d)) as Hin1.
    { apply (in_range_of_brightness d); [apply rb_switch_setup|].
      intros c'. destruct (color_neq_dec c' c) as [->|Hne].
      - rewrite Hb. lia.
      - rewrite Ho by exact Hne. apply Hin. }
    destruct (rb_tick_in_range d Heff Hd Hin1) as (d1 & t & E & Hs1 & Hb1 & Hst1).
    assert (forall c', c' <> c -> brightness_of d1 c' = brightness_of d c') as Ho1
      by (intros c' Hne; rewrite Hb1; now apply Ho).
    assert (brightness_in_range d1) as Hin2.
    { apply (in_range_of_brightness d); [exact Hs1|].
      intros c'. rewrite Hb1. destruct Hin1 with (c := c') as (Hlo & Hhi).
      destruct (rb_switch_setup d) as (Hm & _). rewrite Hm in Hhi. lia. }
    assert (forall c', max_brightness_of d1 c' = max_brightness_of d c') as Hm1
      by (destruct Hs1 as (Hm & _); exact Hm).
    destruct (IH d1 target) as (l & d' & Hrun & Hs' & Hst' & Hb' & Ho' & Hin' & Hl).
    + now rewrite (effect_on_setup d d1) by exact Hs1.
    + now apply (drivable_setup d).
    + exact Hin2.
    + rewrite Hst1, Hn, (Hlast d _ (same_setup_refl d)) by lia.
      destruct (Z.eqb_spec (brightness_of d c + delta) target); [lia|reflexivity].
    + intros c'. rewrite Hm1. apply Hmax.
    + rewrite Hb1, Hb. lia.
    + now rewrite Hm1.
    + intros x g Hx Hgr. rewrite Hm1 in Hgr.
      apply Hlast; [eapply same_setup_trans; eassumption | exact Hgr].
    + exact Hdelta.
    + exists ((d1, t) :: l), d'.
      split; [econstructor; eassumption|].
      split; [eapply same_setup_trans; eassumption|].
      split; [exact Hst'|]. split; [exact Hb'|].
      split; [intros c' Hne; rewrite Ho' by exact Hne; now apply Ho1|].
      split; [exact Hin'|].
      intros x [<- | Hx].
      * cbn [fst]. now split.
      * destruct (Hl x Hx) as (Hr & Hoth). split; [exact Hr|].
        intros c' Hne. rewrite Hoth by exact Hne. now apply Ho1.
Qed.

Lemma rb_phase_up (s next : Z) (c : rgbw_colors) :
  (forall x, bstate (acts x) = s -> rb_switch x = rb_up c next x) ->
  forall (j : nat) (d : rgbw_device),
    effect_on d RGBW_RB_ON = true -> drivable d -> brightness_in_range d ->
    bstate (acts d) = s ->
    (forall c', max_brightness_of d c' < 2 ^ 32) ->
    brightness_of d c = 0 ->
    max_brightness_of d c = Z.of_nat (S j) ->
    exists l d',
      restarts (rgbw_rb_hrtimer_callback RGBW_RB_ON PULSE_VALUE_PER_NS) (S j) d l d'
      /\ same_setup d d'
      /\ bstate (acts d') = next
      /\ brightness_of d' c = max_brightness_of d c
      /\ (forall c', c' <> c -> brightness_of d' c' = brightness_of d c')
      /\ brightness_in_range d'
      /\ forall x, In x l ->
           brightness_in_range (fst x)
           /\ forall c', c' <> c -> brightness_of (fst x) c' = brightness_of d c'.
Proof.
  intros Hsw j d Heff Hd Hin Hst Hmax Hg Hm.
  apply (rb_phase s next 1 c (fun x g => u32 (max_brightness_of x c - 1) <? g));
    try assumption.
  - intros x g Hx Hxg Hr Hxm. rewrite (Hsw x Hx).
    destruct (rb_up_spec x c next g Hxg) as (_ & Hb & Ho & Hn); [lia|].
    split; [exact Hb|]. split; [exact Ho|]. now rewrite Hn, Hx.
  - lia.
  - lia.
  - intros x g (Hxm & _) Hgr. rewrite Hxm, u32_small by (specialize (Hmax c); lia).
    destruct (Z.ltb_spec (max_brightness_of d c - 1) g);
      destruct (Z.eqb_spec g (max_brightness_of d c)); lia || reflexivity.
  - now left.
Qed.

Lemma rb_phase_down (s next : Z) (c : rgbw_colors) :
  (forall x, bstate (acts x) = s -> rb_switch x = rb_down c next x) ->
  forall (j : nat) (d : rgbw_device),
    effect_on d RGBW_RB_ON = true -> drivable d -> brightness_in_range d ->
    bstate (acts d) = s ->
    (forall c', max_brightness_of d c' < 2 ^ 32) ->
    brightness_of d c = Z.of_nat (S j) ->
    exists l d',
      restarts (rgbw_rb_hrtimer_callback RGBW_RB_ON PULSE_VALUE_PER_NS) (S j) d l d'
      /\ same_setup d d'
      /\ bstate (acts d') = next
      /\ brightness_of d' c = 0
      /\ (forall c', c' <> c -> brightness_of d' c' = brightness_of d c')
      /\ brightness_in_range d'
      /\ forall x, In x l ->
           brightness_in_range (fst x)
           /\ forall c', c' <> c -> brightness_of (fst x) c' = brightness_of d c'.
Proof.
  intros Hsw j d Heff Hd Hin Hst Hmax Hg.
  pose proof (Hin c) as Hc.
  apply (rb_phase s next (-1) c (fun x g => g <? 1)); try assumption.
  - intros x g Hx Hxg Hr Hxm. rewrite (Hsw x Hx).
    destruct (rb_down_spec x c next g Hxg) as (_ & Hb & Ho & Hn); [lia|].
    split; [rewrite Hb; lia|]. split; [exact Ho|].
    rewrite Hn, Hx. now replace (g + -1) with (g - 1) by lia.
  - lia.
  - lia.
  - intros x g _ Hgr.
    destruct (Z.ltb_spec g 1); destruct (Z.eqb_spec g 0); lia || reflexivity.
  - now right.
Qed.

(** X6.  The rainbow wheel.  With the rainbow bit set, the step at 0, Red
    at its [max_brightness], Green and Blue at 0, White anywhere in its
    range, every [max_brightness] at least 1 (for Red, Green, Blue) and
    below [2^32], and channels that can be driven over their whole range:
    the callback asks for a restart at each of the next
    [2 * (maxR + maxG + maxB)] firings, after which the step is 0 again and
    every brightness is what it was at the start.  Along the way every
    brightness stays within [0, max_brightness] and White is never
    changed. *)
Theorem rainbow_full_turn (d : rgbw_device) (nR nG nB : nat) :
  effect_on d RGBW_RB_ON = true ->
  drivable d ->
  bstate (acts d) = 0 ->
  (forall c, max_brightness_of d c < 2 ^ 32) ->
  max_brightness_of d COLOR_RED = Z.of_nat (S nR) ->
  max_brightness_of d COLOR_GREEN = Z.of_nat (S nG) ->
  max_brightness_of d COLOR_BLUE = Z.of_nat (S nB) ->
  brightness_of d COLOR_RED = max_brightness_of d COLOR_RED ->
  brightness_of d COLOR_GREEN = 0 ->
  brightness_of d COLOR_BLUE = 0 ->
  0 <= brightness_of d COLOR_WHITE <= max_brightness_of d COLOR_WHITE ->
  exists l d',
    fire (rgbw_rb_hrtimer_callback RGBW_RB_ON PULSE_VALUE_PER_NS)
         (S nG + (S nR + (S nB + (S nG + (S nR + S nB))))) d = Done (l, d')
    /\ length l = (S nG + (S nR + (S nB + (S nG + (S nR + S nB)))))%nat
    /\ bstate (acts d') = 0
    /\ (forall c, brightness_of d' c = brightness_of d c)
    /\ forall x, In x l ->
         brightness_in_range (fst x)
         /\ brightness_of (fst x) COLOR_WHITE = brightness_of d COLOR_WHITE.
Proof.
  intros Heff Hd Hst Hmax HmR HmG HmB HR HG HB HW.
  assert (brightness_in_range d) as Hin.
  { intros c. destruct c; [rewrite HR | rewrite HG | rewrite HB | exact HW]; lia. }
  assert (forall x, same_setup d x ->
            effect_on x RGBW_RB_ON = true /\ drivable x
            /\ (forall c, max_brightness_of x c < 2 ^ 32)
            /\ forall c, max_brightness_of x c = max_brightness_of d c) as Hkeep.
  { intros x Hx. split; [now rewrite (effect_on_setup d x) by exact Hx|].
    split; [now apply (drivable_setup d)|].
    destruct Hx as (Hm & _). split; [intros c; rewrite Hm; apply Hmax | exact Hm]. }
  (* step 0: Green rises *)
  destruct (rb_phase_up 0 1 COLOR_GREEN) with (j := nG) (d := d)
    as (l1 & d1 & R1 & S1 & T1 & B1 & O1 & I1 & L1); try assumption.
  { intros x Hx. unfold rb_switch. now rewrite Hx. }
  destruct (Hkeep d1 S1) as (E1 & D1 & M1 & Q1).
  (* step 1: Red falls *)
  destruct (rb_phase_down 1 2 COLOR_RED) with (j := nR) (d := d1)
    as (l2 & d2 & R2 & S2 & T2 & B2 & O2 & I2 & L2); try assumption.
  { intros x Hx. unfold rb_switch. now rewrite Hx. }
  { rewrite O1 by discriminate. now rewrite HR. }
  assert (same_setup d d2) as S02 by (eapply same_setup_trans; eassumption).
  destruct (Hkeep d2 S02) as (E2 & D2 & M2 & Q2).
  (* step 2: Blue rises *)
  destruct (rb_phase_up 2 3 COLOR_BLUE) with (j := nB) (d := d2)
    as (l3 & d3 & R3 & S3 & T3 & B3 & O3 & I3 & L3); try assumption.
  { intros x Hx. unfold rb_switch. now rewrite Hx. }
  { rewrite O2, O1 by discriminate. exact HB. }
  { now rewrite Q2. }
  assert (same_setup d d3) as S03 by (eapply same_setup_trans; eassumption).
  destruct (Hkeep d3 S03) as (E3 & D3 & M3 & Q3).
  (* step 3: Green falls *)
  destruct (rb_phase_down 3 4 COLOR_GREEN) with (j := nG) (d := d3)
    as (l4 & d4 & R4 & S4 & T4 & B4 & O4 & I4 & L4); try assumption.
  { intros x Hx. unfold rb_switch. now rewrite Hx. }
  { rewrite O3, O2 by discriminate. now rewrite B1. }
  assert (same_setup d d4) as S04 by (eapply same_setup_trans; eassumption).
  destruct (Hkeep d4 S04) as (E4 & D4 & M4 & Q4).
  (* step 4: Red rises *)
  destruct (rb_phase_up 4 5 COLOR_RED) with (j := nR) (d := d4)
    as (l5 & d5 & R5 & S5 & T5 & B5 & O5 & I5 & L5); try assumption.
  { intros x Hx. unfold rb_switch. now rewrite Hx. }
  { rewrite O4, O3 by discriminate. exact B2. }
  { now rewrite Q4. }
  assert (same_setup d d5) as S05 by (eapply same_setup_trans; eassumption).
  destruct (Hkeep d5 S05) as (E5 & D5 & M5 & Q5).
  (* step 5: Blue falls *)
  destruct (rb_phase_down 5 0 COLOR_BLUE) with (j := nB) (d := d5)
    as (l6 & d6 & R6 & S6 & T6 & B6 & O6 & I6 & L6); try assumption.
  { intros x Hx. unfold rb_switch. now rewrite Hx. }
  { rewrite O5, O4 by discriminate. rewrite B3, Q2. exact HmB. }
  pose proof (restarts_app _ _ _ _ _ _ _ _ R5 R6) as R56.
  pose proof (restarts_app _ _ _ _ _ _ _ _ R4 R56) as R46.
  pose proof (restarts_app _ _ _ _ _ _ _ _ R3 R46) as R36.
  pose proof (restarts_app _ _ _ _ _ _ _ _ R2 R36) as R26.
  pose proof (restarts_app _ _ _ _ _ _ _ _ R1 R26) as R16.
  apply restarts_fire in R16. destruct R16 as (Efire & Hlen).
  exists (l1 ++ l2 ++ l3 ++ l4 ++ l5 ++ l6), d6.
  split; [exact Efire|]. split; [exact Hlen|]. split; [exact T6|].
  assert (brightness_of d1 COLOR_WHITE = brightness_of d COLOR_WHITE) as W1
    by (apply O1; discriminate).
  assert (brightness_of d2 COLOR_WHITE = brightness_of d COLOR_WHITE) as W2
    by (rewrite O2 by discriminate; exact W1).
  assert (brightness_of d3 COLOR_WHITE = brightness_of d COLOR_WHITE) as W3
    by (rewrite O3 by discriminate; exact W2).
  assert (brightness_of d4 COLOR_WHITE = brightness_of d COLOR_WHITE) as W4
    by (rewrite O4 by discriminate; exact W3).
  assert (brightness_of d5 COLOR_WHITE = brightness_of d COLOR_WHITE) as W5
    by (rewrite O5 by discriminate; exact W4).
  split.
  - intros c. destruct c.
    + rewrite O6 by discriminate. rewrite B5, Q4. now rewrite HR.
    + rewrite O6, O5 by discriminate. rewrite B4. now rewrite HG.
    + rewrite B6. now rewrite HB.
    + rewrite O6 by discriminate. exact W5.
  - intros x Hx.
    repeat (apply in_app_or in Hx; destruct Hx as [Hx | Hx]).
    + destruct (L1 x Hx) as (Hr & Ho). split; [exact Hr|]. apply Ho. discriminate.
    + destruct (L2 x Hx) as (Hr & Ho). split; [exact Hr|].
      rewrite Ho by discriminate. exact W1.
    + destruct (L3 x Hx) as (Hr & Ho). split; [exact Hr|].
      rewrite Ho by discriminate. exact W2.
    + destruct (L4 x Hx) as (Hr & Ho). split; [exact Hr|].
      rewrite Ho by discriminate. exact W3.
    + destruct (L5 x Hx) as (Hr & Ho). split; [exact Hr|].
      rewrite Ho by discriminate. exact W4.
    + destruct (L6 x Hx) as (Hr & Ho). split; [exact Hr|].
      rewrite Ho by discriminate. exact W5.
Qed.

End WheelFacts.

(** ** Rainbow, from a step outside the wheel *)

Section WheelResetFacts.

Variables RGBW_RB_ON PULSE_VALUE_PER_NS : Z.

(** X7.  A rainbow firing that finds a step outside 0..5 puts the wheel at
    its start: Red at its [max_brightness], Green, Blue and White at 0,
    step 0; it asks for a restart like any other firing. *)
Theorem rainbow_reset (d : rgbw_device) :
  effect_on d RGBW_RB_ON = true ->
  ~ 0 <= s32 (bstate (acts d)) <= 5 ->
  (forall c, mapper_ready d c
               (match c with
                | COLOR_RED => max_brightness_of d COLOR_RED
                | _ => 0
                end) = true) ->
  exists d1 t,
    rgbw_rb_hrtimer_callback RGBW_RB_ON PULSE_VALUE_PER_NS d
    = Done (HRTIMER_RESTART, d1, t ++ [Ev_hrtimer_forward PULSE_VALUE_PER_NS])
    /\ bstate (acts d1) = 0
    /\ brightness_of d1 COLOR_RED = max_brightness_of d COLOR_RED
    /\ brightness_of d1 COLOR_GREEN = 0
    /\ brightness_of d1 COLOR_BLUE = 0
    /\ brightness_of d1 COLOR_WHITE = 0.
Proof.
  intros Heff Hout Hready.
  assert (rb_switch d = rb_default d) as Hsw.
  { destruct (rb_switch_cases d)
      as [(Hs & _) | [(Hs & _) | [(Hs & _) | [(Hs & _) | [(Hs & _) | [(Hs & _) | H]]]]]];
      try (exfalso; apply Hout; rewrite Hs; lia). exact H. }
  assert (forall c, brightness_of (rb_default d) c
                    = match c with
                      | COLOR_RED => max_brightness_of d COLOR_RED
                      | _ => 0
                      end) as Hdef by (intros c; now destruct c).
  destruct (rb_tick RGBW_RB_ON PULSE_VALUE_PER_NS d Heff)
    as (d1 & t & E & _ & Hb & Hst).
  - intros c. rewrite Hsw, Hdef. apply Hready.
  - apply rb_switch_setup.
  - exists d1, t. split; [exact E|].
    rewrite Hst, !Hb, Hsw, !Hdef. repeat split.
Qed.

End WheelResetFacts.

(** ** The all-channel update, run and run again *)

Lemma duty_cycle_of_done_ok (pb : pwm_rgbw_data) (b max duty : Z) :
  duty_cycle_of pb b max = Done duty -> mapper_ok pb b max = true.
Proof.
  unfold duty_cycle_of, mapper_ok, table_read.
  destruct (levels pb) as [l|].
  - destruct ((0 <=? b) && (b <? Z.of_nat (length l))); [|discriminate].
    destruct (u32 max =? 0); [discriminate|reflexivity].
  - destruct (u32 max =? 0); [discriminate|reflexivity].
Qed.

Lemma channel_update_done_ok (c : rgbw_colors) (b max : Z) pb u pb' t :
  channel_update c b max pb = Done (u, pb', t) -> chan_ok pb c b max = true.
Proof.
  unfold channel_update, chan_ok.
  unfold bind at 1. cbn [get]. unfold bind at 1.
  destruct (is_pwm (cell (types pb) c)); [|reflexivity].
  destruct (b =? 0); [reflexivity|].
  cbn [negb orb]. unfold bind at 1, lift_outcome.
  destruct (duty_cycle_of pb b max) as [duty|f] eqn:Ed; [|discriminate].
  intros _. eapply duty_cycle_of_done_ok; exact Ed.
Qed.

Lemma update_loop_done_ok (fb fm : rgbw_colors -> Z) (cs : list rgbw_colors) :
  forall pb u pb' t,
    for_each cs (fun x => channel_update x (fb x) (fm x)) pb = Done (u, pb', t) ->
    forall x, In x cs -> chan_ok pb x (fb x) (fm x) = true.
Proof.
  induction cs as [|y cs IH]; intros pb u pb' t H x Hx; [destruct Hx|].
  cbn [for_each] in H. apply bind_done in H.
  destruct H as (a & s1 & t1 & t2 & H1 & H2 & _).
  destruct Hx as [<- | Hx].
  - eapply channel_update_done_ok; exact H1.
  - rewrite <- (chan_ok_config pb s1) by (eapply channel_update_frame; exact H1).
    eapply IH; eassumption.
Qed.

Lemma in_all_colors (c : rgbw_colors) : In c all_colors.
Proof. destruct c; cbn; tauto. Qed.

Lemma update_done_ready (d : rgbw_device) r d' t :
  rgbw_color_update d = Done (r, d', t) ->
  forall c, mapper_ready d c (brightness_of d c) = true.
Proof.
  unfold rgbw_color_update. intros H c.
  apply bind_done in H. destruct H as (x & s1 & t1 & t2 & Hget & H & _).
  inversion Hget; subst x s1 t1; clear Hget.
  apply bind_done in H. destruct H as (x & s1 & t1 & t3 & H1 & _ & _).
  apply on_data_done in H1. destruct H1 as (pb' & H1 & _).
  apply bind_done in H1. destruct H1 as (y & pb1 & u1 & u2 & Hloop & _ & _).
  pose proof (update_loop_done_ok _ _ _ _ _ _ _ Hloop c (in_all_colors c)) as Hok.
  rewrite !cell_map_cells in Hok. exact Hok.
Qed.

Lemma update_fault_kind (d : rgbw_device) (f : fault) :
  rgbw_color_update d = Fault f -> f = DivByZero \/ f = OutOfBounds Arr_levels.
Proof.
  unfold rgbw_color_update. intros H.
  apply bind_fault in H. destruct H as [H | (x & s1 & t1 & Hget & H)]; [discriminate|].
  inversion Hget; subst x s1 t1; clear Hget.
  apply bind_fault in H. destruct H as [H | (x & s1 & t1 & _ & H)]; [|discriminate].
  unfold on_data in H.
  match type of H with
  | match ?m ?s with _ => _ end = _ => destruct (m s) as [[[y pb'] t']|f'] eqn:Em
  end; [discriminate|].
  inversion H; subst f'; clear H.
  apply bind_fault in Em. destruct Em as [Em | (x & s1 & t1 & _ & Em)].
  - revert Em. generalize (rgbw_get_data d) at 2.
    induction all_colors as [|c cs IH]; intros pb Em; [discriminate|].
    cbn [for_each] in Em. apply bind_fault in Em.
    destruct Em as [Em | (x & s1 & t1 & _ & Em)].
    + apply channel_update_fault, duty_cycle_of_fault in Em. exact Em.
    + eapply IH; exact Em.
  - match type of Em with
    | for_each ?cs (fun c => call_notify_after ?p (?g c)) ?s = _ =>
        destruct (notify_loop_spec p s g cs) as (tn & En)
    end.
    rewrite En in Em. discriminate.
Qed.

(** X8.  When the all-channel update returns and when it faults.  It
    returns exactly when every channel can be driven at its brightness: for
    each hardware-PWM channel whose brightness after [notify] is not 0, the
    [max_brightness] is not 0 and, with a levels table, that brightness is an
    index of the table.  Otherwise it faults, on the division or on the
    read of [levels]; it has no other fault and no error return. *)
Theorem update_returns_iff_ready (d : rgbw_device) :
  ((exists d' t, rgbw_color_update d = Done (0, d', t))
   <-> forall c, mapper_ready d c (brightness_of d c) = true)
  /\ (forall r d' t, rgbw_color_update d = Done (r, d', t) -> r = 0)
  /\ (forall f, rgbw_color_update d = Fault f ->
                f = DivByZero \/ f = OutOfBounds Arr_levels).
Proof.
  split; [split|split].
  - intros (d' & t & E). eapply update_done_ready; exact E.
  - intros Hready.
    destruct (rgbw_color_update_total d Hready) as (d' & t & E & _). eauto.
  - intros r d' t E. now apply rgbw_color_update_frame in E.
  - apply update_fault_kind.
Qed.

Lemma hrtimer_start_soft_armed (c : rgbw_colors) (ns : Z) pb u pb' t :
  hrtimer_start_soft c ns pb = Done (u, pb', t) ->
  hrtimer_active (pwm_timer (cell (soft_pwm pb') c)) = true
  /\ forall x, hrtimer_active (pwm_timer (cell (soft_pwm pb) x)) = true ->
               hrtimer_active (pwm_timer (cell (soft_pwm pb') x)) = true.
Proof.
  unfold hrtimer_start_soft, bind, get, put, emit. intros H. inversion H; subst.
  cbn [soft_pwm]. split.
  - now rewrite cell_set_cell_same.
  - intros x Hx. destruct (color_neq_dec x c) as [->|Hne].
    + now rewrite cell_set_cell_same.
    + now rewrite cell_set_cell_other.
Qed.

Lemma channel_update_armed (c : rgbw_colors) (b max : Z) pb u pb' t :
  channel_update c b max pb = Done (u, pb', t) ->
  (is_gpio (cell (types pb) c) = true ->
   hrtimer_active (pwm_timer (cell (soft_pwm pb') c)) = true)
  /\ forall x, hrtimer_active (pwm_timer (cell (soft_pwm pb) x)) = true ->
               hrtimer_active (pwm_timer (cell (soft_pwm pb') x)) = true.
Proof.
  unfold channel_update. intros H.
  apply bind_done in H. destruct H as (x & s1 & t1 & t2 & Hget & H & _).
  inversion Hget; subst x s1 t1; clear Hget.
  apply bind_done in H. destruct H as (x & s1 & t1 & t3 & H1 & H2 & _).
  assert (s1 = pb) as ->.
  { unfold bind, emit, ret, lift_outcome in H1.
    destruct (is_pwm (cell (types pb) c)); [|now inversion H1].
    destruct (b =? 0); [now inversion H1|].
    destruct (duty_cycle_of pb b max); now inversion H1. }
  destruct (is_gpio (cell (types pb) c)) eqn:Hg; cbn [andb] in H2.
  - destruct (hrtimer_active (pwm_timer (cell (soft_pwm pb) c))) eqn:Ha; cbn [negb] in H2.
    + unfold ret in H2. inversion H2; subst. split; [now intros _ | now intros z Hz].
    + apply hrtimer_start_soft_armed in H2. destruct H2 as (Hc & Hmono).
      split; [now intros _ | exact Hmono].
  - unfold ret in H2. inversion H2; subst. split; [discriminate | now intros z Hz].
Qed.

Lemma channel_update_noop (c : rgbw_colors) (b max : Z) pb u pb' t :
  all_armed pb ->
  channel_update c b max pb = Done (u, pb', t) ->
  pb' = pb /\ forall x ns, ~ In (Ev_hrtimer_start x ns) t.
Proof.
  intros Harmed. unfold channel_update.
  assert (is_gpio (cell (types pb) c)
          && negb (hrtimer_active (pwm_timer (cell (soft_pwm pb) c))) = false) as Hno.
  { destruct (is_gpio (cell (types pb) c)) eqn:Hg; [|reflexivity].
    now rewrite (Harmed c Hg). }
  unfold bind, get, emit, ret, lift_outcome. rewrite Hno.
  destruct (is_pwm (cell (types pb) c)).
  - destruct (b =? 0).
    + intros H; inversion H; subst. split; [reflexivity|].
      intros x ns Hin. cbn in Hin. intuition discriminate.
    + destruct (duty_cycle_of pb b max); [|discriminate].
      intros H; inversion H; subst. split; [reflexivity|].
      intros x ns Hin. cbn in Hin. intuition discriminate.
  - intros H; inversion H; subst. split; [reflexivity|]. intros x ns [].
Qed.

Lemma update_loop_noop (fb fm : rgbw_colors -> Z) (cs : list rgbw_colors) :
  forall pb u pb' t,
    all_armed pb ->
    for_each cs (fun x => channel_update x (fb x) (fm x)) pb = Done (u, pb', t) ->
    pb' = pb /\ forall x ns, ~ In (Ev_hrtimer_start x ns) t.
Proof.
  induction cs as [|y cs IH]; intros pb u pb' t Harmed H.
  - inversion H; subst. split; [reflexivity | intros x ns []].
  - cbn [for_each] in H. apply bind_done in H.
    destruct H as (a & s1 & t1 & t2 & H1 & H2 & ->).
    destruct (channel_update_noop _ _ _ _ _ _ _ Harmed H1) as (-> & Hn1).
    destruct (IH _ _ _ _ Harmed H2) as (-> & Hn2).
    split; [reflexivity|]. intros x ns Hin. apply in_app_or in Hin.
    destruct Hin as [Hin|Hin]; [now apply (Hn1 x ns) | now apply (Hn2 x ns)].
Qed.

Lemma update_loop_arms (fb fm : rgbw_colors -> Z) (cs : list rgbw_colors) :
  forall pb u pb' t,
    for_each cs (fun x => channel_update x (fb x) (fm x)) pb = Done (u, pb', t) ->
    (forall x, In x cs -> is_gpio (cell (types pb) x) = true ->
               hrtimer_active (pwm_timer (cell (soft_pwm pb') x)) = true)
    /\ forall x, hrtimer_active (pwm_timer (cell (soft_pwm pb) x)) = true ->
                 hrtimer_active (pwm_timer (cell (soft_pwm pb') x)) = true.
Proof.
  induction cs as [|y cs IH]; intros pb u pb' t H.
  - inversion H; subst. split; [intros x [] | now intros x Hx].
  - cbn [for_each] in H. apply bind_done in H.
    destruct H as (a & s1 & t1 & t2 & H1 & H2 & _).
    pose proof (channel_update_frame _ _ _ _ _ _ _ H1) as (Ht & _).
    destruct (channel_update_armed _ _ _ _ _ _ _ H1) as (Hy & Hmono1).
    destruct (IH _ _ _ _ H2) as (Hrest & Hmono2).
    split; [|intros x Hx; apply Hmono2, Hmono1, Hx].
    intros x [<- | Hx] Hg.
    + apply Hmono2, Hy, Hg.
    + apply Hrest; [exact Hx | now rewrite <- Ht].
Qed.

Lemma notify_loop_events (pb0 : pwm_rgbw_data) (f : rgbw_colors -> Z)
  (cs : list rgbw_colors) :
  forall pb u pb' t,
    for_each cs (fun x => call_notify_after pb0 (f x)) pb = Done (u, pb', t) ->
    pb' = pb /\ forall e, In e t -> exists b, e = Ev_notify_after b.
Proof.
  induction cs as [|y cs IH]; intros pb u pb' t H.
  - inversion H; subst. split; [reflexivity | intros e []].
  - cbn [for_each] in H. apply bind_done in H.
    destruct H as (a & s1 & t1 & t2 & H1 & H2 & ->).
    destruct (IH _ _ _ _ H2) as (-> & He2).
    unfold call_notify_after, emit, ret in H1.
    destruct (notify_after pb0); inversion H1; subst;
      (split; [reflexivity|]); intros e Hin; cbn in Hin.
    + destruct Hin as [<- | Hin]; [eauto | now apply He2].
    + now apply He2.
Qed.

Lemma with_data_same (d : rgbw_device) : with_data d (data d) = d.
Proof. now destruct d. Qed.

Lemma update_done_parts (d : rgbw_device) r d' t :
  rgbw_color_update d = Done (r, d', t) ->
  exists fb fm pb1 u1 u2,
    for_each all_colors (fun c => channel_update c (fb c) (fm c)) (data d)
    = Done (tt, pb1, u1)
    /\ d' = with_data d pb1 /\ t = u1 ++ u2
    /\ forall e, In e u2 -> exists b, e = Ev_notify_after b.
Proof.
  unfold rgbw_color_update. intros H.
  apply bind_done in H. destruct H as (x & s1 & t1 & t2 & Hget & H & ->).
  inversion Hget; subst x s1 t1; clear Hget.
  apply bind_done in H. destruct H as (x & s1 & t1 & t3 & H1 & H2 & ->).
  inversion H2; subst r d' t3; clear H2.
  apply on_data_done in H1. destruct H1 as (pb' & H1 & ->).
  apply bind_done in H1. destruct H1 as (y & pb1 & u1 & u2 & Hloop & Hn & ->).
  destruct (notify_loop_events _ _ _ _ _ _ _ Hn) as (-> & He).
  destruct y. unfold rgbw_get_data in Hloop.
  eexists. eexists. exists pb1, u1, u2.
  split; [exact Hloop|]. split; [reflexivity|]. split; [|exact He].
  cbn [app]. now rewrite app_nil_r.
Qed.

(** X9.  The all-channel update is idempotent.  If it returns, every GPIO
    channel's soft-PWM timer is active afterwards; run again at once it
    returns, leaves the device exactly as it is, starts no timer, and makes
    the same calls to the PWM core, channel by channel. *)
Theorem update_twice (d : rgbw_device) r d1 t1 :
  rgbw_color_update d = Done (r, d1, t1) ->
  all_armed (data d1)
  /\ exists t2,
      rgbw_color_update d1 = Done (0, d1, t2)
      /\ (forall c ns, ~ In (Ev_hrtimer_start c ns) t2)
      /\ forall c pin,
           filter (drives_output c pin) t2 = filter (drives_output c pin) t1.
Proof.
  intros E1.
  pose proof (rgbw_color_update_frame d r d1 t1 E1) as (_ & Hp & Ha & Hc).
  assert (all_armed (data d1)) as Harmed.
  { destruct (update_done_parts d r d1 t1 E1)
      as (fb & fm & pb1 & u1 & u2 & Hloop & -> & _ & _).
    destruct (update_loop_arms _ _ _ _ _ _ _ Hloop) as (Hall & _).
    intros c Hg. cbn [data with_data] in *.
    apply Hall; [apply in_all_colors|].
    destruct Hc as (Ht & _). cbn [data with_data] in Ht. now rewrite Ht. }
  split; [exact Harmed|].
  assert (same_setup d d1) as Hs by now apply setup_of_frame.
  assert (forall c, brightness_of d1 c = brightness_of d c) as Hb
    by (intros c; unfold brightness_of; now rewrite Hp).
  destruct (rgbw_color_update_total d1) as (d2 & t2 & E2 & _).
  { intros c. rewrite (mapper_ready_setup d d1) by exact Hs. rewrite Hb.
    eapply update_done_ready; exact E1. }
  destruct (update_done_parts d1 0 d2 t2 E2)
    as (fb & fm & pb2 & u1 & u2 & Hloop & Hd2 & Ht2 & Hnot).
  destruct (update_loop_noop _ _ _ _ _ _ _ Harmed Hloop) as (-> & Hno).
  rewrite with_data_same in Hd2. subst d2.
  exists t2. split; [exact E2|]. split.
  - intros c ns Hin. rewrite Ht2 in Hin. apply in_app_or in Hin.
    destruct Hin as [Hin | Hin]; [now apply (Hno c ns)|].
    destruct (Hnot _ Hin) as (b & Hb'). discriminate Hb'.
  - intros c pin.
    rewrite (rgbw_color_update_calls d1 c pin _ _ _ E2).
    rewrite (rgbw_color_update_calls d c pin _ _ _ E1).
    rewrite (pwm_calls_config (data d) (data d1)) by exact Hc.
    destruct Hs as (Hm & _). rewrite Hb, Hm.
    destruct Hc as (_ & _ & _ & _ & Hn & _). unfold apply_notify. now rewrite Hn.
Qed.

(** ** The single-channel update *)

Lemma color_of_index_high (i : Z) : MAX_COLORS <= i -> color_of_index i = None.
Proof.
  unfold MAX_COLORS, color_of_index. intros Hi.
  destruct i as [|p|p]; try lia.
  destruct p as [[p|p|]|[p|p|]|]; try reflexivity; lia.
Qed.

Lemma channel_update_local (c c' : rgbw_colors) (b max : Z) pb u pb' t :
  c' <> c ->
  channel_update c b max pb = Done (u, pb', t) ->
  cell (soft_pwm pb') c' = cell (soft_pwm pb) c'
  /\ forall ns, ~ In (Ev_hrtimer_start c' ns) t.
Proof.
  intros Hne. unfold channel_update.
  unfold bind, get, emit, ret, lift_outcome, hrtimer_start_soft, put.
  destruct (is_pwm (cell (types pb) c)).
  - destruct (b =? 0).
    + destruct (is_gpio _ && negb _); intros H; inversion H; subst; cbn [soft_pwm];
        (split; [try reflexivity; now apply cell_set_cell_other|]);
        intros ns Hin; cbn in Hin;
        repeat (destruct Hin as [Hin|Hin]; [inversion Hin; subst; now apply Hne|]);
        intuition discriminate.
    + destruct (duty_cycle_of pb b max); [|discriminate].
      destruct (is_gpio _ && negb _); intros H; inversion H; subst; cbn [soft_pwm];
        (split; [try reflexivity; now apply cell_set_cell_other|]);
        intros ns Hin; cbn in Hin;
        repeat (destruct Hin as [Hin|Hin]; [inversion Hin; subst; now apply Hne|]);
        intuition discriminate.
  - destruct (is_gpio _ && negb _); intros H; inversion H; subst; cbn [soft_pwm];
      (split; [try reflexivity; now apply cell_set_cell_other|]);
      intros ns Hin; cbn in Hin;
      repeat (destruct Hin as [Hin|Hin]; [inversion Hin; subst; now apply Hne|]);
      intuition discriminate.
Qed.

(** X10.  The single-channel update is local.  Called with an index at or
    above [MAX_COLORS] it returns [-EINVAL] and does nothing.  Called for
    channel [c] it returns 0, and for every other channel it makes no call
    to the PWM core, writes no pin, starts no timer and leaves the soft-PWM
    cell as it was; brightnesses and effect state are not written. *)
Theorem pulse_update_is_local (d : rgbw_device) (i : Z) r d' t :
  pulse_color_update i d = Done (r, d', t) ->
  (MAX_COLORS <= i -> r = - EINVAL /\ d' = d /\ t = [])
  /\ (forall c, color_of_index i = Some c ->
        r = 0
        /\ forall c', c' <> c ->
             (forall pin, filter (drives_output c' pin) t = [])
             /\ (forall ns, ~ In (Ev_hrtimer_start c' ns) t)
             /\ cell (soft_pwm (data d')) c' = cell (soft_pwm (data d)) c')
  /\ props d' = props d /\ acts d' = acts d.
Proof.
  intros H.
  pose proof (pulse_color_update_frame d i r d' t H) as (Hp & Ha & _).
  split; [|split; [|now split]].
  - intros Hi. unfold pulse_color_update in H.
    rewrite (color_of_index_high i Hi) in H.
    unfold bind, get, ret in H.
    destruct (Z.leb_spec MAX_COLORS i); [|lia].
    inversion H; subst. now repeat split.
  - intros c Hc. unfold pulse_color_update in H. rewrite Hc in H.
    apply bind_done in H. destruct H as (x & s1 & t1 & t2 & Hget & H & ->).
    inversion Hget; subst x s1 t1; clear Hget.
    apply bind_done in H. destruct H as (x & s1 & t1 & t3 & H1 & H2 & ->).
    inversion H2; subst r d' t3; clear H2.
    apply on_data_done in H1. destruct H1 as (pb' & H1 & ->).
    apply bind_done in H1. destruct H1 as (y & pb1 & u1 & u2 & Hup & Hn & ->).
    split; [reflexivity|]. intros c' Hne.
    destruct (channel_update_local c c' _ _ _ _ _ _ Hne Hup) as (Hcell & Hno).
    assert (pb' = pb1 /\ forall e, In e u2 -> exists b, e = Ev_notify_after b)
      as (-> & He).
    { unfold call_notify_after, emit, ret in Hn.
      destruct (notify_after (rgbw_get_data d)); inversion Hn; subst;
        (split; [reflexivity|]); intros e Hin; cbn in Hin.
      - destruct Hin as [<- | []]. eauto.
      - destruct Hin. }
    split; [|split; [|exact Hcell]].
    + intros pin. cbn [app]. rewrite app_nil_r, filter_app.
      rewrite (channel_update_calls c' c pin _ _ _ _ _ _ Hup).
      rewrite (call_notify_after_quiet c' pin _ _ _ _ _ _ Hn).
      destruct (color_index c =? color_index c') eqn:Ecc; [|reflexivity].
      apply color_index_eqb in Ecc. now contradiction Hne.
    + intros ns Hin. cbn [app] in Hin. rewrite app_nil_r in Hin.
      apply in_app_or in Hin. destruct Hin as [Hin|Hin]; [now apply (Hno ns)|].
      destruct (He _ Hin) as (b & Hb). discriminate Hb.
Qed.

(** ** Initialisation, continued *)

Lemma nth_pred_length (A : Type) (l : list A) (a : A) :
  l <> [] -> nth (length l - 1) l a = last l a.
Proof.
  induction l as [|x l IH]; [congruence|]. intros _.
  destruct l as [|y l]; [reflexivity|].
  specialize (IH ltac:(discriminate)).
  replace (length (x :: y :: l) - 1)%nat with (S (length (y :: l) - 1))
    by (cbn [length]; lia).
  change (last (x :: y :: l) a) with (last (y :: l) a).
  cbn [nth]. exact IH.
Qed.

(** X11.  What [rgbw_parse_dt] returns.  Its error codes are [-ENODEV]
    (no node), [-EINVAL] (no [brightness-levels] property), [-ENOMEM] (a
    non-empty property and no memory for the table) and whatever negative
    value [of_property_read_u32_array] returned; the last two only for a
    non-empty property.  When it succeeds on a property of fewer than
    [2^29] cells, either the property is empty, and then [max_brightness]
    is 0 and there is no levels table, or the read did not fail, the table
    holds exactly the cells of the property, [max_brightness] is their
    number minus one, and the entry the probe reads next,
    [levels[max_brightness]], exists and is the last cell.  No hook is ever
    set. *)
Theorem parse_dt_outcomes (e : probe_env) :
  (forall err, rgbw_parse_dt e = inl err ->
     (err = - ENODEV /\ of_node_present e = false)
     \/ (err = - EINVAL /\ brightness_levels e = None)
     \/ (err = - ENOMEM /\ levels_alloc_ok e = false
         /\ exists cells, brightness_levels e = Some cells /\ cells <> [])
     \/ (err = levels_read_ret e /\ err < 0 /\ levels_alloc_ok e = true
         /\ exists cells, brightness_levels e = Some cells /\ cells <> []))
  /\ (forall pdata cells,
        rgbw_parse_dt e = inr pdata ->
        brightness_levels e = Some cells ->
        Z.of_nat (length cells) < 2 ^ 29 ->
        pd_init pdata = None /\ pd_notify pdata = None
        /\ pd_notify_after pdata = false /\ pd_exit pdata = false
        /\ ((cells = [] /\ pd_levels pdata = None /\ pd_max_brightness pdata = 0)
            \/ (cells <> [] /\ 0 <= levels_read_ret e
                /\ pd_levels pdata = Some cells
                /\ pd_max_brightness pdata = Z.of_nat (length cells) - 1
                /\ table_read Arr_levels cells (pd_max_brightness pdata)
                   = Done (last cells 0)))).
Proof.
  unfold rgbw_parse_dt. split.
  - intros err. destruct (of_node_present e); cbn [negb];
      [|intros H; inversion H; now left].
    destruct (brightness_levels e) as [cells|];
      [|intros H; inversion H; right; now left].
    assert ((0 <? u32 (4 * Z.of_nat (length cells) / 4)) = true -> cells <> [])
      as Hne by (destruct cells; [discriminate | discriminate]).
    destruct (0 <? _); [|discriminate].
    specialize (Hne eq_refl).
    destruct (levels_alloc_ok e).
    + cbv zeta. destruct (Z.ltb_spec (levels_read_ret e) 0) as [Hneg|];
        [|discriminate].
      intros H; inversion H; subst err. right; right; right.
      split; [reflexivity|]. split; [exact Hneg|]. split; [reflexivity|].
      now exists cells.
    + intros H; inversion H. right; right; left.
      split; [reflexivity|]. split; [reflexivity|]. now exists cells.
  - intros pdata cells H Hcells Hlen. rewrite Hcells in H.
    destruct (of_node_present e); cbn [negb] in H; [|discriminate].
    replace (4 * Z.of_nat (length cells) / 4) with (Z.of_nat (length cells)) in H
      by (rewrite Z.mul_comm, Z.div_mul; lia).
    rewrite (u32_small (Z.of_nat (length cells))) in H by lia.
    destruct (Z.ltb_spec 0 (Z.of_nat (length cells))) as [Hpos|Hzero].
    + destruct (levels_alloc_ok e); [|discriminate].
      cbv zeta in H.
      destruct (Z.ltb_spec (levels_read_ret e) 0) as [|Hret]; [discriminate|].
      inversion H; subst pdata; clear H. cbn.
      repeat (split; [reflexivity|]). right.
      assert (cells <> []) as Hne by (destruct cells; [cbn in Hpos; lia | discriminate]).
      rewrite (u32_small (Z.of_nat (length cells) - 1)) by lia.
      repeat (split; [assumption || reflexivity|]).
      unfold table_read.
      destruct (Z.leb_spec 0 (Z.of_nat (length cells) - 1)); [|lia].
      destruct (Z.ltb_spec (Z.of_nat (length cells) - 1) (Z.of_nat (length cells)));
        [|lia].
      cbn [andb]. f_equal.
      replace (Z.to_nat (Z.of_nat (length cells) - 1)) with (length cells - 1)%nat
        by lia.
      now apply nth_pred_length.
    + inversion H; subst pdata; clear H. cbn.
      repeat (split; [reflexivity|]). left.
      destruct cells; [now repeat split | cbn in Hzero; lia].
Qed.

(** X12.  What the sanity check accepts.  With counts that are C [int]s,
    let [colours] be the positive PWM count plus the positive GPIO count and
    [names] the positive count of PWM names plus that of GPIO names.
    [rgbw_dt_validation] returns a non-negative value exactly when
    [colours] is 3 or 4 and [names] is 0 or equal to [colours]; the value is
    then 0 without names and [colours] with names.  Every other node gets
    [-ENODATA] (too few colours, or a wrong number of names) or [-EINVAL]
    (too many colours). *)
Theorem dt_validation_outcomes (e : probe_env) (colours names : Z) :
  - 2 ^ 31 <= count_pwms e < 2 ^ 31 -> - 2 ^ 31 <= count_gpios e < 2 ^ 31 ->
  - 2 ^ 31 <= count_pwm_names e < 2 ^ 31 ->
  - 2 ^ 31 <= count_gpio_names e < 2 ^ 31 ->
  colours = Z.max 0 (count_pwms e) + Z.max 0 (count_gpios e) ->
  names = Z.max 0 (count_pwm_names e) + Z.max 0 (count_gpio_names e) ->
  (0 <= rgbw_dt_validation e
   <-> 3 <= colours <= 4 /\ (names = 0 \/ names = colours))
  /\ (0 <= rgbw_dt_validation e ->
      rgbw_dt_validation e = (if names =? 0 then 0 else colours))
  /\ (rgbw_dt_validation e < 0 ->
      (rgbw_dt_validation e = - ENODATA
       /\ (colours < 3 \/ (0 < names /\ names <> colours)))
      \/ (rgbw_dt_validation e = - EINVAL /\ 4 < colours)).
Proof.
  intros Hp Hg Hpn Hgn -> ->. unfold rgbw_dt_validation, ENODATA, EINVAL.
  assert (forall x, (if 0 <? x then x else 0) = Z.max 0 x) as Hmax
    by (intros x; destruct (Z.ltb_spec 0 x); lia).
  rewrite !Hmax.
  rewrite (u32_small (Z.max 0 (count_pwms e))) by lia.
  rewrite (u32_small (Z.max 0 (count_pwm_names e))) by lia.
  rewrite (u32_small (Z.max 0 (count_pwms e) + Z.max 0 (count_gpios e))) by lia.
  rewrite (u32_small (Z.max 0 (count_pwm_names e) + Z.max 0 (count_gpio_names e)))
    by lia.
  set (colours := Z.max 0 (count_pwms e) + Z.max 0 (count_gpios e)).
  set (names := Z.max 0 (count_pwm_names e) + Z.max 0 (count_gpio_names e)).
  destruct (Z.ltb_spec colours 3); [repeat split; intros; lia|].
  destruct (Z.ltb_spec 4 colours); [repeat split; intros; lia|].
  destruct (Z.ltb_spec 0 names).
  - destruct (Z.eqb_spec names colours) as [Heq|Hne]; cbn [negb].
    + rewrite (s32_small colours) by lia.
      destruct (Z.eqb_spec names 0); repeat split; intros; lia.
    + repeat split; intros; lia.
  - destruct (Z.eqb_spec names 0); repeat split; intros; lia.
Qed.

Lemma channel_update_pins (c : rgbw_colors) (b max : Z) pb u pb' t :
  channel_update c b max pb = Done (u, pb', t) ->
  forall x, gpio (cell (soft_pwm pb') x) = gpio (cell (soft_pwm pb) x)
            /\ value (cell (soft_pwm pb') x) = value (cell (soft_pwm pb) x).
Proof.
  unfold channel_update.
  unfold bind, get, emit, ret, lift_outcome, hrtimer_start_soft, put.
  assert (forall x,
            gpio (cell (set_cell (soft_pwm pb) c
                          (mk_soft_pwm (gpio (cell (soft_pwm pb) c))
                             (value (cell (soft_pwm pb) c))
                             (mk_hrtimer true
                                (callback_running (pwm_timer (cell (soft_pwm pb) c))))))
                       x)
            = gpio (cell (soft_pwm pb) x)
            /\ value (cell (set_cell (soft_pwm pb) c
                          (mk_soft_pwm (gpio (cell (soft_pwm pb) c))
                             (value (cell (soft_pwm pb) c))
                             (mk_hrtimer true
                                (callback_running (pwm_timer (cell (soft_pwm pb) c))))))
                         x)
               = value (cell (soft_pwm pb) x)) as Hset.
  { intros x. destruct (color_neq_dec x c) as [->|Hne].
    - now rewrite cell_set_cell_same.
    - now rewrite cell_set_cell_other. }
  destruct (is_pwm (cell (types pb) c)).
  - destruct (b =? 0).
    + destruct (is_gpio _ && negb _); intros H; inversion H; subst; cbn [soft_pwm];
        intros x; [apply Hset | now split].
    + destruct (duty_cycle_of pb b max); [|discriminate].
      destruct (is_gpio _ && negb _); intros H; inversion H; subst; cbn [soft_pwm];
        intros x; [apply Hset | now split].
  - destruct (is_gpio _ && negb _); intros H; inversion H; subst; cbn [soft_pwm];
      intros x; [apply Hset | now split].
Qed.

Lemma update_loop_pins (fb fm : rgbw_colors -> Z) (cs : list rgbw_colors) :
  forall pb u pb' t,
    for_each cs (fun x => channel_update x (fb x) (fm x)) pb = Done (u, pb', t) ->
    forall x, gpio (cell (soft_pwm pb') x) = gpio (cell (soft_pwm pb) x)
              /\ value (cell (soft_pwm pb') x) = value (cell (soft_pwm pb) x).
Proof.
  induction cs as [|y cs IH]; intros pb u pb' t H x.
  - inversion H; subst. now split.
  - cbn [for_each] in H. apply bind_done in H.
    destruct H as (a & s1 & t1 & t2 & H1 & H2 & _).
    destruct (channel_update_pins _ _ _ _ _ _ _ H1 x) as (Hg1 & Hv1).
    destruct (IH _ _ _ _ H2 x) as (Hg2 & Hv2).
    split; congruence.
Qed.

Lemma update_arms_all (d : rgbw_device) r d1 t :
  rgbw_color_update d = Done (r, d1, t) ->
  all_armed (data d1)
  /\ forall x, gpio (cell (soft_pwm (data d1)) x) = gpio (cell (soft_pwm (data d)) x)
               /\ value (cell (soft_pwm (data d1)) x)
                  = value (cell (soft_pwm (data d)) x).
Proof.
  intros E.
  pose proof (rgbw_color_update_frame d r d1 t E) as (_ & _ & _ & Hc).
  destruct (update_done_parts d r d1 t E)
    as (fb & fm & pb1 & u1 & u2 & Hloop & -> & _ & _).
  cbn [data with_data] in *. split.
  - destruct (update_loop_arms _ _ _ _ _ _ _ Hloop) as (Hall & _).
    intros c Hg. apply Hall; [apply in_all_colors|].
    destruct Hc as (Ht & _). now rewrite Ht.
  - apply (update_loop_pins _ _ _ _ _ _ _ Hloop).
Qed.

Lemma validation_small (e : probe_env) :
  0 <= rgbw_dt_validation e -> rgbw_dt_validation e <= 4.
Proof.
  unfold rgbw_dt_validation, ENODATA, EINVAL.
  set (colours := u32 (_ + _)). set (names := u32 (_ + _)).
  pose proof (u32_range colours) as Hr. unfold colours at 1 in Hr.
  destruct (Z.ltb_spec colours 3); [lia|].
  destruct (Z.ltb_spec 4 colours); [lia|].
  destruct (0 <? names); [|lia].
  destruct (negb (names =? colours)); [lia|].
  rewrite (s32_small colours) by lia. lia.
Qed.

Section ProbeFacts.

Variable INVALID_COLOR : Z.
Variable zeroed_type : rgbw_type.

Lemma probe_setup_success (e : probe_env) (pdata : platform_rgbw_data)
  (n ret r : Z) (dev : rgbw_device) (t : list hw_event) :
  probe_setup INVALID_COLOR zeroed_type e pdata n ret = Probe_return r (Some (dev, t)) ->
  exists a max r0,
    probe_acquire zeroed_type e n ret = Acq_ok a
    /\ (match pd_levels pdata with
        | Some l => table_read Arr_levels l (pd_max_brightness pdata)
        | None => Done (pd_max_brightness pdata)
        end) = Done max
    /\ u32 max <> 0
    /\ r = 0
    /\ rgbw_color_update
         (mk_dev (map_cells (fun ty => mk_props 0 (pd_max_brightness pdata) 0 ty)
                            (acq_types a))
                 (mk_acts 0 INVALID_COLOR INVALID_COLOR (mk_per_color 0 0 0 0))
                 (mk_pb (map_cells
                           (fun pin => mk_soft_pwm pin 0 (mk_hrtimer false false))
                           (acq_pins a))
                        (acq_types a) (probe_period e (acq_types a))
                        (probe_period e (acq_types a) / u32 max)
                        (pd_levels pdata) (pd_notify pdata) (pd_notify_after pdata)))
       = Done (r0, dev, t).
Proof.
  unfold probe_setup.
  destruct (match pd_levels pdata with Some _ => _ | None => _ end) as [max|f];
    [|discriminate].
  destruct (probe_acquire zeroed_type e n ret) as [a|r1|f]; try discriminate.
  destruct (Z.eqb_spec (u32 max) 0) as [|Hmax]; [discriminate|].
  destruct (register_err e); [discriminate|].
  match goal with
  | |- match ?u with _ => _ end = _ -> _ => destruct u as [[[r0 dev1] t1]|f] eqn:Eu
  end; [|discriminate].
  intros H; inversion H; subst. exists a, max, r0. now repeat split.
Qed.

(** X13.  What a successful probe leaves behind.  Whenever [rgbw_dt_probe]
    registers a device it returns 0, and the device starts dark: every
    brightness, tick counter and saved colour is 0, no effect is on, both
    [pcolor] and [bstate] hold [INVALID_COLOR], and all four channels share
    one [max_brightness].  [lth_brightness] is the period divided by a
    non-zero divisor, and the period is 7 650 000 ns when no channel is a
    hardware PWM.  The first refresh has armed the soft-PWM timer of every
    GPIO channel with the pin level recorded as 0, and, when no [notify] hook
    is installed, each hardware-PWM channel received exactly a zero duty
    cycle followed by a disable. *)
Theorem probe_leaves_dark_device (e : probe_env) (r : Z) (dev : rgbw_device)
  (t : list hw_event) :
  rgbw_dt_probe INVALID_COLOR zeroed_type e = Probe_return r (Some (dev, t)) ->
  r = 0
  /\ (forall c, brightness_of dev c = 0 /\ cntr (cell (props dev) c) = 0
                /\ type (cell (props dev) c) = cell (types (data dev)) c)
  /\ (forall c c', max_brightness_of dev c = max_brightness_of dev c')
  /\ acts dev = mk_acts 0 INVALID_COLOR INVALID_COLOR (mk_per_color 0 0 0 0)
  /\ (exists max, max <> 0
                  /\ lth_brightness (data dev) = period (data dev) / max)
  /\ ((forall c, is_pwm (cell (types (data dev)) c) = false) ->
      period (data dev) = 7650000)
  /\ all_armed (data dev)
  /\ (forall c, value (cell (soft_pwm (data dev)) c) = 0)
  /\ (notify (data dev) = None ->
      forall c pin, is_pwm (cell (types (data dev)) c) = true ->
        filter (drives_output c pin) t
        = [Ev_pwm_config c 0 (s32 (period (data dev))); Ev_pwm_disable c]).
Proof.
  intros H.
  assert (exists pdata n ret,
            probe_setup INVALID_COLOR zeroed_type e pdata n ret
            = Probe_return r (Some (dev, t))) as (pdata & n & ret & Hs).
  { unfold rgbw_dt_probe in H.
    destruct (match platform_data e with Some _ => _ | None => _ end)
      as [err|pdata]; [discriminate|].
    destruct (rgbw_dt_validation e <? 0); [discriminate|].
    destruct (pd_init pdata) as [r1|].
    - destruct (r1 <? 0); [discriminate|].
      destruct (pb_alloc_ok e); [eauto | discriminate].
    - destruct (pb_alloc_ok e); [eauto | discriminate]. }
  clear H. apply probe_setup_success in Hs.
  destruct Hs as (a & max & r0 & _ & _ & Hmax & -> & Hu).
  pose proof (rgbw_color_update_frame _ _ _ _ Hu) as (_ & Hp & Ha & Hc).
  pose proof (update_arms_all _ _ _ _ Hu) as (Harmed & Hpins).
  pose proof (fun c pin => rgbw_color_update_calls _ c pin _ _ _ Hu) as Hcalls.
  clear Hu.
  cbn [props acts data] in *.
  destruct Hc as (Ht & Hper & Hlth & Hlev & Hnot & Hna).
  cbn [types period lth_brightness levels notify notify_after] in *.
  split; [reflexivity|]. split; [|split; [|split; [exact Ha|]]].
  - intros c. unfold brightness_of. rewrite Hp, <- Ht, cell_map_cells. now cbn.
  - intros c c'. unfold max_brightness_of. rewrite Hp, !cell_map_cells. reflexivity.
  - split; [exists (u32 max); split; [exact Hmax | now rewrite <- Hlth, <- Hper]|].
    split; [|split; [exact Harmed|split]].
    + intros Hno. rewrite <- Hper. unfold probe_period.
      rewrite Ht.
      assert (find (fun c => is_pwm (cell (types (data dev)) c)) all_colors = None)
        as ->; [|reflexivity].
      cbn [find all_colors]. now rewrite !Hno.
    + intros c. destruct (Hpins c) as (_ & ->). cbn [soft_pwm].
      now rewrite cell_map_cells.
    + intros Hn c pin Hpwm. rewrite (Hcalls c pin).
      unfold pwm_calls, apply_notify, brightness_of.
      cbn [data props types notify period].
      rewrite Hnot, Hn, Ht, Hpwm, cell_map_cells. cbn [brightness].
      change (s32 0) with 0. cbn [Z.eqb]. rewrite Ht in Hper. now rewrite Hper.
Qed.

End ProbeFacts.

(** ** The error path of the probe *)

Lemma acquire_loop_refused (body : rgbw_colors -> acquired -> acquire_step)
  (bound : Z) (a : acquired) (c : rgbw_colors) :
  (forall c' a', color_index c' < color_index c ->
     exists a'', body c' a' = Acq_ok a'' /\ acq_ret a'' = acq_ret a') ->
  (forall a', body c a' = Acq_goto_err_alloc (acq_ret a')) ->
  color_index c < bound ->
  acquire_loop body all_colors 0 bound a = Acq_goto_err_alloc (acq_ret a).
Proof.
  intros Hgrant Hrefuse Hbound.
  assert (forall c', color_index c' <= color_index c ->
            (0 <=? color_index c') && (color_index c' <? bound) = true) as Hin.
  { intros c' Hc'. apply andb_true_intro. split.
    - apply Z.leb_le. destruct c'; cbn; lia.
    - apply Z.ltb_lt. lia. }
  unfold all_colors.
  destruct c; cbn [acquire_loop];
    repeat match goal with
    | |- context [(0 <=? color_index ?x) && (color_index ?x <? bound)] =>
        rewrite (Hin x) by (cbn; lia)
    | |- context [body ?x ?s] =>
        first
          [ rewrite (Hrefuse s)
          | let a1 := fresh "a" in
            let E := fresh "E" in
            let R := fresh "R" in
            destruct (Hgrant x s ltac:(cbn; lia)) as (a1 & E & R); rewrite E ]
    end; congruence.
Qed.

Lemma acquire_loop_granted (e : probe_env) (bound : Z) (a : acquired) :
  3 <= bound <= 4 ->
  (forall c, color_index c < bound -> pwm_get (cell (slot e) c) <> None) ->
  exists a', acquire_loop (acquire_unnamed true e) all_colors 0 bound a = Acq_ok a'
             /\ acq_ret a' = acq_ret a.
Proof.
  intros Hb Hgrant.
  assert (forall c s, color_index c < bound ->
            acquire_unnamed true e c s
            = Acq_ok (mk_acquired (set_cell (acq_types s) c RGBW_PWM)
                                  (acq_pins s) (acq_ret s))) as Hstep.
  { intros c s Hc. unfold acquire_unnamed, acquire_pwm. cbn [acq_types acq_pins acq_ret].
    destruct (pwm_get (cell (slot e) c)) eqn:Eg; [|now apply Hgrant in Hc].
    f_equal. f_equal. now destruct c, (acq_types s). }
  unfold all_colors, MAX_COLORS. cbn [acquire_loop color_index].
  assert (bound = 3 \/ bound = 4) as [-> | ->] by lia.
  - cbn [Z.leb Z.ltb Z.compare Pos.compare Pos.compare_cont andb].
    rewrite !Hstep by (cbn; lia). eexists. split; reflexivity.
  - cbn [Z.leb Z.ltb Z.compare Pos.compare Pos.compare_cont andb].
    rewrite !Hstep by (cbn; lia). eexists. split; reflexivity.
Qed.

Section ProbeErrorFacts.

Variable INVALID_COLOR : Z.
Variable zeroed_type : rgbw_type.

Lemma probe_reaches_setup (e : probe_env) (pdata : platform_rgbw_data) :
  probe_data e = inr pdata ->
  0 <= rgbw_dt_validation e ->
  0 <= ret_at_acquire e pdata ->
  pb_alloc_ok e = true ->
  rgbw_dt_probe INVALID_COLOR zeroed_type e
  = probe_setup INVALID_COLOR zeroed_type e pdata (rgbw_dt_validation e)
      (ret_at_acquire e pdata).
Proof.
  intros Hd Hv Hr Ha. unfold rgbw_dt_probe.
  change (match platform_data e with
          | Some pdata0 => inr pdata0
          | None => rgbw_parse_dt e
          end) with (probe_data e).
  rewrite Hd, Ha.
  destruct (Z.ltb_spec (rgbw_dt_validation e) 0); [lia|].
  rewrite (u32_small (rgbw_dt_validation e))
    by (pose proof (validation_small e); lia).
  unfold ret_at_acquire in *.
  destruct (pd_init pdata) as [r|]; [|reflexivity].
  destruct (Z.ltb_spec r 0); [lia | reflexivity].
Qed.

Lemma probe_setup_err_alloc (e : probe_env) (pdata : platform_rgbw_data)
  (n ret r : Z) :
  max_entry_exists pdata ->
  probe_acquire zeroed_type e n ret = Acq_goto_err_alloc r ->
  probe_setup INVALID_COLOR zeroed_type e pdata n ret = Probe_return r None.
Proof.
  intros Hmax Hacq. unfold probe_setup. rewrite Hacq.
  destruct (pd_levels pdata) as [l|] eqn:El; [|reflexivity].
  unfold table_read. specialize (Hmax l El).
  destruct (Z.leb_spec 0 (pd_max_brightness pdata)); [|lia].
  destruct (Z.ltb_spec (pd_max_brightness pdata) (Z.of_nat (length l))); [|lia].
  reflexivity.
Qed.

(** X14.  A refused PWM is not reported.  Suppose the probe has its platform
    data, the sanity check passed, the state was allocated, and the probe
    asks the PWM core for slot [c] and for every slot before it.  If the
    slots before [c] are granted and slot [c] is refused by both getters, the
    probe registers no device and returns the value [ret] held at that
    point, which is not an error code: the non-negative result of [init], or
    else that of the sanity check. *)
Theorem probe_refused_pwm_returns_no_error (e : probe_env)
  (pdata : platform_rgbw_data) (c : rgbw_colors) :
  probe_data e = inr pdata ->
  0 <= rgbw_dt_validation e ->
  0 <= ret_at_acquire e pdata ->
  pb_alloc_ok e = true ->
  max_entry_exists pdata ->
  (forall c', color_index c' <= color_index c -> asks_pwm e c') ->
  (forall c', color_index c' < color_index c -> pwm_get (cell (slot e) c') <> None) ->
  pwm_get (cell (slot e) c) = None ->
  rgbw_dt_probe INVALID_COLOR zeroed_type e
  = Probe_return (ret_at_acquire e pdata) None
  /\ (pd_init pdata = None ->
      ret_at_acquire e pdata = rgbw_dt_validation e).
Proof.
  intros Hd Hv Hr Ha Hmax Hask Hgrant Hrefuse.
  split; [|intros Hi; unfold ret_at_acquire; now rewrite Hi].
  rewrite (probe_reaches_setup e pdata Hd Hv Hr Ha).
  apply probe_setup_err_alloc; [exact Hmax|].
  unfold probe_acquire. unfold asks_pwm in Hask.
  set (a0 := mk_acquired _ _ _).
  change (ret_at_acquire e pdata) with (acq_ret a0).
  destruct (0 <? rgbw_dt_validation e).
  - apply acquire_loop_refused with (c := c).
    + intros c' a' Hc'. unfold acquire_named.
      destruct (Hask c' ltac:(lia)) as (_ & Hname).
      destruct (Z.leb_spec 0 (pwm_name_index (cell (slot e) c'))); [|lia].
      unfold acquire_pwm.
      destruct (pwm_get (cell (slot e) c')) eqn:Eg; [|now apply Hgrant in Hc'].
      eexists. split; reflexivity.
    + intros a'. unfold acquire_named.
      destruct (Hask c ltac:(lia)) as (_ & Hname).
      destruct (Z.leb_spec 0 (pwm_name_index (cell (slot e) c))); [|lia].
      unfold acquire_pwm. now rewrite Hrefuse.
    + apply (Hask c). lia.
  - assert (0 < s32 (count_pwms e)) as Hpos.
    { pose proof (Hask c ltac:(lia)). destruct c; cbn in *; lia. }
    destruct (Z.ltb_spec 0 (s32 (count_pwms e))); [|lia].
    rewrite (acquire_loop_refused (acquire_unnamed true e) (s32 (count_pwms e)) a0 c);
      [reflexivity| | |].
    + intros c' a' Hc'. unfold acquire_unnamed, acquire_pwm.
      destruct (pwm_get (cell (slot e) c')) eqn:Eg; [|now apply Hgrant in Hc'].
      eexists. split; reflexivity.
    + intros a'. unfold acquire_unnamed, acquire_pwm. now rewrite Hrefuse.
    + apply (Hask c). lia.
Qed.

(** X15.  A node without names and without [gpios] never probes.  Take a
    node that names no colour, lists three or four [pwms] and for which the
    count of [gpios] is an error code.  Even with every PWM granted, the
    probe finds its counter different from [num_hpwms + num_spwms], takes the
    error path and returns [ret], which is 0 unless [init] returned something
    else: no device is registered and no error is reported. *)
Theorem probe_unnamed_pwm_only_node (e : probe_env) (pdata : platform_rgbw_data) :
  probe_data e = inr pdata ->
  0 <= ret_at_acquire e pdata ->
  pb_alloc_ok e = true ->
  max_entry_exists pdata ->
  count_pwm_names e <= 0 -> count_gpio_names e <= 0 ->
  3 <= count_pwms e <= 4 ->
  - 2 ^ 31 <= count_gpios e < 0 ->
  (forall c, color_index c < count_pwms e -> pwm_get (cell (slot e) c) <> None) ->
  rgbw_dt_validation e = 0
  /\ rgbw_dt_probe INVALID_COLOR zeroed_type e
     = Probe_return (ret_at_acquire e pdata) None
  /\ (pd_init pdata = None -> ret_at_acquire e pdata = 0).
Proof.
  intros Hd Hr Ha Hmax Hpn Hgn Hp Hg Hgrant.
  assert (rgbw_dt_validation e = 0) as Hv.
  { unfold rgbw_dt_validation.
    destruct (Z.ltb_spec 0 (count_pwms e)); [|lia].
    destruct (Z.ltb_spec 0 (count_gpios e)); [lia|].
    destruct (Z.ltb_spec 0 (count_pwm_names e)); [lia|].
    destruct (Z.ltb_spec 0 (count_gpio_names e)); [lia|].
    rewrite (u32_small (count_pwms e)) by lia. rewrite Z.add_0_r.
    rewrite (u32_small (count_pwms e)) by lia.
    destruct (Z.ltb_spec (count_pwms e) 3); [lia|].
    destruct (Z.ltb_spec 4 (count_pwms e)); [lia|].
    reflexivity. }
  split; [exact Hv|].
  split; [|intros Hi; unfold ret_at_acquire; now rewrite Hi, Hv].
  rewrite (probe_reaches_setup e pdata Hd ltac:(lia) Hr Ha).
  apply probe_setup_err_alloc; [exact Hmax|].
  unfold probe_acquire. rewrite Hv. cbn [Z.ltb Z.compare].
  set (a0 := mk_acquired _ _ _).
  rewrite (s32_small (count_pwms e)) by lia.
  rewrite (s32_small (count_gpios e)) by lia.
  destruct (Z.ltb_spec 0 (count_pwms e)); [|lia].
  destruct (Z.ltb_spec 0 (count_gpios e)); [lia|].
  destruct (acquire_loop_granted e (count_pwms e) a0 Hp Hgrant) as (a1 & -> & Hret).
  rewrite (s32_small (count_pwms e + count_gpios e)) by lia.
  assert (u32 (count_pwms e + count_gpios e) <> count_pwms e) as Hne.
  { unfold u32. intros Heq.
    pose proof (Z.mod_pos_bound (count_pwms e + count_gpios e) (2 ^ 32) ltac:(lia)).
    assert ((count_pwms e + count_gpios e) mod 2 ^ 32
            = (count_pwms e + count_gpios e + 2 ^ 32) mod 2 ^ 32) as Hm
      by (rewrite <- (Z.mod_add _ 1) by lia; f_equal; lia).
    destruct (Z.lt_ge_cases (count_pwms e + count_gpios e) 0).
    - rewrite Hm, Z.mod_small in Heq by lia. lia.
    - rewrite Z.mod_small in Heq by lia. lia. }
  destruct (Z.eqb_spec (count_pwms e) (u32 (count_pwms e + count_gpios e)));
    [congruence|].
  cbn [negb]. now rewrite Hret.
Qed.

End ProbeErrorFacts.

(** ** Brighter means a longer duty cycle *)

(** X16.  The mapper is monotone.  While the values stay inside the C
    types, a brightness whose raw value (the table entry, or the brightness
    itself without a table) is at least that of another gets a duty cycle at
    least as long, and no duty cycle is below [lth_brightness]. *)
Theorem duty_cycle_monotone (pb : pwm_rgbw_data) (max b1 b2 : Z) :
  0 <= b1 -> 0 <= b2 ->
  fits_32_bits pb b1 max -> fits_32_bits pb b2 max ->
  spec_raw pb b1 <= spec_raw pb b2 ->
  exists d1 d2,
    duty_cycle_of pb b1 max = Done d1 /\ duty_cycle_of pb b2 max = Done d2
    /\ lth_brightness pb <= d1 <= d2.
Proof.
  intros H1 H2 F1 F2 Hraw.
  exists (spec_duty_ns pb b1 max), (spec_duty_ns pb b2 max).
  split; [now apply duty_cycle_of_exact|].
  split; [now apply duty_cycle_of_exact|].
  destruct F1 as (Hlth & Hper & Hmax & _ & Hr1 & _ & _).
  unfold spec_duty_ns. split.
  - assert (0 <= spec_raw pb b1 * (period pb - lth_brightness pb) / max);
      [|lia].
    apply Z.div_pos; [|lia]. apply Z.mul_nonneg_nonneg; lia.
  - apply Z.add_le_mono_l, Z.div_le_mono; [lia|].
    apply Z.mul_le_mono_nonneg_r; lia.
Qed.

(** ** The further properties on concrete devices and nodes *)

Lemma soft_pwm_no_served_channel_witness :
  served_channel idle_device = None
  /\ rgbw_gpio_hrtimer_callback idle_device
     = Done (HRTIMER_NORESTART, idle_device, []).
Proof.
  split; [reflexivity|].
  apply (soft_pwm_no_served_channel idle_device). reflexivity.
Defined.

Lemma soft_pwm_levels_stay_binary_witness :
  exists r d' t,
    rgbw_gpio_hrtimer_callback (soft_firing_device 7650000 255 100 0)
    = Done (r, d', t)
    /\ (forall c, value (cell (soft_pwm (data d')) c) = 0
                  \/ value (cell (soft_pwm (data d')) c) = 1)
    /\ (forall pin v, In (Ev_gpio_set_value pin v) t -> v = 0 \/ v = 1).
Proof.
  eexists. eexists. eexists. split; [vm_compute; reflexivity|].
  assert (forall c, value (cell (soft_pwm (data (soft_firing_device 7650000 255 100 0))) c) = 0
                    \/ value (cell (soft_pwm (data (soft_firing_device 7650000 255 100 0))) c) = 1)
    as Hbin by (intros c; left; destruct c; reflexivity).
  pose proof (soft_pwm_levels_stay_binary
                (soft_firing_device 7650000 255 100 0) _ _ _ Hbin eq_refl)
    as (H1 & H2 & _).
  split; [exact H1 | exact H2].
Defined.

Lemma soft_pwm_one_period_witness :
  served_channel (soft_firing_device 7650000 255 100 0) = Some COLOR_WHITE
  /\ exists d1 d2,
       rgbw_gpio_hrtimer_callback (soft_firing_device 7650000 255 100 0)
       = Done (HRTIMER_RESTART, d1,
               [Ev_gpio_set_value 42 1; Ev_hrtimer_forward 3000000])
       /\ rgbw_gpio_hrtimer_callback d1
          = Done (HRTIMER_RESTART, d2,
                  [Ev_gpio_set_value 42 0; Ev_hrtimer_forward 4650000]).
Proof.
  split; [reflexivity|].
  destruct (soft_pwm_one_period (soft_firing_device 7650000 255 100 0) COLOR_WHITE)
    as (d1 & d2 & high_ns & low_ns & E1 & E2 & Hhigh & _ & _ & Hsum & _).
  - reflexivity.
  - reflexivity.
  - reflexivity.
  - cbn. lia.
  - cbn. lia.
  - exists d1, d2. cbn in Hhigh, Hsum. subst high_ns.
    assert (low_ns = 4650000) as -> by lia.
    split; [exact E1 | exact E2].
Defined.

Lemma core_op_keeps_setup_witness :
  exists d' t,
    run_op 1 2 4 8 10000000 500000000 Op_rb_timer
      (sample_device 7650000 255 (mk_per_color 255 0 0 0) 0 8 0 0
                     (mk_per_color 0 0 0 0)) = Done (tt, d', t)
    /\ (forall c, max_brightness_of d' c = 255)
    /\ state (acts d') = 8
    /\ period (data d') = 7650000
    /\ lth_brightness (data d') = 30000.
Proof.
  eexists. eexists. split; [vm_compute; reflexivity|].
  pose proof (core_op_keeps_setup 1 2 4 8 10000000 500000000 Op_rb_timer
                (sample_device 7650000 255 (mk_per_color 255 0 0 0) 0 8 0 0
                               (mk_per_color 0 0 0 0)) _ _ eq_refl)
    as (Hmax & Hst & _ & _ & _ & Hper & Hlth & _).
  split; [|split; [exact Hst | split; [exact Hper | exact Hlth]]].
  intros c. rewrite Hmax. now destruct c.
Defined.

Lemma blink_alternates_witness :
  exists l d',
    fire (rgbw_blink_hrtimer_callback 2 500000000) 4
         (sample_device 7650000 255 (mk_per_color 0 0 0 0) 0 2 0 0
                        (mk_per_color 200 100 50 0)) = Done (l, d')
    /\ length l = 4%nat
    /\ forall k x, nth_error l k = Some x ->
         (forall c, brightness_of (fst x) c
                    = if Bool.eqb (Nat.even k) true
                      then 0 else cell (mk_per_color 200 100 50 0) c)
         /\ exists t, snd x = t ++ [Ev_hrtimer_forward 500000000].
Proof.
  apply (blink_alternates 2 500000000
           (sample_device 7650000 255 (mk_per_color 0 0 0 0) 0 2 0 0
                          (mk_per_color 200 100 50 0)) 4).
  - reflexivity.
  - intros c b _. apply sample_device_ready. vm_compute. discriminate.
Defined.

Lemma rainbow_full_turn_witness :
  exists l d',
    fire (rgbw_rb_hrtimer_callback 8 10000000) 18
         (sample_device 7650000 3 (mk_per_color 3 0 0 0) 0 8 0 0
                        (mk_per_color 0 0 0 0)) = Done (l, d')
    /\ length l = 18%nat
    /\ bstate (acts d') = 0
    /\ (forall c, brightness_of d' c
                  = brightness_of
                      (sample_device 7650000 3 (mk_per_color 3 0 0 0) 0 8 0 0
                                     (mk_per_color 0 0 0 0)) c)
    /\ forall x, In x l ->
         brightness_in_range (fst x)
         /\ brightness_of (fst x) COLOR_WHITE
            = brightness_of
                (sample_device 7650000 3 (mk_per_color 3 0 0 0) 0 8 0 0
                               (mk_per_color 0 0 0 0)) COLOR_WHITE.
Proof.
  apply (rainbow_full_turn 8 10000000
           (sample_device 7650000 3 (mk_per_color 3 0 0 0) 0 8 0 0
                          (mk_per_color 0 0 0 0)) 2 2 2).
  - reflexivity.
  - intros c b _. apply sample_device_ready. vm_compute. discriminate.
  - reflexivity.
  - intros c. destruct c; cbn; lia.
  - reflexivity.
  - reflexivity.
  - reflexivity.
  - reflexivity.
  - reflexivity.
  - reflexivity.
  - cbn. lia.
Defined.

Lemma rainbow_reset_witness :
  exists d1 t,
    rgbw_rb_hrtimer_callback 8 10000000
      (sample_device 7650000 255 (mk_per_color 10 20 30 40) 0 8 7 0
                     (mk_per_color 0 0 0 0))
    = Done (HRTIMER_RESTART, d1, t ++ [Ev_hrtimer_forward 10000000])
    /\ bstate (acts d1) = 0
    /\ brightness_of d1 COLOR_RED = 255
    /\ brightness_of d1 COLOR_GREEN = 0
    /\ brightness_of d1 COLOR_BLUE = 0
    /\ brightness_of d1 COLOR_WHITE = 0.
Proof.
  apply (rainbow_reset 8 10000000
           (sample_device 7650000 255 (mk_per_color 10 20 30 40) 0 8 7 0
                          (mk_per_color 0 0 0 0))).
  - reflexivity.
  - cbn. lia.
  - intros c. apply sample_device_ready. vm_compute. discriminate.
Defined.

Lemma update_returns_iff_ready_witness :
  exists d' t, rgbw_color_update idle_device = Done (0, d', t).
Proof.
  apply (proj1 (update_returns_iff_ready idle_device)).
  intros c. apply sample_device_ready. vm_compute. discriminate.
Defined.

Lemma update_twice_witness :
  exists r d1 t1,
    rgbw_color_update idle_device = Done (r, d1, t1)
    /\ all_armed (data d1)
    /\ exists t2,
         rgbw_color_update d1 = Done (0, d1, t2)
         /\ (forall c ns, ~ In (Ev_hrtimer_start c ns) t2)
         /\ forall c pin,
              filter (drives_output c pin) t2 = filter (drives_output c pin) t1.
Proof.
  eexists. eexists. eexists. split; [vm_compute; reflexivity|].
  exact (update_twice idle_device _ _ _ eq_refl).
Defined.

Lemma pulse_update_is_local_witness :
  exists r d' t,
    pulse_color_update 3 idle_device = Done (r, d', t)
    /\ r = 0
    /\ forall c', c' <> COLOR_WHITE ->
         (forall pin, filter (drives_output c' pin) t = [])
         /\ (forall ns, ~ In (Ev_hrtimer_start c' ns) t)
         /\ cell (soft_pwm (data d')) c' = cell (soft_pwm (data idle_device)) c'.
Proof.
  eexists. eexists. eexists. split; [vm_compute; reflexivity|].
  exact (proj1 (proj2 (pulse_update_is_local idle_device 3 _ _ _ eq_refl))
           COLOR_WHITE eq_refl).
Defined.

Lemma parse_dt_outcomes_witness :
  exists pdata,
    rgbw_parse_dt four_level_env = inr pdata
    /\ pd_levels pdata = Some [0; 64; 128; 255]
    /\ pd_max_brightness pdata = 3
    /\ table_read Arr_levels [0; 64; 128; 255] (pd_max_brightness pdata) = Done 255.
Proof.
  eexists. split; [vm_compute; reflexivity|].
  destruct (proj2 (parse_dt_outcomes four_level_env) _ [0; 64; 128; 255]
              eq_refl eq_refl ltac:(cbn; lia))
    as (_ & _ & _ & _ & [(Hnil & _) | (_ & _ & Hlev & Hmax & Hread)]).
  - discriminate Hnil.
  - split; [exact Hlev|]. split; [exact Hmax | exact Hread].
Defined.

Lemma dt_validation_outcomes_witness :
  0 <= rgbw_dt_validation four_level_env
  /\ rgbw_dt_validation four_level_env = 4.
Proof.
  destruct (dt_validation_outcomes four_level_env 4 4) as (Hiff & Hval & _).
  - cbn. lia.
  - cbn. lia.
  - cbn. lia.
  - cbn. lia.
  - reflexivity.
  - reflexivity.
  - assert (0 <= rgbw_dt_validation four_level_env) as Hok
      by (apply Hiff; split; [lia | now right]).
    split; [exact Hok | exact (Hval Hok)].
Defined.

Lemma probe_leaves_dark_device_witness :
  exists dev t,
    rgbw_dt_probe (- 1) RGBW_TYPE_INVALID four_level_env
    = Probe_return 0 (Some (dev, t))
    /\ (forall c, brightness_of dev c = 0)
    /\ all_armed (data dev)
    /\ filter (drives_output COLOR_RED 0) t
       = [Ev_pwm_config COLOR_RED 0 (s32 (period (data dev)));
          Ev_pwm_disable COLOR_RED].
Proof.
  eexists. eexists.
  match goal with
  | |- ?run /\ _ => assert run as Hrun by (vm_compute; reflexivity)
  end.
  split; [exact Hrun|].
  pose proof (probe_leaves_dark_device (- 1) RGBW_TYPE_INVALID four_level_env
                _ _ _ Hrun)
    as (_ & Hdark & _ & _ & _ & _ & Harmed & _ & Hcalls).
  split; [intros c; apply (Hdark c)|]. split; [exact Harmed|].
  apply (Hcalls eq_refl COLOR_RED 0). reflexivity.
Defined.

Lemma probe_refused_pwm_returns_no_error_witness :
  rgbw_dt_probe (- 1) RGBW_TYPE_INVALID refused_blue_env = Probe_return 4 None.
Proof.
  refine (proj1 (probe_refused_pwm_returns_no_error (- 1) RGBW_TYPE_INVALID
                   refused_blue_env
                   (mk_platform_data 3 0 0 (Some [0; 64; 128; 255])
                                     None None false false)
                   COLOR_BLUE eq_refl _ _ eq_refl _ _ _ eq_refl)).
  - vm_compute. discriminate.
  - vm_compute. discriminate.
  - intros l Hl. inversion Hl; subst l. cbn. lia.
  - intros c' Hc'. destruct c'; unfold asks_pwm; cbn in *; lia.
  - intros c' Hc'. destruct c'; cbn in *; (discriminate || lia).
Defined.

Lemma probe_unnamed_pwm_only_node_witness :
  rgbw_dt_validation unnamed_pwm_env = 0
  /\ rgbw_dt_probe (- 1) RGBW_TYPE_INVALID unnamed_pwm_env = Probe_return 0 None.
Proof.
  destruct (probe_unnamed_pwm_only_node (- 1) RGBW_TYPE_INVALID unnamed_pwm_env
              (mk_platform_data 3 0 0 (Some [0; 64; 128; 255])
                                None None false false))
    as (Hv & Hp & _).
  - reflexivity.
  - vm_compute. discriminate.
  - reflexivity.
  - intros l Hl. inversion Hl; subst l. cbn. lia.
  - cbn. lia.
  - cbn. lia.
  - cbn. lia.
  - cbn. lia.
  - intros c _. destruct c; discriminate.
  - split; [exact Hv | exact Hp].
Defined.

Lemma duty_cycle_monotone_witness :
  exists d1 d2,
    duty_cycle_of (sample_data 7650000 255 None 0 false) 10 255 = Done d1
    /\ duty_cycle_of (sample_data 7650000 255 None 0 false) 200 255 = Done d2
    /\ 30000 <= d1 <= d2.
Proof.
  assert (forall b, 0 <= b <= 255 ->
            fits_32_bits (sample_data 7650000 255 None 0 false) b 255) as Hfit.
  { intros b Hb. unfold fits_32_bits, spec_duty_ns, spec_raw.
    cbn [levels period lth_brightness sample_data].
    change (7650000 / 255) with 30000. change (7650000 - 30000) with 7620000.
    split; [lia|]. split; [lia|]. split; [lia|]. split; [discriminate|].
    split; [lia|]. split; [lia|].
    assert (b * 7620000 / 255 <= 7620000); [|lia].
    apply Z.div_le_upper_bound; lia. }
  apply (duty_cycle_monotone (sample_data 7650000 255 None 0 false) 255 10 200).
  - lia.
  - lia.
  - apply Hfit. lia.
  - apply Hfit. lia.
  - cbn. lia.
Defined.
